(** * ledger_api: a shallow embedding of the Django ledger application

    The development follows the layout of the repository:
    - [Py]          the Python built-ins the views rely on (str.strip, float,
                    sum, datetime.strptime);
    - [QuerySet], [Field], [CharField]
                    what the code uses of Django and of the REST framework:
                    lazy query sets over a table of rows, the conversion of
                    a primary key, the validation of a text field;
    - [User], [LedgerEntry], [Customer]   models.py;
    - [UserRegistrationSerializer], [LedgerEntrySerializer],
      [CustomerSummarySerializer]         serializers.py;
    - [UserRegistrationView], [CustomerViewSet], [LedgerEntryViewSet]  views.py;
    - [Spec]        the vocabulary of the specification, which the theorems
                    compare the code with;
    - [Sample]      a small data store for the examples.

    Monetary amounts are [DecimalField(max_digits=12, decimal_places=2)]: a
    value is kept as its number of hundredths, an integer.  Python's [float]
    is IEEE 754 binary64, taken from the standard library's [SpecFloat].  A
    string is a list of characters, each a Unicode code point below 256
    (ASCII and the Latin-1 supplement); text with other code points is not
    covered.  Time stamps are integers. *)

From Stdlib Require Import ZArith String Ascii Bool Lia SpecFloat DecimalString.
From stdpp Require Import base tactics option list sorting strings.

Open Scope Z_scope.

(* ================================================================== *)
(** * Python built-ins                                                 *)
(* ================================================================== *)

Module Py.

(** ** str *)

(** [str.isspace] on one character: of the code points below 256 these are
    TAB, LF, VT, FF, CR, FS, GS, RS, US, the space, NEL (U+0085) and the
    no-break space (U+00A0). *)
Definition isspace (c : ascii) : bool :=
  let n := Z.of_N (N_of_ascii c) in
  ((9 <=? n) && (n <=? 13)) || ((28 <=? n) && (n <=? 32)) ||
  (n =? 133) || (n =? 160).

Fixpoint lstrip (s : string) : string :=
  match s with
  | EmptyString => EmptyString
  | String c s' => if isspace c then lstrip s' else s
  end.

Fixpoint rstrip (s : string) : string :=
  match s with
  | EmptyString => EmptyString
  | String c s' =>
      match rstrip s' with
      | EmptyString => if isspace c then EmptyString else String c EmptyString
      | r => String c r
      end
  end.

(** [s.strip()] *)
Definition strip (s : string) : string := rstrip (lstrip s).

(** The white space that [int] skips around a number: TAB, LF, VT, FF, CR
    and the space, and of the code points from 128 on those that are white
    space, NEL (U+0085) and the no-break space (U+00A0).  FS, GS, RS and US,
    which [str.strip] removes, are not skipped. *)
Definition int_space (c : ascii) : bool :=
  let n := Z.of_N (N_of_ascii c) in
  ((9 <=? n) && (n <=? 13)) || (n =? 32) || (n =? 133) || (n =? 160).

(** Trimming by a given notion of white space. *)
Fixpoint lstrip_by (space : ascii -> bool) (s : string) : string :=
  match s with
  | EmptyString => EmptyString
  | String c s' => if space c then lstrip_by space s' else s
  end.

Fixpoint rstrip_by (space : ascii -> bool) (s : string) : string :=
  match s with
  | EmptyString => EmptyString
  | String c s' =>
      match rstrip_by space s' with
      | EmptyString => if space c then EmptyString else String c EmptyString
      | r => String c r
      end
  end.

(** [len(s)] *)
Definition len (s : string) : Z := Z.of_nat (String.length s).

(** A text between double quotes, as the messages of the framework show
    an input. *)
Definition repr_str (s : string) : string :=
  String (ascii_of_nat 34) (s ++ String (ascii_of_nat 34) EmptyString).

(** [str(n)] for an integer, in decimal digits. *)
Definition str_int (n : Z) : string := NilZero.string_of_int (Z.to_int n).

(** Truth value of a string: [not s] holds for the empty string. *)
Definition truthy (s : string) : bool :=
  match s with EmptyString => false | _ => true end.

(** Truth value of [d.get(key)]: [None] and the empty string are false. *)
Definition given (p : option string) : bool :=
  match p with Some s => truthy s | None => false end.

(** The lower case of the ASCII letters only: the case folding of the data
    store's [LIKE], which [icontains] compiles to. *)
Definition lower_char (c : ascii) : ascii :=
  let n := N_of_ascii c in
  if ((65 <=? n) && (n <=? 90))%N then ascii_of_N (n + 32) else c.

Fixpoint lower (s : string) : string :=
  match s with
  | EmptyString => EmptyString
  | String c s' => String (lower_char c) (lower s')
  end.

(** [s.lower()]: below 256 the capital letters are A to Z and, in the
    Latin-1 supplement, U+00C0 to U+00DE without the multiplication sign
    U+00D7. *)
Definition str_lower_char (c : ascii) : ascii :=
  let n := N_of_ascii c in
  if (((65 <=? n) && (n <=? 90)) ||
      ((192 <=? n) && (n <=? 222) && negb (n =? 215)))%N
  then ascii_of_N (n + 32) else c.

Fixpoint str_lower (s : string) : string :=
  match s with
  | EmptyString => EmptyString
  | String c s' => String (str_lower_char c) (str_lower s')
  end.

Fixpoint startswith (s p : string) {struct p} : bool :=
  match p, s with
  | EmptyString, _ => true
  | String _ _, EmptyString => false
  | String a p', String b s' => if Ascii.eqb a b then startswith s' p' else false
  end.

(** [needle in hay] *)
Fixpoint contains (hay needle : string) : bool :=
  startswith hay needle ||
  match hay with
  | EmptyString => false
  | String _ hay' => contains hay' needle
  end.

(** ** float: IEEE 754 binary64, round to nearest even *)

Definition float := spec_float.
Definition prec : Z := 53.
Definition emax : Z := 1024.

Definition fzero : float := S754_zero false.
Definition fadd : float -> float -> float := SFadd prec emax.

Definition Z2SF (z : Z) : spec_float :=
  match z with
  | Z0 => S754_zero false
  | Zpos p => S754_finite false p 0
  | Zneg p => S754_finite true p 0
  end.

(** [float(d)] for a decimal [d] of [cents] hundredths: the binary64
    number nearest to [cents / 100].  The quotient is rounded once; the
    integer numerator is never rounded on its own. *)
Definition float_of_decimal (cents : Z) : float :=
  SFdiv prec emax (Z2SF cents) (S754_finite false 100 0).

(** [acc += x] repeated over a list, left to right. *)
Definition fsum_from (acc : float) (xs : list float) : float :=
  fold_left fadd xs acc.

(** The built-in [sum] depends on the interpreter, which the repository does
    not fix: up to CPython 3.11 the floats are added one after the other,
    from CPython 3.12 on they are added with Neumaier's compensation. *)
Inductive interpreter : Type :=
| CPython_3_11      (* CPython 3.11 and earlier *)
| CPython_3_12.     (* CPython 3.12 and later *)

Definition fsub (x y : float) : float := SFadd prec emax x (SFopp y).
Definition fabs_leb (x y : float) : bool :=
  match SFcompare (SFabs x) (SFabs y) with
  | Some Gt | None => false
  | _ => true
  end.
Definition neumaier_step (st : float * float) (x : float) : float * float :=
  let '(s, c) := st in
  let t := fadd s x in
  let c' := if fabs_leb x s then fadd c (fadd (fsub s t) x)
            else fadd c (fadd (fsub x t) s) in
  (t, c').
(** The compensated sum: [c] collects what the additions lose and is added
    at the end, when it is finite and not zero. *)
Definition sum_compensated (xs : list float) : float :=
  let '(s, c) := fold_left neumaier_step xs (fzero, fzero) in
  match c with
  | S754_finite _ _ _ => fadd s c
  | _ => s
  end.

(** [sum(xs)] over floats, starting from 0.  The sum of no numbers is the
    integer 0, for which the float zero stands. *)
Definition sum (py : interpreter) (xs : list float) : float :=
  match py with
  | CPython_3_11 => fsum_from fzero xs
  | CPython_3_12 => sum_compensated xs
  end.

(** The value of a float is exactly [cents / 100]. *)
Definition exactly (f : float) (cents : Z) : Prop :=
  match f with
  | S754_zero _ => cents = 0
  | S754_finite s m e =>
      let n := if s then Z.neg m else Z.pos m in
      if 0 <=? e then 100 * n * 2 ^ e = cents
      else 100 * n = cents * 2 ^ (- e)
  | _ => False
  end.

(** ** datetime.date *)

Record date := Date { year : Z; month : Z; day : Z }.

Definition date_ltb (a b : date) : bool :=
  (year a <? year b) ||
  ((year a =? year b) &&
   ((month a <? month b) ||
    ((month a =? month b) && (day a <? day b)))).

Definition date_eqb (a b : date) : bool :=
  (year a =? year b) && (month a =? month b) && (day a =? day b).

(** [a <= b] on dates *)
Definition date_leb (a b : date) : bool := date_ltb a b || date_eqb a b.

Definition is_leap (y : Z) : bool :=
  (y mod 4 =? 0) && (negb (y mod 100 =? 0) || (y mod 400 =? 0)).

Definition days_in_month (y m : Z) : Z :=
  if m =? 2 then (if is_leap y then 29 else 28)
  else if (m =? 4) || (m =? 6) || (m =? 9) || (m =? 11) then 30
  else 31.

(** [datetime.date(y, m, d)]: [None] stands for ValueError. *)
Definition make_date (y m d : Z) : option date :=
  if (1 <=? y) && (y <=? 9999) && (1 <=? m) && (m <=? 12) &&
     (1 <=? d) && (d <=? days_in_month y m)
  then Some (Date y m d) else None.

Definition digit (c : ascii) : option Z :=
  let n := Z.of_N (N_of_ascii c) in
  if (48 <=? n) && (n <=? 57) then Some (n - 48) else None.

(** [%m]: the pattern [1[0-2]|0[1-9]|[1-9]], followed by the separator. *)
Definition parse_month (s : string) : option (Z * string) :=
  match s with
  | String a (String "-" rest) =>
      match digit a with
      | Some m => if 1 <=? m then Some (m, rest) else None
      | None => None
      end
  | String a (String b (String "-" rest)) =>
      match digit a, digit b with
      | Some 1, Some m => if m <=? 2 then Some (10 + m, rest) else None
      | Some 0, Some m => if 1 <=? m then Some (m, rest) else None
      | _, _ => None
      end
  | _ => None
  end.

(** [%d]: the pattern [3[0-1]|[1-2]\d|0[1-9]|[1-9]| [1-9]], which must use
    up the string. *)
Definition parse_day (s : string) : option Z :=
  match s with
  | String a EmptyString =>
      match digit a with
      | Some d => if 1 <=? d then Some d else None
      | None => None
      end
  | String a (String b EmptyString) =>
      match digit b with
      | Some d =>
          if Ascii.eqb a " " then (if 1 <=? d then Some d else None)
          else match digit a with
               | Some 0 => if 1 <=? d then Some d else None
               | Some 1 => Some (10 + d)
               | Some 2 => Some (20 + d)
               | Some 3 => if d <=? 1 then Some (30 + d) else None
               | _ => None
               end
      | None => None
      end
  | _ => None
  end.

(** [datetime.strptime(s, '%Y-%m-%d').date()]: [None] stands for
    ValueError. *)
Definition strptime_ymd (s : string) : option date :=
  match s with
  | String y1 (String y2 (String y3 (String y4 (String "-" rest)))) =>
      match digit y1, digit y2, digit y3, digit y4 with
      | Some a, Some b, Some c, Some d =>
          match parse_month rest with
          | Some (m, rest') =>
              match parse_day rest' with
              | Some dd => make_date (1000 * a + 100 * b + 10 * c + d) m dd
              | None => None
              end
          | None => None
          end
      | _, _, _, _ => None
      end
  | _ => None
  end.

(** [str(d)], that is [d.isoformat()]: year, month and day with leading
    zeros. *)
Definition digit_char (d : Z) : ascii := ascii_of_N (Z.to_N (48 + d)).

Definition two_digits (n : Z) : string :=
  String (digit_char (n / 10)) (String (digit_char (n mod 10)) EmptyString).

Definition isoformat (d : date) : string :=
  String (digit_char (year d / 1000))
    (String (digit_char (year d / 100 mod 10))
       (String (digit_char (year d / 10 mod 10))
          (String (digit_char (year d mod 10))
             (String "-"
                (two_digits (month d) ++ String "-" (two_digits (day d))))))).

End Py.

(* ================================================================== *)
(** * Django query sets                                                *)
(* ================================================================== *)

(** A query set is lazy: it records the table it reads, the accumulated
    WHERE condition and the ordering of the model's [Meta]; the rows are
    fetched when it is iterated, counted or aggregated. *)
Module QuerySet.

Record t (Row : Type) : Type := mk {
  table : list Row;
  where_ : Row -> bool;
  order_by : Row -> Row -> bool
}.
Arguments mk {Row} _ _ _.
Arguments table {Row} _.
Arguments where_ {Row} _ _.
Arguments order_by {Row} _ _ _.

(** What [get] may answer; the last three are the exceptions it raises. *)
Inductive lookup (Row : Type) : Type :=
| Found (r : Row)
| DoesNotExist
| MultipleObjectsReturned
| ValueError.
Arguments Found {Row} _.
Arguments DoesNotExist {Row}.
Arguments MultipleObjectsReturned {Row}.
Arguments ValueError {Row}.

Section Operations.
Context {Row : Type}.

(** [Model.objects.all()] *)
Definition all (tbl : list Row) (ordering : Row -> Row -> bool) : t Row :=
  mk tbl (fun _ => true) ordering.

(** [qs.filter(cond)] *)
Definition filter (cond : Row -> bool) (qs : t Row) : t Row :=
  mk (table qs) (fun r => where_ qs r && cond r) (order_by qs).

(** The rows selected by the WHERE condition, in table order. *)
Definition selected (qs : t Row) : list Row :=
  List.filter (where_ qs) (table qs).

(** Iterating the query set: SELECT ... WHERE ... ORDER BY. *)
Definition rows (qs : t Row) : list Row :=
  merge_sort (fun a b => Is_true (order_by qs a b)) (selected qs).

(** [qs.count()] *)
Definition count (qs : t Row) : Z := Z.of_nat (length (selected qs)).

(** [qs.aggregate(Sum(field))[field__sum]]: NULL, that is [None], over
    no rows. *)
Definition aggregate_sum (field : Row -> Z) (qs : t Row) : option Z :=
  match selected qs with
  | [] => None
  | l => Some (fold_left Z.add (map field l) 0)
  end.

(** [qs.get()] *)
Definition get (qs : t Row) : lookup Row :=
  match selected qs with
  | [] => DoesNotExist
  | [r] => Found r
  | _ => MultipleObjectsReturned
  end.
End Operations.

End QuerySet.

(** A value of the request body or of the query string used as a primary
    key. *)
Inductive JsonValue : Type :=
| JNone
| JInt (z : Z)
| JStr (s : string).

Module Field.

Fixpoint parse_digits (acc : Z) (after_digit : bool) (s : string) : option Z :=
  match s with
  | EmptyString => if after_digit then Some acc else None
  | String c s' =>
      match Py.digit c with
      | Some d => parse_digits (10 * acc + d) true s'
      | None =>
          if Ascii.eqb c "_" && after_digit then parse_digits acc false s'
          else None
      end
  end.

(** [int(s)] on a string: surrounding white space, an optional sign, and
    decimal digits that single underscores may separate. *)
Definition int_of_str (s : string) : option Z :=
  match Py.rstrip_by Py.int_space (Py.lstrip_by Py.int_space s) with
  | String "+" s' => parse_digits 0 false s'
  | String "-" s' => option_map Z.opp (parse_digits 0 false s')
  | s' => parse_digits 0 false s'
  end.

(** What an integer field makes of a lookup value: [inl z] is a number,
    [inr true] is NULL and [inr false] is ValueError. *)
Definition get_prep_value (v : JsonValue) : Z + bool :=
  match v with
  | JNone => inr true
  | JInt z => inl z
  | JStr s => match int_of_str s with Some z => inl z | None => inr false end
  end.

End Field.

(* ================================================================== *)
(** * models.py                                                        *)
(* ================================================================== *)

Module User.
Record t : Type := mk {
  id : Z;
  username : string;
  email : string;
  first_name : string;
  last_name : string
}.
End User.

Module LedgerEntry.

Record t : Type := mk {
  id : Z;
  customer : Z;              (* foreign key: Customer.id *)
  type : string;
  amount : Z;                (* hundredths *)
  note : option string;
  entry_date : Py.date;
  created_at : Z;
  updated_at : Z
}.

Definition TYPE_CHOICES : list (string * string) :=
  [("CREDIT", "Credit"); ("DEBIT", "Debit")]%string.

(** [Meta.ordering = ['-entry_date', '-created_at']]: [ordering a b] says
    that [a] may be listed before [b]. *)
Definition ordering (a b : t) : bool :=
  Py.date_ltb (entry_date b) (entry_date a) ||
  (Py.date_eqb (entry_date b) (entry_date a) && (created_at b <=? created_at a)).

Definition objects (tbl : list t) : QuerySet.t t := QuerySet.all tbl ordering.

Fixpoint display (choices : list (string * string)) (v : string) : string :=
  match choices with
  | [] => v
  | (k, label) :: rest => if String.eqb k v then label else display rest v
  end.

Definition get_type_display (self : t) : string :=
  display TYPE_CHOICES (type self).

End LedgerEntry.

Module Customer.

Record t : Type := mk {
  id : Z;
  user : Z;                  (* foreign key: User.id *)
  name : string;
  phone : option string;
  address : option string;
  created_at : Z;
  updated_at : Z
}.

(** [Meta.ordering = ['-created_at']] *)
Definition ordering (a b : t) : bool := created_at b <=? created_at a.

Definition objects (tbl : list t) : QuerySet.t t := QuerySet.all tbl ordering.

(** [self.ledger_entries]: the reverse side of [LedgerEntry.customer]. *)
Definition ledger_entries (entries : list LedgerEntry.t) (self : t)
  : QuerySet.t LedgerEntry.t :=
  QuerySet.filter (fun e => LedgerEntry.customer e =? id self)
                  (LedgerEntry.objects entries).

Record Summary : Type := mkSummary {
  total_credit : Z;
  total_debit : Z;
  balance : Z
}.

(** [x or 0] for the result of an aggregate: [None] and a zero sum give 0. *)
Definition or_zero (x : option Z) : Z :=
  match x with
  | Some v => if v =? 0 then 0 else v
  | None => 0
  end.

Definition has_type (ty : string) (e : LedgerEntry.t) : bool :=
  String.eqb (LedgerEntry.type e) ty.

Definition get_summary (entries_tbl : list LedgerEntry.t) (self : t) : Summary :=
  let entries := ledger_entries entries_tbl self in
  let total_credit :=
    or_zero (QuerySet.aggregate_sum LedgerEntry.amount
               (QuerySet.filter (has_type "CREDIT") entries)) in
  let total_debit :=
    or_zero (QuerySet.aggregate_sum LedgerEntry.amount
               (QuerySet.filter (has_type "DEBIT") entries)) in
  let balance := total_credit - total_debit in
  mkSummary total_credit total_debit balance.

(** [Customer.objects.get(id=customer_id, user=user)] *)
Definition get_owned (tbl : list t) (customer_id : JsonValue) (owner : Z)
  : QuerySet.lookup t :=
  match Field.get_prep_value customer_id with
  | inl n =>
      QuerySet.get
        (QuerySet.filter (fun c => (id c =? n) && (user c =? owner)) (objects tbl))
  | inr true => QuerySet.DoesNotExist
  | inr false => QuerySet.ValueError
  end.

End Customer.

(** The tables of the data store. *)
Record Database : Type := mkDatabase {
  users : list User.t;
  customers : list Customer.t;
  ledger_entries : list LedgerEntry.t
}.

(* ================================================================== *)
(** * HTTP responses                                                   *)
(* ================================================================== *)

Definition HTTP_200_OK : Z := 200.
Definition HTTP_201_CREATED : Z := 201.
Definition HTTP_204_NO_CONTENT : Z := 204.
Definition HTTP_400_BAD_REQUEST : Z := 400.
Definition HTTP_404_NOT_FOUND : Z := 404.
Definition HTTP_500_INTERNAL_SERVER_ERROR : Z := 500.

(** An error body: keys (a field name, or ["error"]) with their message. *)
Definition Errors : Type := list (string * string).

Inductive Response (A : Type) : Type :=
| Ok (data : A) (status : Z)               (* Response(data, status=...) *)
| Rejected (errors : Errors) (status : Z)  (* Response(errors, status=...) *)
| Unhandled (exception : string).          (* an exception no view catches *)
Arguments Ok {A} _ _.
Arguments Rejected {A} _ _.
Arguments Unhandled {A} _.

Definition status_code {A : Type} (r : Response A) : Z :=
  match r with
  | Ok _ s => s
  | Rejected _ s => s
  | Unhandled _ => HTTP_500_INTERNAL_SERVER_ERROR
  end.

Definition error (msg : string) : Errors := [("error"%string, msg)].

(* ================================================================== *)
(** * serializers.py                                                   *)
(* ================================================================== *)

(** [rest_framework.fields.CharField]: the value is trimmed of surrounding
    white space ([trim_whitespace] is on unless switched off), a blank value
    is refused unless [allow_blank], then the validators run. *)
Module CharField.

Inductive outcome : Type :=
| Value (v : string)
| Skipped                    (* absent and not required *)
| Failed (msgs : list string).

(** [run_validators]: every validator of the field runs, in the order of
    [self.validators], and the messages of those that fail are collected. *)
Fixpoint run_validators (vs : list (string -> option string)) (v : string)
  : list string :=
  match vs with
  | [] => []
  | f :: rest =>
      match f v with
      | Some msg => msg :: run_validators rest v
      | None => run_validators rest v
      end
  end.

(** [ProhibitNullCharactersValidator], which every [CharField] puts at the
    end of its validators. *)
Definition ProhibitNullCharactersValidator (v : string) : option string :=
  if Py.contains v (String Ascii.zero EmptyString)
  then Some "Null characters are not allowed."%string
  else None.

Definition MinLengthValidator (n : Z) (v : string) : option string :=
  if Py.len v <? n
  then Some ("Ensure this field has at least " ++ Py.str_int n ++ " characters.")%string
  else None.

Definition MaxLengthValidator (n : Z) (v : string) : option string :=
  if n <? Py.len v
  then Some ("Ensure this field has no more than " ++ Py.str_int n ++ " characters.")%string
  else None.

Definition run_validation (required allow_blank : bool)
    (validators : list (string -> option string)) (data : option string)
  : outcome :=
  match data with
  | None => if required then Failed ["This field is required."%string] else Skipped
  | Some raw =>
      let v := Py.strip raw in
      if negb (Py.truthy v) then
        (if allow_blank then Value EmptyString
         else Failed ["This field may not be blank."%string])
      else match run_validators validators v with
           | [] => Value v
           | msgs => Failed msgs
           end
  end.

Definition value_or (d : string) (o : outcome) : string :=
  match o with Value v => v | _ => d end.

Definition failure (field : string) (o : outcome) : Errors :=
  match o with Failed msgs => map (pair field) msgs | _ => [] end.

End CharField.

Module UserRegistrationSerializer.

(** The request body. *)
Record Data : Type := mkData {
  username : option string;
  email : option string;
  password : option string;
  password_confirm : option string;
  first_name : option string;
  last_name : option string
}.

(** What the field validation hands to [validate] and [create]. *)
Record Validated : Type := mkValidated {
  v_username : string;
  v_email : string;
  v_password : string;
  v_password_confirm : string;
  v_first_name : string;
  v_last_name : string
}.

Section Fields.
(** The validators that Django's [User] model attaches to [username]
    and [email]; their definitions are not part of the repository. *)
Context (username_validator email_validator : string -> bool).

Definition check (ok : string -> bool) (msg : string) (v : string)
  : option string :=
  if ok v then None else Some msg.

(** [UniqueValidator(queryset=User.objects.all())] *)
Definition unique_username (tbl : list User.t) (v : string) : bool :=
  negb (existsb (fun u => String.eqb (User.username u) v) tbl).

(** The fields that the serializer builds from the model: the validators of
    the model field and the unique check come first, then those that
    [CharField] appends for the length and the null character; [EmailField]
    puts its own validator last. *)
Definition username_field (tbl : list User.t) :=
  CharField.run_validation true false
    [check username_validator
       ("Enter a valid username. This value may contain only letters, " ++
        "numbers, and @/./+/-/_ characters.");
     check (unique_username tbl) "A user with that username already exists.";
     CharField.MaxLengthValidator 150;
     CharField.ProhibitNullCharactersValidator].

Definition email_field :=
  CharField.run_validation false true
    [CharField.MaxLengthValidator 254;
     CharField.ProhibitNullCharactersValidator;
     check email_validator "Enter a valid email address."].

(** [serializers.CharField(write_only=True, min_length=6)] *)
Definition password_field :=
  CharField.run_validation true false
    [CharField.MinLengthValidator 6; CharField.ProhibitNullCharactersValidator].

Definition name_field :=
  CharField.run_validation false true
    [CharField.MaxLengthValidator 150; CharField.ProhibitNullCharactersValidator].

(** [validate(self, data)] *)
Definition validate (data : Validated) : Errors + Validated :=
  if negb (String.eqb (v_password data) (v_password_confirm data))
  then inl [("password", "passwords do not match")]%string
  else inr data.

(** [to_internal_value(data)]: every field is validated in the order of
    [Meta.fields] and the failures are collected. *)
Definition to_internal_value (tbl : list User.t) (data : Data) : Errors + Validated :=
  let u := username_field tbl (username data) in
  let e := email_field (email data) in
  let p := password_field (password data) in
  let pc := password_field (password_confirm data) in
  let f := name_field (first_name data) in
  let l := name_field (last_name data) in
  match CharField.failure "username" u ++ CharField.failure "email" e ++
        CharField.failure "password" p ++
        CharField.failure "password_confirm" pc ++
        CharField.failure "first_name" f ++
        CharField.failure "last_name" l with
  | [] =>
      inr (mkValidated (CharField.value_or "" u) (CharField.value_or "" e)
             (CharField.value_or "" p) (CharField.value_or "" pc)
             (CharField.value_or "" f) (CharField.value_or "" l))
  | errs => inl errs
  end.

(** [is_valid()]: [validate] runs when no field failed. *)
Definition is_valid (tbl : list User.t) (data : Data) : Errors + Validated :=
  match to_internal_value tbl data with
  | inl errs => inl errs
  | inr validated => validate validated
  end.
End Fields.

Definition next_id (tbl : list User.t) : Z :=
  1 + fold_right Z.max 0 (map User.id tbl).

(** [normalize_email] of Django's user manager: the part after the last
    [@] is put in lower case. *)
Fixpoint normalize_email (s : string) : string :=
  match s with
  | EmptyString => EmptyString
  | String c s' =>
      if Ascii.eqb c "@" && negb (Py.contains s' "@") then String c (Py.str_lower s')
      else String c (normalize_email s')
  end.

Section Create.
(** [normalize_username] of Django's user model, the NFKC normal form of the
    name; its definition is not part of the repository.  A name of ASCII
    characters is its own normal form. *)
Context (normalize_username : string -> string).

(** [create(self, validated_data)]: [password_confirm] is dropped and
    [User.objects.create_user] stores the user with its name and e-mail
    address normalized; the password is kept as a hash by Django's
    authentication, outside this model.  The user name has a unique index:
    when the normalized name is already there, the store raises
    IntegrityError, for which [None] stands. *)
Definition create (tbl : list User.t) (validated_data : Validated)
  : option (User.t * list User.t) :=
  let username := normalize_username (v_username validated_data) in
  if unique_username tbl username then
    let user := User.mk (next_id tbl) username
                  (normalize_email (v_email validated_data))
                  (v_first_name validated_data) (v_last_name validated_data) in
    Some (user, tbl ++ [user])
  else None.
End Create.

End UserRegistrationSerializer.

Module LedgerEntrySerializer.

(** [fields = ['id', 'type', 'type_display', 'amount', 'note',
    'entry_date', 'created_at']] *)
Record Data : Type := mkData {
  id : Z;
  type : string;
  type_display : string;
  amount : Z;
  note : option string;
  entry_date : Py.date;
  created_at : Z
}.

Definition to_representation (e : LedgerEntry.t) : Data :=
  mkData (LedgerEntry.id e) (LedgerEntry.type e) (LedgerEntry.get_type_display e)
         (LedgerEntry.amount e) (LedgerEntry.note e) (LedgerEntry.entry_date e)
         (LedgerEntry.created_at e).

(** [self.get_serializer(entries, many=True).data] *)
Definition many (entries : QuerySet.t LedgerEntry.t) : list Data :=
  map to_representation (QuerySet.rows entries).

(** The writable fields of a create request.  [amount] is a decimal with at
    most two places, in hundredths; [None] is an absent field or one that
    is not such a number. *)
Record Input : Type := mkInput {
  in_type : option string;
  in_amount : option Z;
  in_note : option string
}.

Record Validated : Type := mkValidated {
  v_type : string;
  v_amount : Z;
  v_note : option string
}.

Definition is_choice (v : string) : bool :=
  existsb (fun kv => String.eqb (fst kv) v) LedgerEntry.TYPE_CHOICES.

(** [DecimalField(max_digits=12, decimal_places=2)]: at most ten digits
    before the point. *)
Definition amount_in_range (cents : Z) : bool :=
  Z.abs cents <? 10 ^ 12.

(** The validation of the writable fields, in the order of [Meta.fields].
    The messages for [amount] are those of the commonest cases: an amount
    that is left out is refused as required, and one with eleven digits
    before the point and none after it with the message about the digits
    before the point. *)
Definition is_valid (data : Input) : Errors + Validated :=
  let t_err : Errors :=
    match in_type data with
    | None => [("type", "This field is required.")]%string
    | Some v => if is_choice v then []
                else [("type", Py.repr_str v ++ " is not a valid choice.")]%string
    end in
  let a_err : Errors :=
    match in_amount data with
    | None => [("amount", "A valid number is required.")]%string
    | Some c => if amount_in_range c then []
                else [("amount",
                       "Ensure that there are no more than 12 digits in total.")]%string
    end in
  (* [note]: a text field that may be blank, null or left out *)
  let n_err : Errors :=
    match in_note data with
    | None => []
    | Some n =>
        match CharField.ProhibitNullCharactersValidator (Py.strip n) with
        | Some msg => [("note"%string, msg)]
        | None => []
        end
    end in
  match t_err ++ a_err ++ n_err, in_type data, in_amount data with
  | [], Some ty, Some c =>
      inr (mkValidated ty c (option_map Py.strip (in_note data)))
  | errs, _, _ => inl errs
  end.

(** [serializer.save(customer=customer)]: the row is inserted with
    [entry_date] and the time stamps set by the store. *)
Definition next_id (tbl : list LedgerEntry.t) : Z :=
  1 + fold_right Z.max 0 (map LedgerEntry.id tbl).

Definition save (tbl : list LedgerEntry.t) (now : Z) (today : Py.date)
    (customer : Customer.t) (v : Validated)
  : LedgerEntry.t * list LedgerEntry.t :=
  let e := LedgerEntry.mk (next_id tbl) (Customer.id customer) (v_type v)
             (v_amount v) (v_note v) today now now in
  (e, tbl ++ [e]).

(** [serializer.data] after the request was handled: the saved instance,
    or nothing but the validated input when [save] was never called. *)
Inductive Representation : Type :=
| OfInstance (d : Data)
| OfValidatedData (v : Validated).

End LedgerEntrySerializer.

Module CustomerSummarySerializer.

Record Data : Type := mkData {
  id : Z;
  name : string;
  phone : option string;
  address : option string;
  total_credit : Z;
  total_debit : Z;
  balance : Z;
  entries_count : Z;
  created_at : Z
}.

Definition get_total_credit (entries : list LedgerEntry.t) (obj : Customer.t) : Z :=
  Customer.total_credit (Customer.get_summary entries obj).

Definition get_total_debit (entries : list LedgerEntry.t) (obj : Customer.t) : Z :=
  Customer.total_debit (Customer.get_summary entries obj).

Definition get_balance (entries : list LedgerEntry.t) (obj : Customer.t) : Z :=
  Customer.balance (Customer.get_summary entries obj).

Definition get_entries_count (entries : list LedgerEntry.t) (obj : Customer.t) : Z :=
  QuerySet.count (Customer.ledger_entries entries obj).

Definition to_representation (entries : list LedgerEntry.t) (obj : Customer.t) : Data :=
  mkData (Customer.id obj) (Customer.name obj) (Customer.phone obj)
         (Customer.address obj)
         (get_total_credit entries obj) (get_total_debit entries obj)
         (get_balance entries obj) (get_entries_count entries obj)
         (Customer.created_at obj).

End CustomerSummarySerializer.

Module CustomerSerializer.

(** The writable fields: [name] is required; [phone] and [address] may be
    left out, blank or null ([None] stands for a field that is absent or
    null). *)
Record Input : Type := mkInput {
  in_name : option string;
  in_phone : option string;
  in_address : option string
}.

Record Validated : Type := mkValidated {
  v_name : string;
  v_phone : option string;
  v_address : option string
}.

(** [fields = ['id', 'name', 'phone', 'address', 'created_at', 'updated_at']] *)
Record Data : Type := mkData {
  id : Z;
  name : string;
  phone : option string;
  address : option string;
  created_at : Z;
  updated_at : Z
}.

Definition to_representation (c : Customer.t) : Data :=
  mkData (Customer.id c) (Customer.name c) (Customer.phone c) (Customer.address c)
         (Customer.created_at c) (Customer.updated_at c).

(** What is stored for an optional column: NULL when the field was not
    sent. *)
Definition stored (o : CharField.outcome) : option string :=
  match o with CharField.Value v => Some v | _ => None end.

(** [name = CharField(max_length=255)],
    [phone = CharField(max_length=20, blank=True, null=True)],
    [address = TextField(blank=True, null=True)]. *)
Definition is_valid (data : Input) : Errors + Validated :=
  let n := CharField.run_validation true false
             [CharField.MaxLengthValidator 255; CharField.ProhibitNullCharactersValidator]
             (in_name data) in
  let p := CharField.run_validation false true
             [CharField.MaxLengthValidator 20; CharField.ProhibitNullCharactersValidator]
             (in_phone data) in
  let a := CharField.run_validation false true [CharField.ProhibitNullCharactersValidator]
             (in_address data) in
  match CharField.failure "name" n ++ CharField.failure "phone" p ++
        CharField.failure "address" a with
  | [] => inr (mkValidated (CharField.value_or "" n) (stored p) (stored a))
  | errs => inl errs
  end.

Definition next_id (tbl : list Customer.t) : Z :=
  1 + fold_right Z.max 0 (map Customer.id tbl).

(** [serializer.save(user=user)]: the row is inserted with the owner the
    view passes and the time stamps of the store. *)
Definition save (tbl : list Customer.t) (now : Z) (user : Z) (v : Validated)
  : Customer.t * list Customer.t :=
  let c := Customer.mk (next_id tbl) user (v_name v) (v_phone v) (v_address v)
             now now in
  (c, tbl ++ [c]).

End CustomerSerializer.

(* ================================================================== *)
(** * views.py                                                         *)
(* ================================================================== *)

Module UserRegistrationView.

Record Registered : Type := mkRegistered {
  message : string;
  user_id : Z;
  user_username : string;
  user_email : string
}.

Section Post.
Context (username_validator email_validator : string -> bool).
Context (normalize_username : string -> string).

(** [post(self, request)]: the response and the data store afterwards.  An
    IntegrityError of [serializer.save()] is caught nowhere. *)
Definition post (db : Database) (data : UserRegistrationSerializer.Data)
  : Response Registered * Database :=
  match UserRegistrationSerializer.is_valid username_validator email_validator
          (users db) data with
  | inr validated =>
      match UserRegistrationSerializer.create normalize_username (users db) validated with
      | Some (user, tbl) =>
          (Ok (mkRegistered "Successfully registered" (User.id user)
                 (User.username user) (User.email user)) HTTP_201_CREATED,
           mkDatabase tbl (customers db) (ledger_entries db))
      | None => (Unhandled "IntegrityError", db)
      end
  | inl errors => (Rejected errors HTTP_400_BAD_REQUEST, db)
  end.
End Post.

End UserRegistrationView.

(** [request.query_params.get(key)] seen as a string. *)
Definition param (p : option string) : string :=
  match p with Some s => s | None => EmptyString end.

Module CustomerViewSet.

(** [get_queryset]: only the customers of the logged-in user. *)
Definition get_queryset (db : Database) (request_user : Z) : QuerySet.t Customer.t :=
  QuerySet.filter (fun c => Customer.user c =? request_user)
                  (Customer.objects (customers db)).

(** [name__icontains=query] *)
Definition icontains (value query : string) : bool :=
  Py.contains (Py.lower value) (Py.lower query).

(** [Q(name__icontains=query) | Q(phone__icontains=query)]; a NULL phone
    matches nothing. *)
Definition matches (query : string) (c : Customer.t) : bool :=
  icontains (Customer.name c) query ||
  match Customer.phone c with
  | Some p => icontains p query
  | None => false
  end.

(** [search(self, request)] with [q] the query parameter, if any. *)
Definition search (db : Database) (request_user : Z) (q : option string)
  : Response (list Customer.t) :=
  let query := Py.strip (param q) in
  if negb (Py.truthy query) || (Py.len query <? 2) then
    Rejected (error "At least 2 characters required for search") HTTP_400_BAD_REQUEST
  else
    let customers := QuerySet.filter (matches query) (get_queryset db request_user) in
    Ok (QuerySet.rows customers) HTTP_200_OK.

(** [summary(self, request, pk)]: [get_object] answers 404 for a key that
    is not among the caller's customers. *)
Definition summary (db : Database) (request_user : Z) (pk : JsonValue)
  : Response CustomerSummarySerializer.Data :=
  match Customer.get_owned (customers db) pk request_user with
  | QuerySet.Found customer =>
      Ok (CustomerSummarySerializer.to_representation (ledger_entries db) customer)
         HTTP_200_OK
  | QuerySet.MultipleObjectsReturned => Unhandled "MultipleObjectsReturned"
  | _ => Rejected [("detail", "Not found.")]%string HTTP_404_NOT_FOUND
  end.

(** [perform_create(self, serializer)]: [serializer.save(user=self.request.user)]. *)
Definition perform_create (db : Database) (request_user : Z) (now : Z)
    (validated : CustomerSerializer.Validated) : Customer.t * list Customer.t :=
  CustomerSerializer.save (customers db) now request_user validated.

(** [create] of [rest_framework.mixins.CreateModelMixin]. *)
Definition create (db : Database) (request_user : Z) (now : Z)
    (data : CustomerSerializer.Input)
  : Response CustomerSerializer.Data * Database :=
  match CustomerSerializer.is_valid data with
  | inl errors => (Rejected errors HTTP_400_BAD_REQUEST, db)
  | inr validated =>
      let '(c, tbl) := perform_create db request_user now validated in
      (Ok (CustomerSerializer.to_representation c) HTTP_201_CREATED,
       mkDatabase (users db) tbl (ledger_entries db))
  end.

(** [destroy] of [rest_framework.mixins.DestroyModelMixin]: [get_object]
    looks the key up in [get_queryset] and answers 404 when it is not there;
    deleting the customer deletes its entries with it
    ([on_delete=models.CASCADE]). *)
Definition destroy (db : Database) (request_user : Z) (pk : JsonValue)
  : Response unit * Database :=
  match Customer.get_owned (customers db) pk request_user with
  | QuerySet.Found customer =>
      (Ok tt HTTP_204_NO_CONTENT,
       mkDatabase (users db)
         (List.filter (fun c => negb (Customer.id c =? Customer.id customer))
                      (customers db))
         (List.filter (fun e => negb (LedgerEntry.customer e =? Customer.id customer))
                      (ledger_entries db)))
  | QuerySet.MultipleObjectsReturned => (Unhandled "MultipleObjectsReturned", db)
  | _ => (Rejected [("detail", "Not found.")]%string HTTP_404_NOT_FOUND, db)
  end.

End CustomerViewSet.

Module LedgerEntryViewSet.

Record CustomerRef : Type := mkCustomerRef { ref_id : Z; ref_name : string }.

Definition customer_ref (c : Customer.t) : CustomerRef :=
  mkCustomerRef (Customer.id c) (Customer.name c).

(** [get_queryset]: the entries of the caller's customers
    ([customer__user=self.request.user]). *)
Definition get_queryset (db : Database) (request_user : Z) : QuerySet.t LedgerEntry.t :=
  QuerySet.filter
    (fun e => existsb (fun c => (Customer.id c =? LedgerEntry.customer e) &&
                                (Customer.user c =? request_user))
                      (customers db))
    (LedgerEntry.objects (ledger_entries db)).

(** ** Creating an entry *)

Record CreateRequest : Type := mkCreateRequest {
  customer : JsonValue;                       (* request.data.get('customer') *)
  fields : LedgerEntrySerializer.Input
}.

(** How a call of [perform_create] ends: with the value it returns
    ([None] when it falls off the end of its body) or with an exception. *)
Inductive Outcome : Type :=
| Returned (value : option (Response unit))
| Raised (exception : string).

(** [perform_create(self, serializer)]: how it ends, the instance the
    serializer saved, if any, and the table afterwards. *)
Definition perform_create (db : Database) (request_user : Z) (now : Z)
    (today : Py.date) (customer_id : JsonValue)
    (validated : LedgerEntrySerializer.Validated)
  : Outcome * option LedgerEntry.t * list LedgerEntry.t :=
  match Customer.get_owned (customers db) customer_id request_user with
  | QuerySet.Found customer =>
      let '(e, tbl) := LedgerEntrySerializer.save (ledger_entries db) now today
                         customer validated in
      (Returned None, Some e, tbl)
  | QuerySet.DoesNotExist =>
      (Returned (Some (Rejected (error "Not found") HTTP_404_NOT_FOUND)),
       None, ledger_entries db)
  | QuerySet.MultipleObjectsReturned =>
      (Raised "MultipleObjectsReturned", None, ledger_entries db)
  | QuerySet.ValueError =>
      (Raised "ValueError", None, ledger_entries db)
  end.

(** [create(self, request)] of [rest_framework.mixins.CreateModelMixin],
    which [ModelViewSet] inherits:
    [serializer.is_valid(raise_exception=True); self.perform_create(serializer);
     return Response(serializer.data, status=HTTP_201_CREATED)].
    The value that [perform_create] returns is not looked at. *)
Definition create (db : Database) (request_user : Z) (now : Z) (today : Py.date)
    (request : CreateRequest)
  : Response LedgerEntrySerializer.Representation * Database :=
  match LedgerEntrySerializer.is_valid (fields request) with
  | inl errors => (Rejected errors HTTP_400_BAD_REQUEST, db)
  | inr validated =>
      match perform_create db request_user now today (customer request) validated with
      | (Raised exc, _, _) => (Unhandled exc, db)
      | (Returned _, instance, tbl) =>
          let data :=
            match instance with
            | Some e => LedgerEntrySerializer.OfInstance
                          (LedgerEntrySerializer.to_representation e)
            | None => LedgerEntrySerializer.OfValidatedData validated
            end in
          (Ok data HTTP_201_CREATED, mkDatabase (users db) (customers db) tbl)
      end
  end.

(** ** Reading *)

Record ByCustomer : Type := mkByCustomer {
  bc_customer : CustomerRef;
  bc_entries : list LedgerEntrySerializer.Data;
  bc_summary : Customer.Summary
}.

Definition by_customer (db : Database) (request_user : Z)
    (customer_id : option string) : Response ByCustomer :=
  if negb (Py.given customer_id) then
    Rejected (error "customer_id Needed") HTTP_400_BAD_REQUEST
  else
    match Customer.get_owned (customers db) (JStr (param customer_id)) request_user with
    | QuerySet.DoesNotExist =>
        Rejected (error "Customer not found") HTTP_404_NOT_FOUND
    | QuerySet.MultipleObjectsReturned => Unhandled "MultipleObjectsReturned"
    | QuerySet.ValueError => Unhandled "ValueError"
    | QuerySet.Found customer =>
        let entries := Customer.ledger_entries (ledger_entries db) customer in
        Ok (mkByCustomer (customer_ref customer)
              (LedgerEntrySerializer.many entries)
              (Customer.get_summary (ledger_entries db) customer))
           HTTP_200_OK
    end.

Record FilterByDate : Type := mkFilterByDate {
  fd_customer : CustomerRef;
  fd_date_range : option string * option string;
  fd_entries : list LedgerEntrySerializer.Data;
  fd_total_entries : Z
}.

Definition filter_by_date (db : Database) (request_user : Z)
    (customer_id start_date end_date : option string) : Response FilterByDate :=
  if negb (Py.given customer_id) then
    Rejected (error "customer_id Needed") HTTP_400_BAD_REQUEST
  else
    match Customer.get_owned (customers db) (JStr (param customer_id)) request_user with
    | QuerySet.DoesNotExist =>
        Rejected (error "Customer not found") HTTP_404_NOT_FOUND
    | QuerySet.MultipleObjectsReturned => Unhandled "MultipleObjectsReturned"
    | QuerySet.ValueError => Unhandled "ValueError"
    | QuerySet.Found customer =>
        let entries := Customer.ledger_entries (ledger_entries db) customer in
        (* if start_date: *)
        let after_start : Errors + QuerySet.t LedgerEntry.t :=
          if Py.given start_date then
            match Py.strptime_ymd (param start_date) with
            | Some start =>
                inr (QuerySet.filter
                       (fun e => Py.date_leb start (LedgerEntry.entry_date e)) entries)
            | None => inl (error "Invalid start date format (YYYY-MM-DD expected)")
            end
          else inr entries in
        match after_start with
        | inl errors => Rejected errors HTTP_400_BAD_REQUEST
        | inr entries =>
            (* if end_date: *)
            let after_end : Errors + QuerySet.t LedgerEntry.t :=
              if Py.given end_date then
                match Py.strptime_ymd (param end_date) with
                | Some end_ =>
                    inr (QuerySet.filter
                           (fun e => Py.date_leb (LedgerEntry.entry_date e) end_) entries)
                | None => inl (error "Invalid end date format (YYYY-MM-DD expected)")
                end
              else inr entries in
            match after_end with
            | inl errors => Rejected errors HTTP_400_BAD_REQUEST
            | inr entries =>
                Ok (mkFilterByDate (customer_ref customer) (start_date, end_date)
                      (LedgerEntrySerializer.many entries)
                      (QuerySet.count entries))
                   HTTP_200_OK
            end
        end
    end.

Record FilterByType : Type := mkFilterByType {
  ft_customer : CustomerRef;
  ft_type : string;
  ft_entries : list LedgerEntrySerializer.Data;
  ft_total_amount : Py.float;
  ft_entries_count : Z
}.

Definition filter_by_type (py : Py.interpreter) (db : Database) (request_user : Z)
    (customer_id type_ : option string) : Response FilterByType :=
  let entry_type := param type_ in
  if negb (Py.given customer_id) then
    Rejected (error "customer_id Needed") HTTP_400_BAD_REQUEST
  else if negb (Py.given type_) ||
          negb (existsb (String.eqb entry_type) ["CREDIT"; "DEBIT"]%string) then
    Rejected (error "type must be CREDIT or DEBIT") HTTP_400_BAD_REQUEST
  else
    match Customer.get_owned (customers db) (JStr (param customer_id)) request_user with
    | QuerySet.DoesNotExist =>
        Rejected (error "Customer not found") HTTP_404_NOT_FOUND
    | QuerySet.MultipleObjectsReturned => Unhandled "MultipleObjectsReturned"
    | QuerySet.ValueError => Unhandled "ValueError"
    | QuerySet.Found customer =>
        let entries :=
          QuerySet.filter (Customer.has_type entry_type)
            (Customer.ledger_entries (ledger_entries db) customer) in
        (* total = sum(float(entry.amount) for entry in entries) *)
        let total :=
          Py.sum py (map (fun entry => Py.float_of_decimal (LedgerEntry.amount entry))
                      (QuerySet.rows entries)) in
        Ok (mkFilterByType (customer_ref customer) entry_type
              (LedgerEntrySerializer.many entries) total (QuerySet.count entries))
           HTTP_200_OK
    end.

Record Statistics : Type := mkStatistics {
  total_customers : Z;
  total_credit : Py.float;
  total_debit : Py.float;
  total_balance : Py.float;
  total_entries : Z
}.

(** One turn of [for customer in customers]. *)
Definition statistics_step (db : Database) (stats : Statistics)
    (customer : Customer.t) : Statistics :=
  let summary := Customer.get_summary (ledger_entries db) customer in
  mkStatistics
    (total_customers stats)
    (Py.fadd (total_credit stats) (Py.float_of_decimal (Customer.total_credit summary)))
    (Py.fadd (total_debit stats) (Py.float_of_decimal (Customer.total_debit summary)))
    (Py.fadd (total_balance stats) (Py.float_of_decimal (Customer.balance summary)))
    (total_entries stats +
     QuerySet.count (Customer.ledger_entries (ledger_entries db) customer)).

(** [statistics(self, request)].  The three money totals start as the
    integer 0, which the first [+=] turns into the float 0.0. *)
Definition statistics (db : Database) (request_user : Z) : Response Statistics :=
  let customers :=
    QuerySet.filter (fun c => Customer.user c =? request_user)
                    (Customer.objects (customers db)) in
  let stats := mkStatistics (QuerySet.count customers) Py.fzero Py.fzero Py.fzero 0 in
  Ok (fold_left (statistics_step db) (QuerySet.rows customers) stats) HTTP_200_OK.

(** ** One entry by its key *)

(** [get_object()]: the entry with the key among the caller's entries. *)
Definition get_object (db : Database) (request_user : Z) (pk : JsonValue)
  : QuerySet.lookup LedgerEntry.t :=
  match Field.get_prep_value pk with
  | inl n =>
      QuerySet.get (QuerySet.filter (fun e => LedgerEntry.id e =? n)
                      (get_queryset db request_user))
  | inr true => QuerySet.DoesNotExist
  | inr false => QuerySet.ValueError
  end.

(** [retrieve] of [rest_framework.mixins.RetrieveModelMixin]. *)
Definition retrieve (db : Database) (request_user : Z) (pk : JsonValue)
  : Response LedgerEntrySerializer.Data :=
  match get_object db request_user pk with
  | QuerySet.Found e => Ok (LedgerEntrySerializer.to_representation e) HTTP_200_OK
  | QuerySet.MultipleObjectsReturned => Unhandled "MultipleObjectsReturned"
  | _ => Rejected [("detail", "Not found.")]%string HTTP_404_NOT_FOUND
  end.

(** [destroy] of [rest_framework.mixins.DestroyModelMixin]. *)
Definition destroy (db : Database) (request_user : Z) (pk : JsonValue)
  : Response unit * Database :=
  match get_object db request_user pk with
  | QuerySet.Found e =>
      (Ok tt HTTP_204_NO_CONTENT,
       mkDatabase (users db) (customers db)
         (List.filter (fun x => negb (LedgerEntry.id x =? LedgerEntry.id e))
                      (ledger_entries db)))
  | QuerySet.MultipleObjectsReturned => (Unhandled "MultipleObjectsReturned", db)
  | _ => (Rejected [("detail", "Not found.")]%string HTTP_404_NOT_FOUND, db)
  end.

End LedgerEntryViewSet.

(* ================================================================== *)
(** * Vocabulary of the specification                                  *)
(* ================================================================== *)

(** The definitions below follow the words of the specification, not the
    code; the theorems compare the code with them. *)
Module Spec.

(** The exact sum of the amounts of a list of entries, in hundredths. *)
Definition sum_amounts (l : list LedgerEntry.t) : Z :=
  foldr (fun e acc => LedgerEntry.amount e + acc) 0 l.

(** The exact sum of a list of decimals. *)
Definition sum_decimals (l : list Z) : Z := foldr Z.add 0 l.

(** The entries of a customer, and those of one type, in table order. *)
Definition entries_of (c : Customer.t) (tbl : list LedgerEntry.t)
  : list LedgerEntry.t :=
  filter (fun e => LedgerEntry.customer e = Customer.id c) tbl.

Definition entries_of_type (c : Customer.t) (ty : string)
    (tbl : list LedgerEntry.t) : list LedgerEntry.t :=
  filter (fun e => LedgerEntry.customer e = Customer.id c /\ LedgerEntry.type e = ty) tbl.

(** The customers a user owns, in table order. *)
Definition customers_of (u : Z) (tbl : list Customer.t) : list Customer.t :=
  filter (fun c => Customer.user c = u) tbl.

(** Calendar order on dates. *)
Definition date_lt (a b : Py.date) : Prop :=
  Py.year a < Py.year b \/
  (Py.year a = Py.year b /\
   (Py.month a < Py.month b \/
    (Py.month a = Py.month b /\ Py.day a < Py.day b))).

Definition date_le (a b : Py.date) : Prop := date_lt a b \/ a = b.

(** [D] lies within the bounds that are given, both inclusive. *)
Definition within (lo hi : option Py.date) (D : Py.date) : Prop :=
  (forall s, lo = Some s -> date_le s D) /\
  (forall t, hi = Some t -> date_le D t).

(** The same as a test, for the bounds of a request. *)
Definition withinb (lo hi : option Py.date) (D : Py.date) : bool :=
  match lo with Some s => Py.date_leb s D | None => true end &&
  match hi with Some t => Py.date_leb D t | None => true end.

(** What a date parameter of a request stands for: no bound when it is
    absent or empty, the date it spells otherwise. *)
Definition bound (p : option string) (b : option Py.date) : Prop :=
  if Py.given p then Py.strptime_ymd (param p) = b /\ b <> None
  else b = None.

(** The entries of a customer within the bounds, as one query. *)
Definition ranged (tbl : list LedgerEntry.t) (c : Customer.t)
    (lo hi : option Py.date) : QuerySet.t LedgerEntry.t :=
  QuerySet.filter (fun e => withinb lo hi (LedgerEntry.entry_date e))
    (Customer.ledger_entries tbl c).

(** Newest first by the pair (entry_date, created_at): [a] may stand
    before [b]. *)
Definition newest_first (a b : LedgerEntrySerializer.Data) : Prop :=
  date_lt (LedgerEntrySerializer.entry_date b) (LedgerEntrySerializer.entry_date a) \/
  (LedgerEntrySerializer.entry_date b = LedgerEntrySerializer.entry_date a /\
   LedgerEntrySerializer.created_at b <= LedgerEntrySerializer.created_at a).

(** [needle] occurs in [hay] when case is ignored. *)
Definition icontains (hay needle : string) : Prop :=
  exists pre post : string,
    Py.lower hay = (pre ++ Py.lower needle ++ post)%string.

(** A customer matches a search query by name or by phone. *)
Definition matches (query : string) (c : Customer.t) : Prop :=
  icontains (Customer.name c) query \/
  exists p, Customer.phone c = Some p /\ icontains p query.

(** The value the serializer reads from a text field: trimmed of
    surrounding white space, and empty when the field is absent. *)
Definition sent (f : option string) : string :=
  match f with Some raw => Py.strip raw | None => EmptyString end.

(** The text holds no null character. *)
Definition no_null (s : string) : Prop :=
  Py.contains s (String Ascii.zero EmptyString) = false.

(** An optional text field is acceptable when it is absent, blank, or no
    longer than [max], free of null characters and passed by [ok]. *)
Definition optional_ok (ok : string -> bool) (max : Z) (f : option string) : Prop :=
  forall raw, f = Some raw ->
    Py.strip raw = EmptyString \/
    (Py.len (Py.strip raw) <= max /\ ok (Py.strip raw) = true /\
     no_null (Py.strip raw)).

(** A float stands for a decimal when it is the binary64 number nearest
    to it; it need not be equal to it. *)
Definition nearest (f : Py.float) (cents : Z) : Prop :=
  f = Py.float_of_decimal cents.

(** ** Invariants of the data store *)

(** Primary keys are unique. *)
Definition unique_customer_ids (db : Database) : Prop :=
  NoDup (map Customer.id (customers db)).

Definition unique_entry_ids (db : Database) : Prop :=
  NoDup (map LedgerEntry.id (ledger_entries db)).

Definition unique_user_ids (db : Database) : Prop :=
  NoDup (map User.id (users db)).

Definition unique_usernames (db : Database) : Prop :=
  NoDup (map User.username (users db)).

(** Every entry belongs to a customer of the store. *)
Definition referential_integrity (db : Database) : Prop :=
  forall e, e ∈ ledger_entries db ->
    exists c, c ∈ customers db /\ Customer.id c = LedgerEntry.customer e.

(** The customer [c] of the store belongs to [u]. *)
Definition owns (db : Database) (u : Z) (c : Customer.t) : Prop :=
  c ∈ customers db /\ Customer.user c = u.

(** The entry [e] is one the user [u] may see: it belongs to a customer of
    [u]. *)
Definition visible (db : Database) (u : Z) (e : LedgerEntry.t) : Prop :=
  e ∈ ledger_entries db /\
  exists c, owns db u c /\ Customer.id c = LedgerEntry.customer e.

End Spec.

(* ================================================================== *)
(** * Sample data                                                      *)
(* ================================================================== *)

Module Sample.
Local Open Scope string_scope.

Definition may_1 : Py.date := Py.Date 2024 5 1.
Definition may_2 : Py.date := Py.Date 2024 5 2.

Definition alice : User.t := User.mk 1 "alice" "alice@example.com" "" "".
Definition bob : User.t := User.mk 2 "bob" "" "" "".

Definition karim : Customer.t :=
  Customer.mk 1 1 "Karim" (Some "01700000001") None 10 10.
Definition rahim : Customer.t :=
  Customer.mk 2 1 "rahim" None None 20 20.
Definition salma : Customer.t :=
  Customer.mk 3 2 "Salma" (Some "01800000003") None 30 30.

Definition entry (id customer : Z) (type : string) (amount : Z)
    (entry_date : Py.date) (created_at : Z) : LedgerEntry.t :=
  LedgerEntry.mk id customer type amount None entry_date created_at created_at.

(** The example of the specification: Karim has CREDIT 5000.00 and DEBIT
    2000.00, Rahim has CREDIT 3000.00; both belong to alice.  Salma, who
    belongs to bob, has no entries. *)
Definition shop : Database :=
  mkDatabase [alice; bob] [karim; rahim; salma]
    [entry 1 1 "CREDIT" 500000 may_1 100;
     entry 2 1 "DEBIT" 200000 may_1 101;
     entry 3 2 "CREDIT" 300000 may_2 102].

(** Small change: Karim has CREDIT 0.10, Rahim has CREDIT 0.20, and Salma
    has CREDIT 0.10 and CREDIT 0.20. *)
Definition pennies : Database :=
  mkDatabase [alice; bob] [karim; rahim; salma]
    [entry 1 1 "CREDIT" 10 may_1 100;
     entry 2 2 "CREDIT" 20 may_1 101;
     entry 3 3 "CREDIT" 10 may_1 102;
     entry 4 3 "CREDIT" 20 may_2 103].

(** Stand-ins for the validators of Django's [User] model: user names of
    ASCII letters, digits and [@.+-_]; any text with an [@] as an e-mail
    address. *)
Definition username_char (c : ascii) : bool :=
  let n := Z.of_N (N_of_ascii c) in
  (((48 <=? n) && (n <=? 57)) || ((65 <=? n) && (n <=? 90)) ||
   ((97 <=? n) && (n <=? 122)) ||
   (n =? 64) || (n =? 46) || (n =? 43) || (n =? 45) || (n =? 95))%Z.

Fixpoint all_chars (p : ascii -> bool) (s : string) : bool :=
  match s with
  | EmptyString => true
  | String c s' => p c && all_chars p s'
  end.

Definition username_validator (s : string) : bool := all_chars username_char s.
Definition email_validator (s : string) : bool := Py.contains s "@".

(** A stand-in for the normal form of a user name: the names of the
    examples are ASCII and are their own normal form. *)
Definition normalize_username (s : string) : string := s.

(** Stand-ins that go beyond ASCII: the masculine ordinal indicator
    (U+00BA) is a letter, which the validator of user names accepts, and the
    normal form of a name has the letter o in its place. *)
Definition ordinal_o : ascii := ascii_of_nat 186.

Definition username_validator_latin1 (s : string) : bool :=
  all_chars (fun c => username_char c || Ascii.eqb c ordinal_o) s.

Fixpoint normalize_username_latin1 (s : string) : string :=
  match s with
  | EmptyString => EmptyString
  | String c s' =>
      String (if Ascii.eqb c ordinal_o then "o"%char else c)
        (normalize_username_latin1 s')
  end.

Definition registration (username password password_confirm : string)
  : UserRegistrationSerializer.Data :=
  UserRegistrationSerializer.mkData (Some username) (Some "test@example.com")
    (Some password) (Some password_confirm) (Some "Test") (Some "User").

Definition credit_5000 : LedgerEntrySerializer.Input :=
  LedgerEntrySerializer.mkInput (Some "CREDIT") (Some 500000) (Some "rice").

End Sample.

(* ================================================================== *)
(** * Facts about the built-ins                                        *)
(* ================================================================== *)

Section ListFacts.
Context {A : Type}.

Lemma fold_left_add_foldr (f : A -> Z) (l : list A) (a : Z) :
  fold_left Z.add (map f l) a = a + foldr (fun x acc => f x + acc) 0 l.
Proof.
  revert a. induction l as [|x l IH]; intros a; simpl.
  - lia.
  - rewrite IH. lia.
Qed.

Lemma foldr_add_Permutation (f : A -> Z) (l1 l2 : list A) :
  l1 ≡ₚ l2 ->
  foldr (fun x acc => f x + acc) 0 l1 = foldr (fun x acc => f x + acc) 0 l2.
Proof.
  induction 1; simpl; lia.
Qed.

(** The boolean filter of the code against the filter of the
    specification. *)
Lemma List_filter_filter (b : A -> bool) (P : A -> Prop)
    `{!forall x, Decision (P x)} (l : list A) :
  (forall x, b x = true <-> P x) ->
  List.filter b l = filter P l.
Proof.
  intros Hb. induction l as [|x l IH]; simpl; [done|].
  rewrite IH. destruct (b x) eqn:E.
  - rewrite filter_cons_True; [done|]. by apply Hb.
  - rewrite filter_cons_False; [done|]. rewrite <- Hb. congruence.
Qed.

Lemma List_filter_andb (p q : A -> bool) (l : list A) :
  List.filter (fun x => p x && q x) l = List.filter q (List.filter p l).
Proof.
  induction l as [|x l IH]; simpl; [done|].
  destruct (p x); simpl; [destruct (q x)|]; by rewrite IH.
Qed.

Lemma StronglySorted_weaken (R S : relation A) (l : list A) :
  (forall a b, R a b -> S a b) -> StronglySorted R l -> StronglySorted S l.
Proof.
  intros HRS. induction 1 as [|a l Hl IH Ha]; constructor; [done|].
  eapply Forall_impl; [exact Ha|]. auto.
Qed.

Lemma List_filter_true (l : list A) : List.filter (fun _ => true) l = l.
Proof. induction l; simpl; congruence. Qed.

Lemma List_filter_ext_in (p q : A -> bool) (l : list A) :
  (forall x, x ∈ l -> p x = q x) -> List.filter p l = List.filter q l.
Proof.
  induction l as [|x l IH]; intros H; simpl; [done|].
  rewrite (H x) by (by left). rewrite IH; [done|].
  intros y Hy. apply H. by right.
Qed.
End ListFacts.

Section QuerySetFacts.
Context {Row : Type}.
Implicit Types qs : QuerySet.t Row.

Lemma selected_all (tbl : list Row) ord :
  QuerySet.selected (QuerySet.all tbl ord) = tbl.
Proof. apply List_filter_true. Qed.

Lemma selected_filter cond qs :
  QuerySet.selected (QuerySet.filter cond qs)
  = List.filter cond (QuerySet.selected qs).
Proof. apply List_filter_andb. Qed.

Lemma rows_Permutation qs : QuerySet.rows qs ≡ₚ QuerySet.selected qs.
Proof. apply merge_sort_Permutation. Qed.

Lemma rows_length qs :
  Z.of_nat (length (QuerySet.rows qs)) = QuerySet.count qs.
Proof. unfold QuerySet.count. by rewrite rows_Permutation. Qed.

Lemma elem_of_rows qs r :
  r ∈ QuerySet.rows qs <-> r ∈ QuerySet.table qs /\ QuerySet.where_ qs r = true.
Proof.
  rewrite rows_Permutation. unfold QuerySet.selected.
  rewrite !list_elem_of_In, filter_In. tauto.
Qed.

Lemma rows_sorted qs :
  Total (fun a b => Is_true (QuerySet.order_by qs a b)) ->
  Transitive (fun a b => Is_true (QuerySet.order_by qs a b)) ->
  StronglySorted (fun a b => Is_true (QuerySet.order_by qs a b)) (QuerySet.rows qs).
Proof. intros ? ?. by apply StronglySorted_merge_sort. Qed.

Lemma aggregate_sum_or_zero (field : Row -> Z) qs :
  Customer.or_zero (QuerySet.aggregate_sum field qs)
  = foldr (fun x acc => field x + acc) 0 (QuerySet.selected qs).
Proof.
  unfold QuerySet.aggregate_sum. destruct (QuerySet.selected qs) as [|x l] eqn:E.
  - done.
  - rewrite fold_left_add_foldr. unfold Customer.or_zero.
    destruct (Z.eqb_spec (0 + foldr (fun x acc => field x + acc) 0 (x :: l)) 0); lia.
Qed.
End QuerySetFacts.

Section DateFacts.
Implicit Types a b c : Py.date.

Lemma date_ltb_spec a b : Py.date_ltb a b = true <-> Spec.date_lt a b.
Proof. unfold Py.date_ltb, Spec.date_lt. destruct a, b; simpl. lia. Qed.

Lemma date_eqb_spec a b : Py.date_eqb a b = true <-> a = b.
Proof.
  unfold Py.date_eqb. destruct a as [y m d], b as [y' m' d']; simpl. split.
  - intros H. assert (y = y' /\ m = m' /\ d = d') as (-> & -> & ->) by lia. done.
  - intros [= -> -> ->]. lia.
Qed.

Lemma date_leb_spec a b : Py.date_leb a b = true <-> Spec.date_le a b.
Proof.
  unfold Py.date_leb, Spec.date_le.
  rewrite orb_true_iff, date_ltb_spec, date_eqb_spec. done.
Qed.

Lemma date_lt_trans a b c : Spec.date_lt a b -> Spec.date_lt b c -> Spec.date_lt a c.
Proof. unfold Spec.date_lt. destruct a, b, c; simpl. lia. Qed.

Lemma date_trichotomy a b : Spec.date_lt a b \/ a = b \/ Spec.date_lt b a.
Proof.
  destruct a as [y m d], b as [y' m' d']. unfold Spec.date_lt; simpl.
  destruct (Z.lt_trichotomy y y') as [?|[->|?]]; [lia| |lia].
  destruct (Z.lt_trichotomy m m') as [?|[->|?]]; [lia| |lia].
  destruct (Z.lt_trichotomy d d') as [?|[->|?]]; [lia| |lia].
  right; left; done.
Qed.

Lemma date_lt_irrefl a : ~ Spec.date_lt a a.
Proof. unfold Spec.date_lt. destruct a; simpl. lia. Qed.
End DateFacts.

Section OrderingFacts.

Lemma entry_ordering_spec (a b : LedgerEntry.t) :
  Is_true (LedgerEntry.ordering a b) <->
  Spec.date_lt (LedgerEntry.entry_date b) (LedgerEntry.entry_date a) \/
  (LedgerEntry.entry_date b = LedgerEntry.entry_date a /\
   LedgerEntry.created_at b <= LedgerEntry.created_at a).
Proof.
  unfold LedgerEntry.ordering. rewrite Is_true_true, orb_true_iff, andb_true_iff.
  rewrite date_ltb_spec, date_eqb_spec, Z.leb_le. done.
Qed.

Global Instance entry_ordering_total :
  Total (fun a b => Is_true (LedgerEntry.ordering a b)).
Proof.
  intros a b. rewrite !entry_ordering_spec.
  destruct (date_trichotomy (LedgerEntry.entry_date a) (LedgerEntry.entry_date b))
    as [?|[E|?]]; [by right; left| |by left; left].
  rewrite E.
  destruct (Z.le_ge_cases (LedgerEntry.created_at a) (LedgerEntry.created_at b)); auto.
Qed.

Global Instance entry_ordering_trans :
  Transitive (fun a b => Is_true (LedgerEntry.ordering a b)).
Proof.
  intros a b c. rewrite !entry_ordering_spec.
  intros [H1|[E1 H1]] [H2|[E2 H2]].
  - left. eauto using date_lt_trans.
  - left. by rewrite E2.
  - left. by rewrite <- E1.
  - right. split; [congruence|lia].
Qed.

Global Instance customer_ordering_total :
  Total (fun a b => Is_true (Customer.ordering a b)).
Proof.
  intros a b. unfold Customer.ordering. rewrite !Is_true_true, !Z.leb_le. lia.
Qed.

Global Instance customer_ordering_trans :
  Transitive (fun a b => Is_true (Customer.ordering a b)).
Proof.
  intros a b c. unfold Customer.ordering. rewrite !Is_true_true, !Z.leb_le. lia.
Qed.

End OrderingFacts.

(* ================================================================== *)
(** * The entries of a customer                                        *)
(* ================================================================== *)

Section CustomerEntries.
Implicit Types (tbl : list LedgerEntry.t) (c : Customer.t).

Lemma selected_ledger_entries tbl c :
  QuerySet.selected (Customer.ledger_entries tbl c) = Spec.entries_of c tbl.
Proof.
  unfold Customer.ledger_entries, LedgerEntry.objects.
  rewrite selected_filter, selected_all.
  apply List_filter_filter. intros e. apply Z.eqb_eq.
Qed.

Lemma has_type_spec ty (e : LedgerEntry.t) :
  Customer.has_type ty e = true <-> LedgerEntry.type e = ty.
Proof. unfold Customer.has_type. apply String.eqb_eq. Qed.

Lemma selected_ledger_entries_of_type tbl c ty :
  QuerySet.selected (QuerySet.filter (Customer.has_type ty) (Customer.ledger_entries tbl c))
  = Spec.entries_of_type c ty tbl.
Proof.
  rewrite selected_filter.
  unfold Customer.ledger_entries, LedgerEntry.objects.
  rewrite selected_filter, selected_all, <- List_filter_andb.
  apply List_filter_filter. intros e.
  rewrite andb_true_iff, Z.eqb_eq, has_type_spec. done.
Qed.

Lemma get_summary_sums tbl c :
  Customer.get_summary tbl c =
  Customer.mkSummary
    (Spec.sum_amounts (Spec.entries_of_type c "CREDIT" tbl))
    (Spec.sum_amounts (Spec.entries_of_type c "DEBIT" tbl))
    (Spec.sum_amounts (Spec.entries_of_type c "CREDIT" tbl)
     - Spec.sum_amounts (Spec.entries_of_type c "DEBIT" tbl)).
Proof.
  unfold Customer.get_summary.
  rewrite !aggregate_sum_or_zero, !selected_ledger_entries_of_type. done.
Qed.

Lemma entries_count_length tbl c :
  CustomerSummarySerializer.get_entries_count tbl c
  = Z.of_nat (length (Spec.entries_of c tbl)).
Proof.
  unfold CustomerSummarySerializer.get_entries_count, QuerySet.count.
  by rewrite selected_ledger_entries.
Qed.

Lemma entries_of_type_nil tbl c ty :
  Spec.entries_of c tbl = [] -> Spec.entries_of_type c ty tbl = [].
Proof.
  unfold Spec.entries_of, Spec.entries_of_type.
  induction tbl as [|e tbl IH]; [done|].
  destruct (decide (LedgerEntry.customer e = Customer.id c)) as [E|E].
  - rewrite filter_cons_True by done. done.
  - rewrite !filter_cons_False by tauto. done.
Qed.

End CustomerEntries.

(* ================================================================== *)
(** * C1: the summary of a customer                                    *)
(* ================================================================== *)

(** C1.  For every customer the summary reports as [total_credit] the exact
    sum of the amounts of the customer's CREDIT entries, as [total_debit]
    that of the DEBIT entries, and as [balance] their difference;
    [entries_count] is the number of the customer's entries.  A total over
    no entries is the number 0, and a customer without any entry has all
    three totals and the count equal to 0. *)
Theorem summary_totals (tbl : list LedgerEntry.t) (c : Customer.t) :
  let s := Customer.get_summary tbl c in
  let d := CustomerSummarySerializer.to_representation tbl c in
  Customer.total_credit s = Spec.sum_amounts (Spec.entries_of_type c "CREDIT" tbl) /\
  Customer.total_debit s = Spec.sum_amounts (Spec.entries_of_type c "DEBIT" tbl) /\
  Customer.balance s = Customer.total_credit s - Customer.total_debit s /\
  CustomerSummarySerializer.total_credit d = Customer.total_credit s /\
  CustomerSummarySerializer.total_debit d = Customer.total_debit s /\
  CustomerSummarySerializer.balance d = Customer.balance s /\
  CustomerSummarySerializer.entries_count d = Z.of_nat (length (Spec.entries_of c tbl)) /\
  (Spec.entries_of_type c "CREDIT" tbl = [] -> Customer.total_credit s = 0) /\
  (Spec.entries_of_type c "DEBIT" tbl = [] -> Customer.total_debit s = 0) /\
  (Spec.entries_of c tbl = [] ->
   CustomerSummarySerializer.total_credit d = 0 /\
   CustomerSummarySerializer.total_debit d = 0 /\
   CustomerSummarySerializer.balance d = 0 /\
   CustomerSummarySerializer.entries_count d = 0).
Proof.
  intros s d. subst s d.
  unfold CustomerSummarySerializer.to_representation,
    CustomerSummarySerializer.get_total_credit,
    CustomerSummarySerializer.get_total_debit, CustomerSummarySerializer.get_balance.
  rewrite entries_count_length, get_summary_sums. simpl.
  do 7 (split; [done|]).
  split; [by intros ->|]. split; [by intros ->|].
  intros Hnone.
  rewrite (entries_of_type_nil _ _ "CREDIT" Hnone),
    (entries_of_type_nil _ _ "DEBIT" Hnone), Hnone.
  done.
Qed.

(* ================================================================== *)
(** * C2: account-wide statistics                                      *)
(* ================================================================== *)

Section StatisticsFacts.
Import LedgerEntryViewSet.
Variable db : Database.

Let summary_of (c : Customer.t) : Customer.Summary :=
  Customer.get_summary (ledger_entries db) c.
Let count_of (c : Customer.t) : Z :=
  QuerySet.count (Customer.ledger_entries (ledger_entries db) c).

(** The loop of [statistics] in closed form. *)
Lemma statistics_loop (cs : list Customer.t) (stats : Statistics) :
  fold_left (statistics_step db) cs stats =
  mkStatistics
    (total_customers stats)
    (Py.fsum_from (total_credit stats)
       (map (fun c => Py.float_of_decimal (Customer.total_credit (summary_of c))) cs))
    (Py.fsum_from (total_debit stats)
       (map (fun c => Py.float_of_decimal (Customer.total_debit (summary_of c))) cs))
    (Py.fsum_from (total_balance stats)
       (map (fun c => Py.float_of_decimal (Customer.balance (summary_of c))) cs))
    (total_entries stats + foldr (fun c acc => count_of c + acc) 0 cs).
Proof.
  revert stats. induction cs as [|c cs IH]; intros stats.
  - destruct stats; simpl. f_equal. lia.
  - simpl. rewrite IH. unfold statistics_step; simpl. f_equal.
    subst count_of; simpl. lia.
Qed.

Lemma selected_owned_customers (u : Z) :
  QuerySet.selected
    (QuerySet.filter (fun c => Customer.user c =? u) (Customer.objects (customers db)))
  = Spec.customers_of u (customers db).
Proof.
  unfold Customer.objects. rewrite selected_filter, selected_all.
  apply List_filter_filter. intros c. apply Z.eqb_eq.
Qed.

Lemma entry_counts_sum (l : list Customer.t) :
  foldr (fun c acc => count_of c + acc) 0 l
  = Spec.sum_decimals
      (map (fun c => Z.of_nat (length (Spec.entries_of c (ledger_entries db)))) l).
Proof.
  unfold Spec.sum_decimals. induction l as [|c l IH]; simpl; [done|].
  rewrite IH. subst count_of; simpl. unfold QuerySet.count.
  by rewrite selected_ledger_entries.
Qed.
End StatisticsFacts.

(** [statistics] in closed form: the totals over the rows of the caller's
    customer list. *)
Lemma statistics_closed_form (db : Database) (u : Z) :
  let cs := QuerySet.rows (QuerySet.filter (fun c => Customer.user c =? u)
                             (Customer.objects (customers db))) in
  let summary_of c := Customer.get_summary (ledger_entries db) c in
  LedgerEntryViewSet.statistics db u =
  Ok (LedgerEntryViewSet.mkStatistics
        (Z.of_nat (length (Spec.customers_of u (customers db))))
        (Py.fsum_from Py.fzero
           (map (fun c => Py.float_of_decimal (Customer.total_credit (summary_of c))) cs))
        (Py.fsum_from Py.fzero
           (map (fun c => Py.float_of_decimal (Customer.total_debit (summary_of c))) cs))
        (Py.fsum_from Py.fzero
           (map (fun c => Py.float_of_decimal (Customer.balance (summary_of c))) cs))
        (Spec.sum_decimals
           (map (fun c => Z.of_nat (length (Spec.entries_of c (ledger_entries db))))
                (Spec.customers_of u (customers db)))))
     HTTP_200_OK.
Proof.
  intros cs summary_of. unfold LedgerEntryViewSet.statistics.
  fold cs. rewrite statistics_loop; simpl. f_equal. f_equal.
  - unfold QuerySet.count. by rewrite selected_owned_customers.
  - rewrite Z.add_0_l, <- entry_counts_sum.
    apply foldr_add_Permutation. subst cs.
    by rewrite rows_Permutation, selected_owned_customers.
Qed.

Lemma owned_customers_rows (db : Database) (u : Z) :
  let cs := QuerySet.rows (QuerySet.filter (fun c => Customer.user c =? u)
                             (Customer.objects (customers db))) in
  cs ≡ₚ Spec.customers_of u (customers db) /\
  StronglySorted (fun a b => Customer.created_at b <= Customer.created_at a) cs.
Proof.
  intros cs. subst cs. split.
  - by rewrite rows_Permutation, selected_owned_customers.
  - eapply StronglySorted_weaken; [|apply rows_sorted; apply _].
    intros a b. simpl. unfold Customer.ordering.
    rewrite Is_true_true. apply Z.leb_le.
Qed.

(** C2, as the code has it.  For every user, [total_customers] is the number
    of customers the user owns and [total_entries] is the sum of the entry
    counts of these customers.  [total_credit], [total_debit] and
    [total_balance] are sums taken in binary floating point: every
    per-customer Summary value is converted to the nearest binary64 number
    and the numbers are added one by one, starting from 0, in the order of
    the customer list (newest customer first). *)
Theorem statistics_totals (db : Database) (u : Z) :
  exists (stats : LedgerEntryViewSet.Statistics) (cs : list Customer.t),
    LedgerEntryViewSet.statistics db u = Ok stats HTTP_200_OK /\
    cs ≡ₚ Spec.customers_of u (customers db) /\
    StronglySorted (fun a b => Customer.created_at b <= Customer.created_at a) cs /\
    LedgerEntryViewSet.total_customers stats
      = Z.of_nat (length (Spec.customers_of u (customers db))) /\
    LedgerEntryViewSet.total_entries stats
      = Spec.sum_decimals
          (map (fun c => Z.of_nat (length (Spec.entries_of c (ledger_entries db))))
               (Spec.customers_of u (customers db))) /\
    LedgerEntryViewSet.total_credit stats
      = Py.fsum_from Py.fzero (map (fun c => Py.float_of_decimal
                       (Customer.total_credit (Customer.get_summary (ledger_entries db) c))) cs) /\
    LedgerEntryViewSet.total_debit stats
      = Py.fsum_from Py.fzero (map (fun c => Py.float_of_decimal
                       (Customer.total_debit (Customer.get_summary (ledger_entries db) c))) cs) /\
    LedgerEntryViewSet.total_balance stats
      = Py.fsum_from Py.fzero (map (fun c => Py.float_of_decimal
                       (Customer.balance (Customer.get_summary (ledger_entries db) c))) cs).
Proof.
  pose proof (statistics_closed_form db u) as Heq.
  pose proof (owned_customers_rows db u) as [Hperm Hsorted].
  simpl in Heq, Hperm, Hsorted.
  eexists _, _. split; [exact Heq|]. simpl.
  split; [exact Hperm|]. split; [exact Hsorted|]. done.
Qed.

(* ================================================================== *)
(** * Looking up the caller's customer                                 *)
(* ================================================================== *)

Lemma get_owned_found (tbl : list Customer.t) (v : JsonValue) (u : Z) (c : Customer.t) :
  Customer.get_owned tbl v u = QuerySet.Found c ->
  c ∈ tbl /\ Customer.user c = u /\ Field.get_prep_value v = inl (Customer.id c).
Proof.
  unfold Customer.get_owned.
  destruct (Field.get_prep_value v) as [n|[|]]; [|done|done].
  unfold QuerySet.get, Customer.objects.
  rewrite selected_filter, selected_all.
  destruct (List.filter _ tbl) as [|r [|r' l]] eqn:E; [done| |done].
  intros [= ->].
  assert (Hin : In c (List.filter (fun c0 => (Customer.id c0 =? n) && (Customer.user c0 =? u)) tbl))
    by (rewrite E; by left).
  apply filter_In in Hin as [Hin Hc].
  apply andb_true_iff in Hc as [Hid Hu].
  apply Z.eqb_eq in Hid, Hu. subst.
  split; [by apply list_elem_of_In|done].
Qed.

(* ================================================================== *)
(** * C6: filtering by type                                            *)
(* ================================================================== *)

Section FilterByType.
Import LedgerEntryViewSet.
Variables (py : Py.interpreter) (db : Database) (u : Z).

Lemma filter_by_type_needs_type (customer_id type_ : option string) :
  type_ <> Some "CREDIT"%string -> type_ <> Some "DEBIT"%string ->
  exists errors,
    filter_by_type py db u customer_id type_ = Rejected errors HTTP_400_BAD_REQUEST.
Proof.
  intros Hc Hd. unfold filter_by_type.
  destruct (Py.given customer_id); [|simpl; by eexists].
  cbn [negb].
  assert (negb (Py.given type_) ||
          negb (existsb (String.eqb (param type_)) ["CREDIT"; "DEBIT"]%string) = true) as ->;
    [|by eexists].
  destruct type_ as [s|]; simpl; [|done].
  destruct (String.eqb_spec s "CREDIT"); [congruence|].
  destruct (String.eqb_spec s "DEBIT"); [congruence|].
  simpl. by rewrite orb_true_r.
Qed.

Lemma filter_by_type_found (customer_id : option string) (ty : string)
    (c : Customer.t) :
  Py.given customer_id = true ->
  ty = "CREDIT"%string \/ ty = "DEBIT"%string ->
  Customer.get_owned (customers db) (JStr (param customer_id)) u = QuerySet.Found c ->
  let entries := QuerySet.filter (Customer.has_type ty)
                   (Customer.ledger_entries (ledger_entries db) c) in
  filter_by_type py db u customer_id (Some ty) =
  Ok (mkFilterByType (customer_ref c) ty
        (map LedgerEntrySerializer.to_representation (QuerySet.rows entries))
        (Py.sum py (map (fun e => Py.float_of_decimal (LedgerEntry.amount e))
                     (QuerySet.rows entries)))
        (Z.of_nat (length (QuerySet.rows entries))))
     HTTP_200_OK.
Proof.
  intros Hgiven Hty Hfound entries. unfold filter_by_type.
  rewrite Hgiven; simpl. rewrite Hfound.
  destruct Hty as [-> | ->]; simpl; fold entries; by rewrite rows_length.
Qed.

Lemma rows_of_type (ty : string) (c : Customer.t) :
  QuerySet.rows (QuerySet.filter (Customer.has_type ty)
                   (Customer.ledger_entries (ledger_entries db) c))
  ≡ₚ Spec.entries_of_type c ty (ledger_entries db).
Proof. by rewrite rows_Permutation, selected_ledger_entries_of_type. Qed.

End FilterByType.

(** C6, as the code has it.  A type-filter request whose [type] is missing
    or is neither CREDIT nor DEBIT is rejected with status 400.  For a
    valid type and an owned customer the response holds exactly the
    customer's entries of that type and their count; [total_amount] is a
    binary floating-point number: each amount is converted to the nearest
    binary64 number and the numbers are handed, in the order of the
    listing, to the built-in [sum] of the interpreter that runs the view
    (plain addition up to CPython 3.11, compensated from CPython 3.12). *)
Theorem filter_by_type_answers (py : Py.interpreter) (db : Database) (u : Z)
    (customer_id type_ : option string) :
  (type_ <> Some "CREDIT"%string -> type_ <> Some "DEBIT"%string ->
   exists errors,
     LedgerEntryViewSet.filter_by_type py db u customer_id type_
     = Rejected errors HTTP_400_BAD_REQUEST) /\
  (forall (ty : string) (c : Customer.t),
     type_ = Some ty ->
     ty = "CREDIT"%string \/ ty = "DEBIT"%string ->
     Py.given customer_id = true ->
     Customer.get_owned (customers db) (JStr (param customer_id)) u = QuerySet.Found c ->
     exists (r : LedgerEntryViewSet.FilterByType) (rows : list LedgerEntry.t),
       LedgerEntryViewSet.filter_by_type py db u customer_id type_ = Ok r HTTP_200_OK /\
       rows ≡ₚ Spec.entries_of_type c ty (ledger_entries db) /\
       LedgerEntryViewSet.ft_entries r = map LedgerEntrySerializer.to_representation rows /\
       LedgerEntryViewSet.ft_entries_count r = Z.of_nat (length rows) /\
       LedgerEntryViewSet.ft_total_amount r
       = Py.sum py (map (fun e => Py.float_of_decimal (LedgerEntry.amount e)) rows)).
Proof.
  split; [apply filter_by_type_needs_type|].
  intros ty c -> Hty Hgiven Hfound.
  eexists _, _. split; [by apply filter_by_type_found|]. simpl.
  split; [apply rows_of_type|]. done.
Qed.

(* ================================================================== *)
(** * C5: filtering by a range of dates                                *)
(* ================================================================== *)

Lemma withinb_spec (lo hi : option Py.date) (D : Py.date) :
  Spec.withinb lo hi D = true <-> Spec.within lo hi D.
Proof.
  unfold Spec.withinb, Spec.within. rewrite andb_true_iff.
  destruct lo as [s|], hi as [t|]; rewrite ?date_leb_spec; split.
  - intros [? ?]. split; intros ? [= <-]; done.
  - intros [H1 H2]. split; [by apply H1|by apply H2].
  - intros [? _]. split; [intros ? [= <-]; done|done].
  - intros [H1 _]. split; [by apply H1|done].
  - intros [_ ?]. split; [done|intros ? [= <-]; done].
  - intros [_ H2]. split; [done|by apply H2].
  - done.
  - done.
Qed.

Global Instance within_dec (lo hi : option Py.date) (D : Py.date) :
  Decision (Spec.within lo hi D).
Proof.
  destruct (Spec.withinb lo hi D) eqn:E; [left|right].
  - by apply withinb_spec.
  - rewrite <- withinb_spec. congruence.
Defined.

Lemma rows_ext {Row : Type} (qs1 qs2 : QuerySet.t Row) :
  QuerySet.table qs1 = QuerySet.table qs2 ->
  (forall r, QuerySet.where_ qs1 r = QuerySet.where_ qs2 r) ->
  QuerySet.order_by qs1 = QuerySet.order_by qs2 ->
  QuerySet.rows qs1 = QuerySet.rows qs2 /\ QuerySet.count qs1 = QuerySet.count qs2.
Proof.
  intros Ht Hw Ho. unfold QuerySet.rows, QuerySet.count, QuerySet.selected.
  rewrite Ht, Ho.
  rewrite (List_filter_ext_in (QuerySet.where_ qs1) (QuerySet.where_ qs2)); auto.
Qed.

(** Two query sets over one table that select the same rows answer alike. *)
Ltac same_rows q' :=
  match goal with
  | |- Ok (_ _ _ (map _ (QuerySet.rows ?q)) (QuerySet.count ?q)) _ = _ =>
      let H := fresh "Hsame" in
      assert (H : forall r, QuerySet.where_ q r = QuerySet.where_ q' r);
      [ intros r; unfold Spec.ranged, Spec.withinb; simpl;
        repeat match goal with
               | |- context [Z.eqb ?a ?b] => destruct (Z.eqb a b)
               | |- context [Py.date_leb ?a ?b] => destruct (Py.date_leb a b)
               end; reflexivity
      | destruct (rows_ext q q' eq_refl H eq_refl) as [-> ->]; reflexivity ]
  end.

Section FilterByDate.
Import LedgerEntryViewSet.
Variables (db : Database) (u : Z).
Variables (customer_id start_date end_date : option string) (c : Customer.t).
Hypothesis Hgiven : Py.given customer_id = true.
Hypothesis Hfound :
  Customer.get_owned (customers db) (JStr (param customer_id)) u = QuerySet.Found c.

Lemma filter_by_date_bad_start :
  Py.given start_date = true -> Py.strptime_ymd (param start_date) = None ->
  exists errors,
    filter_by_date db u customer_id start_date end_date
    = Rejected errors HTTP_400_BAD_REQUEST.
Proof.
  intros Hs Hp. unfold filter_by_date. rewrite Hgiven; simpl.
  rewrite Hfound, Hs, Hp. by eexists.
Qed.

Lemma filter_by_date_bad_end :
  Py.given end_date = true -> Py.strptime_ymd (param end_date) = None ->
  exists errors,
    filter_by_date db u customer_id start_date end_date
    = Rejected errors HTTP_400_BAD_REQUEST.
Proof.
  intros He Hp. unfold filter_by_date. rewrite Hgiven; simpl.
  rewrite Hfound, He, Hp.
  destruct (Py.given start_date); [|by eexists].
  destruct (Py.strptime_ymd (param start_date)); by eexists.
Qed.

Let ranged (lo hi : option Py.date) : QuerySet.t LedgerEntry.t :=
  Spec.ranged (ledger_entries db) c lo hi.

Lemma filter_by_date_found (lo hi : option Py.date) :
  Spec.bound start_date lo -> Spec.bound end_date hi ->
  filter_by_date db u customer_id start_date end_date =
  Ok (mkFilterByDate (customer_ref c) (start_date, end_date)
        (map LedgerEntrySerializer.to_representation (QuerySet.rows (ranged lo hi)))
        (Z.of_nat (length (QuerySet.rows (ranged lo hi)))))
     HTTP_200_OK.
Proof.
  unfold Spec.bound. intros Hlo Hhi. unfold filter_by_date.
  rewrite Hgiven; simpl. rewrite Hfound. rewrite rows_length.
  unfold LedgerEntrySerializer.many.
  destruct (Py.given start_date), (Py.given end_date).
  - destruct Hlo as [<- Hlo], Hhi as [<- Hhi].
    destruct (Py.strptime_ymd (param start_date)) as [s|]; [|done].
    destruct (Py.strptime_ymd (param end_date)) as [t|]; [|done].
    same_rows (Spec.ranged (ledger_entries db) c (Some s) (Some t)).
  - destruct Hlo as [<- Hlo]. subst hi.
    destruct (Py.strptime_ymd (param start_date)) as [s|]; [|done].
    same_rows (Spec.ranged (ledger_entries db) c (Some s) None).
  - destruct Hhi as [<- Hhi]. subst lo.
    destruct (Py.strptime_ymd (param end_date)) as [t|]; [|done].
    same_rows (Spec.ranged (ledger_entries db) c None (Some t)).
  - subst lo hi. same_rows (Spec.ranged (ledger_entries db) c None None).
Qed.

Lemma ranged_rows (lo hi : option Py.date) :
  QuerySet.rows (ranged lo hi)
  ≡ₚ filter (fun e => Spec.within lo hi (LedgerEntry.entry_date e))
       (Spec.entries_of c (ledger_entries db)).
Proof.
  rewrite rows_Permutation. subst ranged. unfold Spec.ranged.
  rewrite selected_filter, selected_ledger_entries.
  rewrite (List_filter_filter _
             (fun e => Spec.within lo hi (LedgerEntry.entry_date e))); [done|].
  intros e. apply withinb_spec.
Qed.
End FilterByDate.

(** C5, as the code has it.  For a date-range request over the entries of a
    customer the caller owns, a start or end parameter counts as given when
    it is sent and is not the empty string; an empty parameter is passed
    over like an absent one, without an error.  A given parameter that
    [strptime] does not read as a date in the format [%Y-%m-%d] makes the
    request fail with status 400; otherwise the response holds exactly the
    customer's entries whose [entry_date] D satisfies start <= D (when a
    start is given) and D <= end (when an end is given), both bounds
    inclusive, together with their count. *)
Theorem filter_by_date_answers (db : Database) (u : Z)
    (customer_id start_date end_date : option string) (c : Customer.t) :
  Py.given customer_id = true ->
  Customer.get_owned (customers db) (JStr (param customer_id)) u = QuerySet.Found c ->
  (Py.given start_date = true -> Py.strptime_ymd (param start_date) = None ->
   exists errors,
     LedgerEntryViewSet.filter_by_date db u customer_id start_date end_date
     = Rejected errors HTTP_400_BAD_REQUEST) /\
  (Py.given end_date = true -> Py.strptime_ymd (param end_date) = None ->
   exists errors,
     LedgerEntryViewSet.filter_by_date db u customer_id start_date end_date
     = Rejected errors HTTP_400_BAD_REQUEST) /\
  (forall lo hi : option Py.date,
     Spec.bound start_date lo -> Spec.bound end_date hi ->
     exists (r : LedgerEntryViewSet.FilterByDate) (rows : list LedgerEntry.t),
       LedgerEntryViewSet.filter_by_date db u customer_id start_date end_date
       = Ok r HTTP_200_OK /\
       LedgerEntryViewSet.fd_entries r = map LedgerEntrySerializer.to_representation rows /\
       LedgerEntryViewSet.fd_total_entries r = Z.of_nat (length rows) /\
       rows ≡ₚ filter (fun e => Spec.within lo hi (LedgerEntry.entry_date e))
                 (Spec.entries_of c (ledger_entries db)) /\
       (forall e, e ∈ rows <->
                  e ∈ ledger_entries db /\
                  LedgerEntry.customer e = Customer.id c /\
                  Spec.within lo hi (LedgerEntry.entry_date e))).
Proof.
  intros Hgiven Hfound.
  split; [apply (filter_by_date_bad_start db u _ _ _ c Hgiven Hfound)|].
  split; [apply (filter_by_date_bad_end db u _ _ _ c Hgiven Hfound)|].
  intros lo hi Hlo Hhi.
  eexists _, _. split; [by apply (filter_by_date_found db u _ _ _ c Hgiven Hfound lo hi)|].
  simpl. split; [done|]. split; [done|].
  pose proof (ranged_rows db c lo hi) as Hperm.
  split; [exact Hperm|].
  intros e. rewrite Hperm. unfold Spec.entries_of.
  rewrite !list_elem_of_filter. tauto.
Qed.

(* ================================================================== *)
(** * C9: the order of the entries in a response                       *)
(* ================================================================== *)

Lemma StronglySorted_map {A B : Type} (R : relation A) (S : relation B)
    (f : A -> B) (l : list A) :
  (forall a b, R a b -> S (f a) (f b)) ->
  StronglySorted R l -> StronglySorted S (map f l).
Proof.
  intros HRS. induction 1 as [|a l Hl IH Ha]; simpl; constructor; [done|].
  rewrite Forall_forall in Ha. rewrite Forall_forall. intros y Hy.
  apply list_elem_of_In, in_map_iff in Hy as (x & <- & Hx).
  apply HRS, Ha. by apply list_elem_of_In.
Qed.

Lemma many_newest_first (qs : QuerySet.t LedgerEntry.t) :
  QuerySet.order_by qs = LedgerEntry.ordering ->
  StronglySorted Spec.newest_first (LedgerEntrySerializer.many qs).
Proof.
  intros Hord. unfold LedgerEntrySerializer.many.
  eapply StronglySorted_map; [|apply rows_sorted; rewrite Hord; apply _].
  intros a b. rewrite Hord, entry_ordering_spec. done.
Qed.

(** C9.  Every list of a customer's entries that a read operation returns
    (the listing by customer, the date-range filter and the type filter) is
    sorted newest first by the pair (entry_date, created_at), in descending
    order; so is the query set behind the plain listing of the caller's
    entries. *)
Theorem entries_newest_first (py : Py.interpreter) (db : Database) (u : Z)
    (customer_id start_date end_date type_ : option string) :
  (forall r st,
     LedgerEntryViewSet.by_customer db u customer_id = Ok r st ->
     StronglySorted Spec.newest_first (LedgerEntryViewSet.bc_entries r)) /\
  (forall r st,
     LedgerEntryViewSet.filter_by_date db u customer_id start_date end_date = Ok r st ->
     StronglySorted Spec.newest_first (LedgerEntryViewSet.fd_entries r)) /\
  (forall r st,
     LedgerEntryViewSet.filter_by_type py db u customer_id type_ = Ok r st ->
     StronglySorted Spec.newest_first (LedgerEntryViewSet.ft_entries r)) /\
  StronglySorted Spec.newest_first
    (LedgerEntrySerializer.many (LedgerEntryViewSet.get_queryset db u)).
Proof.
  split; [|split; [|split; [|by apply many_newest_first]]]; intros r st.
  - unfold LedgerEntryViewSet.by_customer.
    repeat case_match; try done. intros [= <- _]. simpl.
    by apply many_newest_first.
  - unfold LedgerEntryViewSet.filter_by_date.
    repeat case_match; try done; intros [= <- _]; simpl;
      simplify_eq; by apply many_newest_first.
  - unfold LedgerEntryViewSet.filter_by_type.
    repeat case_match; try done. intros [= <- _]. simpl.
    by apply many_newest_first.
Qed.

(* ================================================================== *)
(** * C7: searching customers                                          *)
(* ================================================================== *)

Section StringFacts.
Local Open Scope string_scope.

Lemma append_cons (a : ascii) (s t : string) : String a s ++ t = String a (s ++ t).
Proof. reflexivity. Qed.

Lemma append_nil (t : string) : "" ++ t = t.
Proof. reflexivity. Qed.

Lemma startswith_spec (s p : string) :
  Py.startswith s p = true <-> exists post, s = p ++ post.
Proof.
  revert s. induction p as [|a p IH]; intros s; simpl.
  - split; [intros _; by exists s|done].
  - destruct s as [|b s].
    + split; [done|intros [post Hpost]; by rewrite append_cons in Hpost].
    + destruct (Ascii.eqb_spec a b) as [->|Hne].
      * rewrite IH. split; intros [post Hpost]; exists post.
        -- rewrite append_cons. congruence.
        -- rewrite append_cons in Hpost. congruence.
      * split; [done|intros [post Hpost]].
        rewrite append_cons in Hpost. congruence.
Qed.

Lemma contains_spec (hay needle : string) :
  Py.contains hay needle = true <-> exists pre post, hay = pre ++ needle ++ post.
Proof.
  induction hay as [|c hay IH]; simpl.
  - rewrite orb_false_r, startswith_spec. split.
    + intros [post ->]. by exists "", post.
    + intros ([|? pre] & post & H); [by exists post|by rewrite append_cons in H].
  - rewrite orb_true_iff, IH, startswith_spec. split.
    + intros [[post ->]|(pre & post & ->)].
      * by exists "", post.
      * by exists (String c pre), post.
    + intros ([|c' pre] & post & H).
      * left. by exists post.
      * right. rewrite append_cons in H. injection H as -> ->. by exists pre, post.
Qed.

(** Looking for one character. *)
Lemma contains_char_cons (c a : ascii) (s : string) :
  Py.contains (String c s) (String a "")
  = Ascii.eqb a c || Py.contains s (String a "").
Proof.
  simpl. destruct (Ascii.eqb a c); [|done]. by destruct s.
Qed.

Lemma contains_char_lstrip (a : ascii) (s : string) :
  Py.contains s (String a "") = false ->
  Py.contains (Py.lstrip s) (String a "") = false.
Proof.
  induction s as [|c s IH]; [done|]. intros H. cbn [Py.lstrip].
  destruct (Py.isspace c); [|done]. apply IH.
  rewrite contains_char_cons in H. by apply orb_false_iff in H as [_ H].
Qed.

Lemma contains_char_rstrip (a : ascii) (s : string) :
  Py.contains s (String a "") = false ->
  Py.contains (Py.rstrip s) (String a "") = false.
Proof.
  induction s as [|c s IH]; [done|]. intros H.
  rewrite contains_char_cons in H. apply orb_false_iff in H as [Hc H].
  specialize (IH H). cbn [Py.rstrip].
  destruct (Py.rstrip s) as [|r0 r].
  - destruct (Py.isspace c); [done|]. rewrite contains_char_cons, Hc. done.
  - rewrite contains_char_cons, Hc. done.
Qed.

(** Trimming brings no character in. *)
Lemma contains_char_strip (a : ascii) (s : string) :
  Py.contains s (String a "") = false ->
  Py.contains (Py.strip s) (String a "") = false.
Proof. intros H. by apply contains_char_rstrip, contains_char_lstrip. Qed.

Lemma icontains_spec (value query : string) :
  CustomerViewSet.icontains value query = true <-> Spec.icontains value query.
Proof. unfold CustomerViewSet.icontains, Spec.icontains. apply contains_spec. Qed.

Lemma matches_spec (query : string) (c : Customer.t) :
  CustomerViewSet.matches query c = true <-> Spec.matches query c.
Proof.
  unfold CustomerViewSet.matches, Spec.matches.
  rewrite orb_true_iff, icontains_spec.
  destruct (Customer.phone c) as [p|].
  - rewrite icontains_spec. split; [intros [?|?]; eauto|].
    intros [?|(p' & [= <-] & ?)]; auto.
  - split; [intros [?|?]; [auto|done]|].
    intros [?|(p' & [=] & ?)]; auto.
Qed.


End StringFacts.

Global Instance matches_dec (query : string) (c : Customer.t) :
  Decision (Spec.matches query c).
Proof.
  destruct (CustomerViewSet.matches query c) eqn:E; [left|right].
  - by apply matches_spec.
  - rewrite <- matches_spec. congruence.
Defined.


(* ================================================================== *)
(** * C8 and C10: registration                                         *)
(* ================================================================== *)

Section StripFacts.

Lemma lstrip_length (s : string) : (String.length (Py.lstrip s) <= String.length s)%nat.
Proof.
  induction s as [|c s IH]; simpl; [done|].
  destruct (Py.isspace c); simpl; lia.
Qed.

Lemma rstrip_length (s : string) : (String.length (Py.rstrip s) <= String.length s)%nat.
Proof.
  induction s as [|c s IH]; simpl; [done|].
  destruct (Py.rstrip s) as [|c' r]; simpl in *.
  - destruct (Py.isspace c); simpl; lia.
  - lia.
Qed.

Lemma strip_len (s : string) : Py.len (Py.strip s) <= Py.len s.
Proof.
  unfold Py.len, Py.strip.
  pose proof (rstrip_length (Py.lstrip s)). pose proof (lstrip_length s). lia.
Qed.

Lemma truthy_nonempty (s : string) : Py.truthy s = true <-> s <> EmptyString.
Proof. destruct s; simpl; split; congruence. Qed.

End StripFacts.

Section CharFieldFacts.
Import CharField.
Variables (required allow_blank : bool) (validators : list (string -> option string)).

(** No message is collected exactly when every validator passes. *)
Lemma run_validators_cons (f : string -> option string)
    (vs : list (string -> option string)) (v : string) :
  run_validators (f :: vs) v = [] <-> f v = None /\ run_validators vs v = [].
Proof.
  simpl. destruct (f v); [|tauto]. split; [done|]. by intros [? _].
Qed.

(** What a field that did not fail was given. *)
Lemma run_validation_passed (field : string) (data : option string) :
  failure field (run_validation required allow_blank validators data) = [] ->
  (data = None /\ required = false /\
   run_validation required allow_blank validators data = Skipped) \/
  (exists raw, data = Some raw /\
     ((Py.strip raw = EmptyString /\ allow_blank = true /\
       run_validation required allow_blank validators data = Value EmptyString) \/
      (Py.strip raw <> EmptyString /\ run_validators validators (Py.strip raw) = [] /\
       run_validation required allow_blank validators data = Value (Py.strip raw)))).
Proof.
  unfold run_validation. destruct data as [raw|].
  - intros H. right. exists raw. split; [done|].
    destruct (Py.truthy (Py.strip raw)) eqn:Et; simpl in *.
    + right. apply truthy_nonempty in Et.
      destruct (run_validators validators (Py.strip raw)); [done|]. done.
    + left. destruct (Py.strip raw); [|done].
      destruct allow_blank; [done|done].
  - destruct required; [done|]. intros _. by left.
Qed.

Lemma run_validation_value (data : option string) (raw : string) :
  data = Some raw -> Py.strip raw <> EmptyString ->
  run_validators validators (Py.strip raw) = [] ->
  run_validation required allow_blank validators data = Value (Py.strip raw).
Proof.
  intros -> Hne Hv. unfold run_validation.
  apply truthy_nonempty in Hne. rewrite Hne; simpl. by rewrite Hv.
Qed.

(** A field fails with at least one message. *)
Lemma failure_Failed (field : string) (data : option string) (msgs : list string) :
  run_validation required allow_blank validators data = Failed msgs ->
  failure field (Failed msgs) <> [].
Proof.
  unfold run_validation. destruct data as [raw|].
  - destruct (negb _); [destruct allow_blank; [done|by intros [= <-]]|].
    destruct (run_validators _ _) eqn:E; [done|]. by intros [= <-].
  - destruct required; [by intros [= <-]|done].
Qed.

End CharFieldFacts.

Section RegistrationFacts.
Import UserRegistrationSerializer.
Variables (uv ev : string -> bool).
Local Open Scope string_scope.

Lemma unique_username_spec (tbl : list User.t) (v : string) :
  unique_username tbl v = true <-> forall usr, usr ∈ tbl -> User.username usr <> v.
Proof.
  unfold unique_username. rewrite negb_true_iff, <- not_true_iff_false, existsb_exists.
  split.
  - intros H usr Hin Heq. apply H. exists usr.
    split; [by apply list_elem_of_In|by apply String.eqb_eq].
  - intros H (usr & Hin & Heq). apply String.eqb_eq in Heq.
    by apply (H usr); [apply list_elem_of_In|].
Qed.

Lemma password_field_passed (field : string) (d : option string) :
  CharField.failure field (password_field d) = [] ->
  exists raw, d = Some raw /\
    password_field d = CharField.Value (Py.strip raw) /\ 6 <= Py.len (Py.strip raw).
Proof.
  intros H. apply run_validation_passed in H
    as [(_ & [=] & _)|(raw & -> & [(_ & [=] & _)|(Hne & Hv & Hval)])].
  exists raw. split; [done|]. split; [exact Hval|].
  apply run_validators_cons in Hv as [Hv _].
  unfold CharField.MinLengthValidator in Hv.
  destruct (Z.ltb_spec (Py.len (Py.strip raw)) 6); [done|lia].
Qed.

Lemma username_field_passed (tbl : list User.t) (d : option string) :
  CharField.failure "username" (username_field uv tbl d) = [] ->
  exists raw, d = Some raw /\
    username_field uv tbl d = CharField.Value (Py.strip raw) /\
    unique_username tbl (Py.strip raw) = true.
Proof.
  intros H. apply run_validation_passed in H
    as [(_ & [=] & _)|(raw & -> & [(_ & [=] & _)|(Hne & Hv & Hval)])].
  exists raw. split; [done|]. split; [exact Hval|].
  apply run_validators_cons in Hv as [_ Hv].
  apply run_validators_cons in Hv as [Hv _]. unfold check in Hv.
  destruct (unique_username tbl (Py.strip raw)); done.
Qed.

(** What the field validation accepted. *)
Lemma to_internal_value_inr (tbl : list User.t) (data : Data) (v : Validated) :
  to_internal_value uv ev tbl data = inr v ->
  (exists un, username data = Some un /\ v_username v = Py.strip un /\
              unique_username tbl (Py.strip un) = true) /\
  (exists p, password data = Some p /\ v_password v = Py.strip p /\
             6 <= Py.len (Py.strip p)) /\
  (exists pc, password_confirm data = Some pc /\ v_password_confirm v = Py.strip pc /\
              6 <= Py.len (Py.strip pc)).
Proof.
  unfold to_internal_value.
  destruct (CharField.failure "username" _ ++ _)%list as [|err errs] eqn:E; [|done].
  intros [= <-]; simpl.
  apply app_nil in E as [Hu E]. apply app_nil in E as [_ E].
  apply app_nil in E as [Hp E]. apply app_nil in E as [Hpc _].
  apply username_field_passed in Hu as (un & -> & -> & Huniq).
  apply password_field_passed in Hp as (p & -> & -> & Hlen).
  apply password_field_passed in Hpc as (pc & -> & -> & Hlenc).
  simpl. split; [by exists un|]. split; [by exists p|by exists pc].
Qed.

(** No password that the field validation accepted holds a null
    character. *)
Lemma password_field_null (field : string) (d : option string) (raw : string) :
  CharField.failure field (password_field d) = [] -> d = Some raw ->
  Spec.no_null (Py.strip raw).
Proof.
  intros H ->. apply run_validation_passed in H
    as [([=] & _)|(raw' & [= <-] & [(_ & [=] & _)|(Hne & Hv & Hval)])].
  apply run_validators_cons in Hv as [_ Hv].
  apply run_validators_cons in Hv as [Hv _].
  unfold CharField.ProhibitNullCharactersValidator in Hv. unfold Spec.no_null.
  by destruct (Py.contains (Py.strip raw) _).
Qed.

Lemma to_internal_value_null (tbl : list User.t) (data : Data) (v : Validated) :
  to_internal_value uv ev tbl data = inr v ->
  (forall p, password data = Some p -> Spec.no_null (Py.strip p)) /\
  (forall pc, password_confirm data = Some pc -> Spec.no_null (Py.strip pc)).
Proof.
  unfold to_internal_value.
  destruct (CharField.failure "username" _ ++ _)%list as [|err errs] eqn:E; [|done].
  intros _.
  apply app_nil in E as [_ E]. apply app_nil in E as [_ E].
  apply app_nil in E as [Hp E]. apply app_nil in E as [Hpc _].
  split; intros raw Hraw.
  - exact (password_field_null "password" _ raw Hp Hraw).
  - exact (password_field_null "password_confirm" _ raw Hpc Hraw).
Qed.

(** An optional field that is acceptable does not fail, and yields what
    was sent. *)
Lemma optional_field_passed (ok : string -> bool) (max : Z)
    (vs : list (string -> option string)) (field : string) (f : option string) :
  (forall v, Py.len v <= max -> ok v = true -> Spec.no_null v ->
             CharField.run_validators vs v = []) ->
  Spec.optional_ok ok max f ->
  CharField.failure field (CharField.run_validation false true vs f) = [] /\
  CharField.value_or "" (CharField.run_validation false true vs f) = Spec.sent f.
Proof.
  intros Hvs Hok. destruct f as [raw|]; [|done].
  unfold CharField.run_validation; simpl.
  destruct (Hok raw eq_refl) as [Hblank|(Hlen & Hpass & Hnul)].
  - rewrite Hblank; simpl. done.
  - destruct (Py.truthy (Py.strip raw)) eqn:Et; simpl.
    + by rewrite (Hvs _ Hlen Hpass Hnul).
    + destruct (Py.strip raw); done.
Qed.

Lemma next_id_fresh (tbl : list User.t) (usr : User.t) :
  usr ∈ tbl -> User.id usr < next_id tbl.
Proof.
  unfold next_id. induction 1 as [usr l|usr y l Hin IH]; simpl; lia.
Qed.

End RegistrationFacts.

Section RegistrationAnswers.
Import UserRegistrationSerializer.
Variables (uv ev : string -> bool) (nu : string -> string).
Variables (db : Database) (data : Data).
Local Open Scope string_scope.

(** The three ways a registration ends. *)
Lemma post_rejected_or_created :
  (exists errors,
     UserRegistrationView.post uv ev nu db data
     = (Rejected errors HTTP_400_BAD_REQUEST, db)) \/
  (exists v,
     to_internal_value uv ev (users db) data = inr v /\
     unique_username (users db) (nu (v_username v)) = false /\
     UserRegistrationView.post uv ev nu db data = (Unhandled "IntegrityError", db)) \/
  (exists v,
     to_internal_value uv ev (users db) data = inr v /\
     v_password v = v_password_confirm v /\
     unique_username (users db) (nu (v_username v)) = true /\
     UserRegistrationView.post uv ev nu db data =
     (Ok (UserRegistrationView.mkRegistered "Successfully registered"
            (next_id (users db)) (nu (v_username v)) (normalize_email (v_email v)))
         HTTP_201_CREATED,
      mkDatabase (users db ++ [User.mk (next_id (users db)) (nu (v_username v))
                                 (normalize_email (v_email v))
                                 (v_first_name v) (v_last_name v)])%list
                 (customers db) (ledger_entries db))).
Proof.
  unfold UserRegistrationView.post, is_valid.
  destruct (to_internal_value uv ev (users db) data) as [errs|v] eqn:E.
  - left. by eexists.
  - unfold validate.
    destruct (String.eqb_spec (v_password v) (v_password_confirm v)) as [Heq|Hne]; simpl.
    + unfold create.
      destruct (unique_username (users db) (nu (v_username v))) eqn:Hu.
      * right; right. exists v. done.
      * right; left. exists v. done.
    + left. by eexists.
Qed.

(** A request that is not answered 201 stores nothing. *)
Lemma post_unchanged :
  status_code (fst (UserRegistrationView.post uv ev nu db data)) <> HTTP_201_CREATED ->
  snd (UserRegistrationView.post uv ev nu db data) = db.
Proof.
  destruct post_rejected_or_created as [(e & ->)|[(v & _ & _ & ->)|(v & _ & _ & _ & ->)]];
    done.
Qed.

Lemma post_mismatch :
  option_map Py.strip (password data) <> option_map Py.strip (password_confirm data) ->
  exists errors,
    UserRegistrationView.post uv ev nu db data
    = (Rejected errors HTTP_400_BAD_REQUEST, db).
Proof.
  intros Hne. unfold UserRegistrationView.post, is_valid.
  destruct (to_internal_value uv ev (users db) data) as [errs|v] eqn:Hv; [by eexists|].
  apply to_internal_value_inr in Hv as (_ & (p & Hp & Hvp & _) & (pc & Hpc & Hvpc & _)).
  unfold validate.
  destruct (String.eqb_spec (v_password v) (v_password_confirm v)) as [Heq|Hne'];
    simpl; [|by eexists].
  rewrite Hp, Hpc in Hne. simpl in Hne. congruence.
Qed.

Lemma post_duplicate (un : string) (usr : User.t) :
  username data = Some un -> usr ∈ users db -> User.username usr = Py.strip un ->
  exists errors,
    UserRegistrationView.post uv ev nu db data
    = (Rejected errors HTTP_400_BAD_REQUEST, db).
Proof.
  intros Hun Hin Hname. unfold UserRegistrationView.post, is_valid.
  destruct (to_internal_value uv ev (users db) data) as [errs|v] eqn:Hv; [by eexists|].
  apply to_internal_value_inr in Hv as ((un' & Hun' & _ & Huniq) & _).
  rewrite Hun in Hun'. injection Hun' as <-.
  rewrite unique_username_spec in Huniq. by destruct (Huniq usr Hin).
Qed.

Lemma post_short (p : string) :
  password data = Some p \/ password_confirm data = Some p ->
  Py.len p < 6 ->
  exists errors,
    UserRegistrationView.post uv ev nu db data
    = (Rejected errors HTTP_400_BAD_REQUEST, db).
Proof.
  intros Hp Hshort. unfold UserRegistrationView.post, is_valid.
  destruct (to_internal_value uv ev (users db) data) as [errs|v] eqn:Hv; [by eexists|].
  apply to_internal_value_inr in Hv as (_ & (p1 & Hp1 & _ & Hl1) & (p2 & Hp2 & _ & Hl2)).
  pose proof (strip_len p) as Hs.
  destruct Hp as [Hp|Hp]; rewrite Hp in *; simplify_eq; lia.
Qed.

(** A null character in one of the passwords is refused. *)
Lemma post_null (p : string) :
  password data = Some p \/ password_confirm data = Some p ->
  Py.contains (Py.strip p) (String Ascii.zero EmptyString) = true ->
  exists errors,
    UserRegistrationView.post uv ev nu db data
    = (Rejected errors HTTP_400_BAD_REQUEST, db).
Proof.
  intros Hp Hnul. unfold UserRegistrationView.post, is_valid.
  destruct (to_internal_value uv ev (users db) data) as [errs|v] eqn:Hv; [by eexists|].
  apply to_internal_value_null in Hv as (H1 & H2).
  destruct Hp as [Hp|Hp]; [apply H1 in Hp|apply H2 in Hp]; unfold Spec.no_null in Hp;
    congruence.
Qed.

(** A request whose fields are in order passes the validation. *)
Lemma is_valid_accepts (un p pc : string) :
  username data = Some un -> password data = Some p -> password_confirm data = Some pc ->
  Py.strip p = Py.strip pc -> 6 <= Py.len (Py.strip p) -> Spec.no_null (Py.strip p) ->
  Py.strip un <> "" -> Py.len (Py.strip un) <= 150 -> uv (Py.strip un) = true ->
  Spec.no_null (Py.strip un) ->
  (forall usr, usr ∈ users db -> User.username usr <> Py.strip un) ->
  Spec.optional_ok ev 254 (email data) ->
  Spec.optional_ok (fun _ => true) 150 (first_name data) ->
  Spec.optional_ok (fun _ => true) 150 (last_name data) ->
  is_valid uv ev (users db) data
  = inr (mkValidated (Py.strip un) (Spec.sent (email data)) (Py.strip p) (Py.strip pc)
           (Spec.sent (first_name data)) (Spec.sent (last_name data))).
Proof.
  intros Hun Hp Hpc Heq Hlen Hpnul Hne Hmax Huv Hunul Hfresh Hemail Hfirst Hlast.
  assert (Hp_ne : forall s, 6 <= Py.len s -> s <> "").
  { intros [|] ?; [unfold Py.len in *; simpl in *; lia|done]. }
  assert (Hnull : forall s, Spec.no_null s ->
            CharField.ProhibitNullCharactersValidator s = None).
  { intros s Hs. unfold CharField.ProhibitNullCharactersValidator. by rewrite Hs. }
  assert (Hmin : forall s, 6 <= Py.len s -> Spec.no_null s ->
            CharField.run_validators
              [CharField.MinLengthValidator 6; CharField.ProhibitNullCharactersValidator] s
            = []).
  { intros s Hs Hn. simpl. unfold CharField.MinLengthValidator.
    destruct (Z.ltb_spec (Py.len s) 6); [lia|]. by rewrite Hnull. }
  assert (Hmaxv : forall n s, Py.len s <= n -> CharField.MaxLengthValidator n s = None).
  { intros n s Hs. unfold CharField.MaxLengthValidator.
    destruct (Z.ltb_spec n (Py.len s)); [lia|done]. }
  assert (Hu : username_field uv (users db) (username data) = CharField.Value (Py.strip un)).
  { apply run_validation_value; [done|done|].
    simpl. rewrite Hmaxv by done. unfold check. rewrite Huv.
    apply unique_username_spec in Hfresh. rewrite Hfresh. by rewrite Hnull. }
  assert (Hpw : password_field (password data) = CharField.Value (Py.strip p)).
  { apply run_validation_value; auto. }
  assert (Hpcw : password_field (password_confirm data) = CharField.Value (Py.strip pc)).
  { rewrite Heq in Hlen, Hpnul. apply run_validation_value; auto. }
  destruct (optional_field_passed ev 254
              [CharField.MaxLengthValidator 254;
               CharField.ProhibitNullCharactersValidator;
               check ev "Enter a valid email address."]
              "email" (email data)) as [He1 He2]; [|done|].
  { intros v Hv Hok Hn. simpl. rewrite Hmaxv by done. unfold check.
    by rewrite Hnull, Hok. }
  destruct (optional_field_passed (fun _ => true) 150
              [CharField.MaxLengthValidator 150; CharField.ProhibitNullCharactersValidator]
              "first_name" (first_name data))
    as [Hf1 Hf2]; [|done|].
  { intros v Hv _ Hn. simpl. rewrite Hmaxv by done. by rewrite Hnull. }
  destruct (optional_field_passed (fun _ => true) 150
              [CharField.MaxLengthValidator 150; CharField.ProhibitNullCharactersValidator]
              "last_name" (last_name data))
    as [Hl1 Hl2]; [|done|].
  { intros v Hv _ Hn. simpl. rewrite Hmaxv by done. by rewrite Hnull. }
  unfold is_valid, to_internal_value.
  unfold email_field, name_field.
  rewrite Hu, Hpw, Hpcw, He1, He2, Hf1, Hf2, Hl1, Hl2. simpl.
  unfold validate; simpl. by rewrite Heq, String.eqb_refl.
Qed.

Lemma post_created (un p pc : string) :
  username data = Some un -> password data = Some p -> password_confirm data = Some pc ->
  Py.strip p = Py.strip pc -> 6 <= Py.len (Py.strip p) -> Spec.no_null (Py.strip p) ->
  Py.strip un <> "" -> Py.len (Py.strip un) <= 150 -> uv (Py.strip un) = true ->
  Spec.no_null (Py.strip un) ->
  (forall usr, usr ∈ users db -> User.username usr <> Py.strip un) ->
  (forall usr, usr ∈ users db -> User.username usr <> nu (Py.strip un)) ->
  Spec.optional_ok ev 254 (email data) ->
  Spec.optional_ok (fun _ => true) 150 (first_name data) ->
  Spec.optional_ok (fun _ => true) 150 (last_name data) ->
  UserRegistrationView.post uv ev nu db data =
  (Ok (UserRegistrationView.mkRegistered "Successfully registered"
         (next_id (users db)) (nu (Py.strip un))
         (normalize_email (Spec.sent (email data))))
      HTTP_201_CREATED,
   mkDatabase (users db ++ [User.mk (next_id (users db)) (nu (Py.strip un))
                              (normalize_email (Spec.sent (email data)))
                              (Spec.sent (first_name data))
                              (Spec.sent (last_name data))])%list
              (customers db) (ledger_entries db)).
Proof.
  intros Hun Hp Hpc Heq Hlen Hpnul Hne Hmax Huv Hunul Hfresh Hfresh' Hemail Hfirst Hlast.
  unfold UserRegistrationView.post.
  rewrite (is_valid_accepts un p pc) by done.
  unfold create; simpl.
  apply unique_username_spec in Hfresh'. by rewrite Hfresh'.
Qed.

(** The unique index of the store refuses a name whose normal form is
    taken. *)
Lemma post_integrity (un p pc : string) (usr : User.t) :
  username data = Some un -> password data = Some p -> password_confirm data = Some pc ->
  Py.strip p = Py.strip pc -> 6 <= Py.len (Py.strip p) -> Spec.no_null (Py.strip p) ->
  Py.strip un <> "" -> Py.len (Py.strip un) <= 150 -> uv (Py.strip un) = true ->
  Spec.no_null (Py.strip un) ->
  (forall usr, usr ∈ users db -> User.username usr <> Py.strip un) ->
  usr ∈ users db -> User.username usr = nu (Py.strip un) ->
  Spec.optional_ok ev 254 (email data) ->
  Spec.optional_ok (fun _ => true) 150 (first_name data) ->
  Spec.optional_ok (fun _ => true) 150 (last_name data) ->
  UserRegistrationView.post uv ev nu db data = (Unhandled "IntegrityError", db).
Proof.
  intros Hun Hp Hpc Heq Hlen Hpnul Hne Hmax Huv Hunul Hfresh Hin Hname Hemail Hfirst Hlast.
  unfold UserRegistrationView.post.
  rewrite (is_valid_accepts un p pc) by done.
  unfold create; simpl.
  destruct (unique_username (users db) (nu (Py.strip un))) eqn:Hu; [|done].
  rewrite unique_username_spec in Hu. by destruct (Hu usr Hin).
Qed.

End RegistrationAnswers.

(** C8, as the code has it.  The two passwords are compared after the
    field validation has trimmed them of surrounding white space: when they
    differ, or one is missing, the registration fails with a validation
    error (status 400).  Every rejection leaves the data store unchanged, and
    a user name that is already taken is rejected.  A user is created, under
    the normal form of its name, when the trimmed passwords are equal, at
    least 6 characters long and free of null characters, the user name is
    taken neither as it was sent nor in the normal form under which it is
    stored, and the user name, e-mail address and names pass their field
    validation.  When all this holds but for the normal form of the name,
    which is taken, the request ends with the IntegrityError of the store,
    which the view does not catch, and no user is created. *)
Theorem registration_answers (uv ev : string -> bool) (nu : string -> string)
    (db : Database) (data : UserRegistrationSerializer.Data) :
  (option_map Py.strip (UserRegistrationSerializer.password data)
   <> option_map Py.strip (UserRegistrationSerializer.password_confirm data) ->
   exists errors,
     UserRegistrationView.post uv ev nu db data
     = (Rejected errors HTTP_400_BAD_REQUEST, db)) /\
  (forall errors st db',
     UserRegistrationView.post uv ev nu db data = (Rejected errors st, db') -> db' = db) /\
  (forall un usr,
     UserRegistrationSerializer.username data = Some un ->
     usr ∈ users db -> User.username usr = Py.strip un ->
     exists errors,
       UserRegistrationView.post uv ev nu db data
       = (Rejected errors HTTP_400_BAD_REQUEST, db)) /\
  (forall un p pc,
     UserRegistrationSerializer.username data = Some un ->
     UserRegistrationSerializer.password data = Some p ->
     UserRegistrationSerializer.password_confirm data = Some pc ->
     Py.strip p = Py.strip pc -> 6 <= Py.len (Py.strip p) ->
     Spec.no_null (Py.strip p) ->
     Py.strip un <> EmptyString -> Py.len (Py.strip un) <= 150 ->
     uv (Py.strip un) = true ->
     Spec.no_null (Py.strip un) ->
     (forall usr, usr ∈ users db -> User.username usr <> Py.strip un) ->
     (forall usr, usr ∈ users db -> User.username usr <> nu (Py.strip un)) ->
     Spec.optional_ok ev 254 (UserRegistrationSerializer.email data) ->
     Spec.optional_ok (fun _ => true) 150 (UserRegistrationSerializer.first_name data) ->
     Spec.optional_ok (fun _ => true) 150 (UserRegistrationSerializer.last_name data) ->
     exists (r : UserRegistrationView.Registered) (user : User.t),
       UserRegistrationView.post uv ev nu db data =
       (Ok r HTTP_201_CREATED,
        mkDatabase (users db ++ [user]) (customers db) (ledger_entries db)) /\
       User.username user = nu (Py.strip un) /\
       UserRegistrationView.user_username r = nu (Py.strip un) /\
       UserRegistrationView.user_id r = User.id user /\
       (forall usr, usr ∈ users db -> User.id usr < User.id user)) /\
  (forall un p pc usr,
     UserRegistrationSerializer.username data = Some un ->
     UserRegistrationSerializer.password data = Some p ->
     UserRegistrationSerializer.password_confirm data = Some pc ->
     Py.strip p = Py.strip pc -> 6 <= Py.len (Py.strip p) ->
     Spec.no_null (Py.strip p) ->
     Py.strip un <> EmptyString -> Py.len (Py.strip un) <= 150 ->
     uv (Py.strip un) = true ->
     Spec.no_null (Py.strip un) ->
     (forall usr, usr ∈ users db -> User.username usr <> Py.strip un) ->
     usr ∈ users db -> User.username usr = nu (Py.strip un) ->
     Spec.optional_ok ev 254 (UserRegistrationSerializer.email data) ->
     Spec.optional_ok (fun _ => true) 150 (UserRegistrationSerializer.first_name data) ->
     Spec.optional_ok (fun _ => true) 150 (UserRegistrationSerializer.last_name data) ->
     UserRegistrationView.post uv ev nu db data = (Unhandled "IntegrityError", db)).
Proof.
  split; [apply post_mismatch|]. split.
  { intros errors st db' H.
    destruct (post_rejected_or_created uv ev nu db data)
      as [[e He]|[(v & _ & _ & Hv)|(v & _ & _ & _ & Hv)]];
      rewrite H in *; congruence. }
  split; [apply post_duplicate|]. split.
  - intros un p pc Hun Hp Hpc Heq Hlen Hpnul Hne Hmax Huv Hunul Hfresh Hfresh'
      Hemail Hfirst Hlast.
    eexists _, _. split; [by eapply post_created|]. simpl.
    split; [done|]. split; [done|]. split; [done|].
    apply next_id_fresh.
  - intros un p pc usr Hun Hp Hpc Heq Hlen Hpnul Hne Hmax Huv Hunul Hfresh Hin Hname
      Hemail Hfirst Hlast.
    by apply (post_integrity uv ev nu db data un p pc usr).
Qed.

(** C10.  A registration request in which [password] or [password_confirm]
    is shorter than 6 characters is rejected with a validation error (status
    400), and no user is created: the data store is left as it was. *)
Theorem short_password_rejected (uv ev : string -> bool) (nu : string -> string)
    (db : Database) (data : UserRegistrationSerializer.Data) (p : string) :
  UserRegistrationSerializer.password data = Some p \/
  UserRegistrationSerializer.password_confirm data = Some p ->
  Py.len p < 6 ->
  exists errors,
    UserRegistrationView.post uv ev nu db data
    = (Rejected errors HTTP_400_BAD_REQUEST, db).
Proof. apply post_short. Qed.

(* ================================================================== *)
(** * C3: creating an entry for a customer of another user             *)
(* ================================================================== *)

Section CreateFacts.
Import LedgerEntryViewSet.
Variables (db : Database) (u now : Z) (today : Py.date) (request : CreateRequest).

(** X2.  A customer that is missing or belongs to somebody else: nothing is
    stored, and the request is answered as a success. *)
Lemma create_without_customer (v : LedgerEntrySerializer.Validated) :
  LedgerEntrySerializer.is_valid (fields request) = inr v ->
  Customer.get_owned (customers db) (customer request) u = QuerySet.DoesNotExist ->
  perform_create db u now today (customer request) v
  = (Returned (Some (Rejected (error "Not found") HTTP_404_NOT_FOUND)),
     None, ledger_entries db) /\
  create db u now today request
  = (Ok (LedgerEntrySerializer.OfValidatedData v) HTTP_201_CREATED, db).
Proof.
  intros Hv Hc. unfold create, perform_create. rewrite Hv, Hc.
  split; [done|]. by destruct db.
Qed.

(** X1.  Whatever the request, [create] never answers 404. *)
Lemma create_status :
  status_code (fst (create db u now today request)) = HTTP_400_BAD_REQUEST \/
  status_code (fst (create db u now today request)) = HTTP_201_CREATED \/
  status_code (fst (create db u now today request)) = HTTP_500_INTERNAL_SERVER_ERROR.
Proof.
  unfold create, perform_create.
  destruct (LedgerEntrySerializer.is_valid (fields request)); [by left|].
  destruct (Customer.get_owned (customers db) (customer request) u); simpl; auto.
Qed.

End CreateFacts.

Lemma get_owned_foreign (tbl : list Customer.t) (n u : Z) :
  (forall c, c ∈ tbl -> Customer.id c = n -> Customer.user c <> u) ->
  Customer.get_owned tbl (JInt n) u = QuerySet.DoesNotExist.
Proof.
  intros H. unfold Customer.get_owned; simpl.
  unfold QuerySet.get, Customer.objects. rewrite selected_filter, selected_all.
  destruct (List.filter _ tbl) as [|c l] eqn:E; [done|].
  assert (Hin : In c (List.filter (fun c0 => (Customer.id c0 =? n) && (Customer.user c0 =? u)) tbl))
    by (rewrite E; by left).
  apply filter_In in Hin as [Hin Hc].
  apply andb_true_iff in Hc as [Hid Hu]. apply Z.eqb_eq in Hid, Hu.
  destruct (H c); [by apply list_elem_of_In|done|done].
Qed.

(** C3 (the code departs from the claim).  In the sample shop customer 1
    belongs to alice (user 1).  When bob (user 2) posts a valid entry for
    customer 1, [perform_create] does build the 404 response, but [create]
    drops it: the request is answered with status 201 and the validated
    input, although no entry was stored. *)
Theorem create_for_foreign_customer :
  let request := LedgerEntryViewSet.mkCreateRequest (JInt 1) Sample.credit_5000 in
  let validated := LedgerEntrySerializer.mkValidated "CREDIT" 500000 (Some "rice"%string) in
  Customer.get_owned (customers Sample.shop) (JInt 1) 1 = QuerySet.Found Sample.karim /\
  Customer.get_owned (customers Sample.shop) (JInt 1) 2 = QuerySet.DoesNotExist /\
  LedgerEntryViewSet.perform_create Sample.shop 2 500 Sample.may_2 (JInt 1) validated
  = (LedgerEntryViewSet.Returned
       (Some (Rejected (error "Not found") HTTP_404_NOT_FOUND)),
     None, ledger_entries Sample.shop) /\
  LedgerEntryViewSet.create Sample.shop 2 500 Sample.may_2 request
  = (Ok (LedgerEntrySerializer.OfValidatedData validated) HTTP_201_CREATED, Sample.shop).
Proof. repeat split; vm_compute; reflexivity. Qed.

(* ================================================================== *)
(** * C4: decimal and floating-point arithmetic                        *)
(* ================================================================== *)

Lemma sum_amounts_app (l1 l2 : list LedgerEntry.t) :
  Spec.sum_amounts (l1 ++ l2) = Spec.sum_amounts l1 + Spec.sum_amounts l2.
Proof.
  unfold Spec.sum_amounts. induction l1 as [|e l1 IH]; simpl; [done|].
  rewrite IH. lia.
Qed.

Lemma entries_of_type_snoc (c : Customer.t) (ty : string)
    (tbl : list LedgerEntry.t) (e : LedgerEntry.t) :
  Spec.entries_of_type c ty (tbl ++ [e]) =
  Spec.entries_of_type c ty tbl ++
  (if decide (LedgerEntry.customer e = Customer.id c /\ LedgerEntry.type e = ty)
   then [e] else []).
Proof.
  unfold Spec.entries_of_type. rewrite filter_app. f_equal.
Qed.

(** The summary after one more entry was stored for the customer. *)
Lemma get_summary_snoc (tbl : list LedgerEntry.t) (c : Customer.t) (e : LedgerEntry.t) :
  LedgerEntry.customer e = Customer.id c ->
  let s := Customer.get_summary tbl c in
  let s' := Customer.get_summary (tbl ++ [e]) c in
  (LedgerEntry.type e = "CREDIT"%string ->
   Customer.total_credit s' = Customer.total_credit s + LedgerEntry.amount e /\
   Customer.total_debit s' = Customer.total_debit s /\
   Customer.balance s' = Customer.balance s + LedgerEntry.amount e) /\
  (LedgerEntry.type e = "DEBIT"%string ->
   Customer.total_credit s' = Customer.total_credit s /\
   Customer.total_debit s' = Customer.total_debit s + LedgerEntry.amount e /\
   Customer.balance s' = Customer.balance s - LedgerEntry.amount e).
Proof.
  intros Hc s s'. subst s s'. rewrite !get_summary_sums. simpl.
  rewrite !entries_of_type_snoc, !sum_amounts_app.
  split; intros Hty; repeat case_decide; unfold Spec.sum_amounts; simpl;
    try lia; exfalso; intuition congruence.
Qed.


(* ================================================================== *)
(** * The examples of the specification and of the tests               *)
(* ================================================================== *)

Section Examples.
Local Open Scope string_scope.

(** CREDIT 5000, CREDIT 3000, DEBIT 2000: 8000.00, 2000.00 and 6000.00. *)
Example summary_example :
  Customer.get_summary
    [Sample.entry 1 1 "CREDIT" 500000 Sample.may_1 100;
     Sample.entry 2 1 "CREDIT" 300000 Sample.may_1 101;
     Sample.entry 3 1 "DEBIT" 200000 Sample.may_2 102] Sample.karim
  = Customer.mkSummary 800000 200000 600000.
Proof. reflexivity. Qed.

(** Two customers, CREDIT 5000 and DEBIT 2000 for one and CREDIT 3000 for the
    other: whole amounts of this size are added without rounding. *)
Example statistics_example :
  LedgerEntryViewSet.statistics Sample.shop 1
  = Ok (LedgerEntryViewSet.mkStatistics 2
          (Py.float_of_decimal 800000) (Py.float_of_decimal 200000)
          (Py.float_of_decimal 600000) 3) HTTP_200_OK.
Proof. vm_compute. reflexivity. Qed.

Example float_of_one_tenth :
  Py.float_of_decimal 10 = S754_finite false 7205759403792794 (-56).
Proof. vm_compute. reflexivity. Qed.

Example strptime_examples :
  Py.strptime_ymd "2024-12-31" = Some (Py.Date 2024 12 31) /\
  Py.strptime_ymd "2024-1-5" = Some (Py.Date 2024 1 5) /\
  Py.strptime_ymd "2024-02-29" = Some (Py.Date 2024 2 29) /\
  Py.strptime_ymd "2023-02-29" = None /\
  Py.strptime_ymd "2024-13-01" = None /\
  Py.strptime_ymd "2024-12-31 " = None /\
  Py.strptime_ymd "0000-12-01" = None /\
  Py.strptime_ymd "invalid" = None.
Proof. repeat split; reflexivity. Qed.

(** [test_filter_by_invalid_date_format] *)
Example invalid_date_example :
  LedgerEntryViewSet.filter_by_date Sample.shop 1 (Some "1") (Some "invalid")
    (Some "2024-12-31")
  = Rejected (error "Invalid start date format (YYYY-MM-DD expected)") HTTP_400_BAD_REQUEST.
Proof. reflexivity. Qed.

(** [test_search_with_single_character] and [test_search_customers] *)
Example search_examples :
  CustomerViewSet.search Sample.shop 1 (Some "a")
  = Rejected (error "At least 2 characters required for search") HTTP_400_BAD_REQUEST /\
  CustomerViewSet.search Sample.shop 1 (Some "KARIM") = Ok [Sample.karim] HTTP_200_OK /\
  CustomerViewSet.search Sample.shop 1 (Some "0170") = Ok [Sample.karim] HTTP_200_OK.
Proof. repeat split; vm_compute; reflexivity. Qed.

(** The compensated summation of CPython 3.12 agrees with the plain one on
    0.20 + 0.10, and differs from it on ten times 0.10: 0.9999999999999999
    up to CPython 3.11 and 1.0 from CPython 3.12 on. *)
Example compensated_sum_example :
  Py.sum Py.CPython_3_12 [Py.float_of_decimal 20; Py.float_of_decimal 10]
  = Py.sum Py.CPython_3_11 [Py.float_of_decimal 20; Py.float_of_decimal 10] /\
  Py.sum Py.CPython_3_11 (repeat (Py.float_of_decimal 10) 10)
  = S754_finite false 9007199254740991 (-53) /\
  Py.sum Py.CPython_3_12 (repeat (Py.float_of_decimal 10) 10)
  = Py.float_of_decimal 100.
Proof. repeat split; vm_compute; reflexivity. Qed.

End Examples.

(* ================================================================== *)
(** * Where the claims fail as they are worded                         *)
(* ================================================================== *)

Section Counterexamples.
Local Open Scope string_scope.

(** C2 as worded fails: alice's customers have the Summary values 0.10 and
    0.20, whose sum is 0.30, but [total_credit] is the float
    0.30000000000000004, which is neither 0.30 nor the float nearest to
    0.30. *)
Lemma statistics_total_is_not_the_sum :
  exists stats,
    LedgerEntryViewSet.statistics Sample.pennies 1 = Ok stats HTTP_200_OK /\
    Spec.sum_decimals
      (map (fun c => Customer.total_credit
                       (Customer.get_summary (ledger_entries Sample.pennies) c))
           (Spec.customers_of 1 (customers Sample.pennies))) = 30 /\
    LedgerEntryViewSet.total_credit stats = S754_finite false 5404319552844596 (-54) /\
    ~ Py.exactly (LedgerEntryViewSet.total_credit stats) 30 /\
    ~ Spec.nearest (LedgerEntryViewSet.total_credit stats) 30.
Proof.
  eexists. split; [reflexivity|].
  split; [vm_compute; reflexivity|].
  split; [vm_compute; reflexivity|].
  split; vm_compute; intros H; discriminate H.
Qed.

(** C6 as worded fails: Salma's CREDIT entries are 0.10 and 0.20, whose sum
    is 0.30, but [total_amount] is the float 0.30000000000000004, which is
    neither 0.30 nor the float nearest to 0.30, whether [sum] adds plainly
    (up to CPython 3.11) or compensates (from CPython 3.12). *)
Lemma type_total_is_not_the_sum :
  Spec.sum_amounts
    (Spec.entries_of_type Sample.salma "CREDIT" (ledger_entries Sample.pennies)) = 30 /\
  (exists r,
     LedgerEntryViewSet.filter_by_type Py.CPython_3_11 Sample.pennies 2 (Some "3")
       (Some "CREDIT") = Ok r HTTP_200_OK /\
     LedgerEntryViewSet.ft_total_amount r = S754_finite false 5404319552844596 (-54) /\
     ~ Py.exactly (LedgerEntryViewSet.ft_total_amount r) 30 /\
     ~ Spec.nearest (LedgerEntryViewSet.ft_total_amount r) 30) /\
  (exists r,
     LedgerEntryViewSet.filter_by_type Py.CPython_3_12 Sample.pennies 2 (Some "3")
       (Some "CREDIT") = Ok r HTTP_200_OK /\
     LedgerEntryViewSet.ft_total_amount r = S754_finite false 5404319552844596 (-54) /\
     ~ Py.exactly (LedgerEntryViewSet.ft_total_amount r) 30 /\
     ~ Spec.nearest (LedgerEntryViewSet.ft_total_amount r) 30).
Proof.
  split; [vm_compute; reflexivity|].
  split; (eexists; split; [reflexivity|]; split; [vm_compute; reflexivity|];
          split; vm_compute; intros H; discriminate H).
Qed.


(** C5 as worded fails: the empty string is no date in the format
    YYYY-MM-DD ([strptime] refuses it), yet a request whose [start_date] or
    [end_date] is the empty string is not refused: it is answered 200 with
    all the entries of the customer, as if the parameter had not been
    sent. *)
Lemma empty_date_is_ignored :
  Py.strptime_ymd "" = None /\
  (exists r all,
     LedgerEntryViewSet.filter_by_date Sample.shop 1 (Some "1") (Some "") None
     = Ok r HTTP_200_OK /\
     LedgerEntryViewSet.by_customer Sample.shop 1 (Some "1") = Ok all HTTP_200_OK /\
     LedgerEntryViewSet.fd_entries r = LedgerEntryViewSet.bc_entries all /\
     LedgerEntryViewSet.fd_total_entries r = 2) /\
  (exists r all,
     LedgerEntryViewSet.filter_by_date Sample.shop 1 (Some "1") None (Some "")
     = Ok r HTTP_200_OK /\
     LedgerEntryViewSet.by_customer Sample.shop 1 (Some "1") = Ok all HTTP_200_OK /\
     LedgerEntryViewSet.fd_entries r = LedgerEntryViewSet.bc_entries all /\
     LedgerEntryViewSet.fd_total_entries r = 2).
Proof.
  split; [reflexivity|].
  split; (eexists _, _; split; [reflexivity|]; split; [reflexivity|];
          split; vm_compute; reflexivity).
Qed.


(** C8 as worded fails: two equal passwords of five characters and a user
    name that is not taken, yet no user is created; two equal passwords of
    seven characters, one of them the null character, yet no user is
    created; and two passwords that differ by a trailing space, yet the user
    is created. *)
Lemma equal_passwords_are_not_enough :
  let short := Sample.registration "testuser" "short" "short" in
  let null := Sample.registration "testuser" ("abc" ++ String Ascii.zero "def")
                ("abc" ++ String Ascii.zero "def") in
  let spaced := Sample.registration "testuser" "secret1 " "secret1" in
  UserRegistrationSerializer.password short
  = UserRegistrationSerializer.password_confirm short /\
  UserRegistrationSerializer.unique_username (users Sample.shop) "testuser" = true /\
  UserRegistrationView.post Sample.username_validator Sample.email_validator
    Sample.normalize_username Sample.shop short
  = (Rejected [("password", "Ensure this field has at least 6 characters.");
               ("password_confirm", "Ensure this field has at least 6 characters.")]
       HTTP_400_BAD_REQUEST,
     Sample.shop) /\
  UserRegistrationSerializer.password null
  = UserRegistrationSerializer.password_confirm null /\
  UserRegistrationView.post Sample.username_validator Sample.email_validator
    Sample.normalize_username Sample.shop null
  = (Rejected [("password", "Null characters are not allowed.");
               ("password_confirm", "Null characters are not allowed.")]
       HTTP_400_BAD_REQUEST,
     Sample.shop) /\
  UserRegistrationSerializer.password spaced
  <> UserRegistrationSerializer.password_confirm spaced /\
  UserRegistrationView.post Sample.username_validator Sample.email_validator
    Sample.normalize_username Sample.shop spaced
  = (Ok (UserRegistrationView.mkRegistered "Successfully registered" 3 "testuser"
           "test@example.com") HTTP_201_CREATED,
     mkDatabase (users Sample.shop ++ [User.mk 3 "testuser" "test@example.com" "Test" "User"])%list
       (customers Sample.shop) (ledger_entries Sample.shop)).
Proof.
  repeat split; try (vm_compute; reflexivity).
  vm_compute. intros H; discriminate H.
Qed.

End Counterexamples.

(* ================================================================== *)
(** * The theorems at work on the sample data                          *)
(* ================================================================== *)

Section Witnesses.
Local Open Scope string_scope.

(** Salma has no entries in the sample shop: her summary is all zeros. *)
Lemma summary_totals_witness :
  Spec.entries_of Sample.salma (ledger_entries Sample.shop) = [] /\
  CustomerSummarySerializer.total_credit
    (CustomerSummarySerializer.to_representation (ledger_entries Sample.shop) Sample.salma) = 0 /\
  CustomerSummarySerializer.total_debit
    (CustomerSummarySerializer.to_representation (ledger_entries Sample.shop) Sample.salma) = 0 /\
  CustomerSummarySerializer.balance
    (CustomerSummarySerializer.to_representation (ledger_entries Sample.shop) Sample.salma) = 0 /\
  CustomerSummarySerializer.entries_count
    (CustomerSummarySerializer.to_representation (ledger_entries Sample.shop) Sample.salma) = 0.
Proof.
  split; [reflexivity|].
  destruct (summary_totals (ledger_entries Sample.shop) Sample.salma)
    as (_ & _ & _ & _ & _ & _ & _ & _ & _ & H).
  apply H. reflexivity.
Defined.

(** Karim's entries of May 1st, asked for by alice. *)
Lemma filter_by_date_answers_witness :
  Py.given (Some "1") = true /\
  Customer.get_owned (customers Sample.shop) (JStr (param (Some "1"))) 1
  = QuerySet.Found Sample.karim /\
  Spec.bound (Some "2024-05-01") (Some Sample.may_1) /\
  exists r rows,
    LedgerEntryViewSet.filter_by_date Sample.shop 1 (Some "1") (Some "2024-05-01")
      (Some "2024-05-01") = Ok r HTTP_200_OK /\
    LedgerEntryViewSet.fd_entries r = map LedgerEntrySerializer.to_representation rows /\
    LedgerEntryViewSet.fd_total_entries r = Z.of_nat (length rows) /\
    rows ≡ₚ filter (fun e => Spec.within (Some Sample.may_1) (Some Sample.may_1)
                               (LedgerEntry.entry_date e))
              (Spec.entries_of Sample.karim (ledger_entries Sample.shop)).
Proof.
  assert (Hb : Spec.bound (Some "2024-05-01") (Some Sample.may_1))
    by (split; [reflexivity|discriminate]).
  split; [reflexivity|]. split; [reflexivity|]. split; [exact Hb|].
  destruct (filter_by_date_answers Sample.shop 1 (Some "1") (Some "2024-05-01")
              (Some "2024-05-01") Sample.karim eq_refl eq_refl) as (_ & _ & H).
  destruct (H (Some Sample.may_1) (Some Sample.may_1) Hb Hb)
    as (r & rows & Hr & He & Hn & Hp & _).
  exists r, rows. auto.
Defined.

(** A request with the type ["credit"] in lower case is rejected; one with
    ["DEBIT"] for Karim is answered. *)
Lemma filter_by_type_answers_witness :
  (exists errors,
     LedgerEntryViewSet.filter_by_type Py.CPython_3_12 Sample.shop 1 (Some "1") (Some "credit")
     = Rejected errors HTTP_400_BAD_REQUEST) /\
  (exists r rows,
     LedgerEntryViewSet.filter_by_type Py.CPython_3_12 Sample.shop 1 (Some "1") (Some "DEBIT")
     = Ok r HTTP_200_OK /\
     rows ≡ₚ Spec.entries_of_type Sample.karim "DEBIT" (ledger_entries Sample.shop) /\
     LedgerEntryViewSet.ft_entries_count r = Z.of_nat (length rows)).
Proof.
  split.
  - apply (filter_by_type_answers Py.CPython_3_12 Sample.shop 1 (Some "1") (Some "credit"));
      discriminate.
  - destruct (filter_by_type_answers Py.CPython_3_12 Sample.shop 1 (Some "1")
                (Some "DEBIT")) as [_ H].
    destruct (H "DEBIT" Sample.karim eq_refl (or_intror eq_refl) eq_refl eq_refl)
      as (r & rows & Hr & Hp & _ & Hn & _).
    exists r, rows. auto.
Defined.


(** A registration that passes every check. *)
Lemma registration_answers_witness :
  exists r user,
    UserRegistrationView.post Sample.username_validator Sample.email_validator
      Sample.normalize_username Sample.shop
      (Sample.registration "testuser" "testpass123" "testpass123")
    = (Ok r HTTP_201_CREATED,
       mkDatabase (users Sample.shop ++ [user])%list (customers Sample.shop)
         (ledger_entries Sample.shop)) /\
    User.username user = "testuser".
Proof.
  destruct (registration_answers Sample.username_validator Sample.email_validator
              Sample.normalize_username Sample.shop
              (Sample.registration "testuser" "testpass123" "testpass123"))
    as (_ & _ & _ & H & _).
  assert (Hfresh : forall usr, usr ∈ users Sample.shop -> User.username usr <> "testuser").
  { intros usr Hin.
    apply (proj1 (unique_username_spec (users Sample.shop) "testuser") eq_refl usr Hin). }
  destruct (H "testuser" "testpass123" "testpass123") as (r & user & Hpost & Hname & _).
  - reflexivity.
  - reflexivity.
  - reflexivity.
  - reflexivity.
  - vm_compute; discriminate.
  - vm_compute; reflexivity.
  - vm_compute; discriminate.
  - vm_compute; discriminate.
  - reflexivity.
  - vm_compute; reflexivity.
  - exact Hfresh.
  - exact Hfresh.
  - intros raw [= <-]. right.
    split; [vm_compute; discriminate|]. split; vm_compute; reflexivity.
  - intros raw [= <-]. right.
    split; [vm_compute; discriminate|]. split; vm_compute; reflexivity.
  - intros raw [= <-]. right.
    split; [vm_compute; discriminate|]. split; vm_compute; reflexivity.
  - exists r, user. auto.
Defined.

(** [test_registration_with_short_password] *)
Lemma short_password_rejected_witness :
  (UserRegistrationSerializer.password (Sample.registration "testuser" "short" "short")
   = Some "short" \/
   UserRegistrationSerializer.password_confirm (Sample.registration "testuser" "short" "short")
   = Some "short") /\
  Py.len "short" < 6 /\
  exists errors,
    UserRegistrationView.post Sample.username_validator Sample.email_validator
      Sample.normalize_username Sample.shop (Sample.registration "testuser" "short" "short")
    = (Rejected errors HTTP_400_BAD_REQUEST, Sample.shop).
Proof.
  split; [left; reflexivity|]. split; [reflexivity|].
  apply (short_password_rejected Sample.username_validator Sample.email_validator
           Sample.normalize_username Sample.shop
           (Sample.registration "testuser" "short" "short") "short");
    [left; reflexivity|reflexivity].
Defined.

(** The listing of Karim's entries comes newest first. *)
Lemma entries_newest_first_witness :
  exists r,
    LedgerEntryViewSet.by_customer Sample.shop 1 (Some "1") = Ok r HTTP_200_OK /\
    StronglySorted Spec.newest_first (LedgerEntryViewSet.bc_entries r).
Proof.
  destruct (entries_newest_first Py.CPython_3_12 Sample.shop 1 (Some "1") None None None) as [H _].
  eexists. split; [reflexivity|]. eapply H. reflexivity.
Defined.

(** Bob's request for Karim, who is alice's customer. *)
Lemma create_without_customer_witness :
  LedgerEntrySerializer.is_valid Sample.credit_5000
  = inr (LedgerEntrySerializer.mkValidated "CREDIT" 500000 (Some "rice")) /\
  Customer.get_owned (customers Sample.shop) (JInt 1) 2 = QuerySet.DoesNotExist /\
  LedgerEntryViewSet.create Sample.shop 2 500 Sample.may_2
    (LedgerEntryViewSet.mkCreateRequest (JInt 1) Sample.credit_5000)
  = (Ok (LedgerEntrySerializer.OfValidatedData
           (LedgerEntrySerializer.mkValidated "CREDIT" 500000 (Some "rice")))
        HTTP_201_CREATED,
     Sample.shop).
Proof.
  split; [reflexivity|]. split; [reflexivity|].
  apply (create_without_customer Sample.shop 2 500 Sample.may_2
           (LedgerEntryViewSet.mkCreateRequest (JInt 1) Sample.credit_5000)
           (LedgerEntrySerializer.mkValidated "CREDIT" 500000 (Some "rice"))
           eq_refl eq_refl).
Defined.


End Witnesses.


(* ================================================================== *)
(** * More about the views: the listing by customer                    *)
(* ================================================================== *)

Section ByCustomer.
Import LedgerEntryViewSet.
Variables (db : Database) (u : Z).

Lemma by_customer_found (customer_id : option string) (c : Customer.t) :
  Py.given customer_id = true ->
  Customer.get_owned (customers db) (JStr (param customer_id)) u = QuerySet.Found c ->
  by_customer db u customer_id =
  Ok (mkByCustomer (customer_ref c)
        (map LedgerEntrySerializer.to_representation
             (QuerySet.rows (Customer.ledger_entries (ledger_entries db) c)))
        (Customer.get_summary (ledger_entries db) c))
     HTTP_200_OK.
Proof.
  intros Hgiven Hfound. unfold by_customer. rewrite Hgiven; simpl. by rewrite Hfound.
Qed.

Lemma customer_rows (c : Customer.t) :
  QuerySet.rows (Customer.ledger_entries (ledger_entries db) c)
  ≡ₚ Spec.entries_of c (ledger_entries db).
Proof. by rewrite rows_Permutation, selected_ledger_entries. Qed.

Lemma entries_of_type_as_filter (c : Customer.t) (ty : string) (tbl : list LedgerEntry.t) :
  Spec.entries_of_type c ty tbl
  = filter (fun e => LedgerEntry.type e = ty) (Spec.entries_of c tbl).
Proof.
  unfold Spec.entries_of_type, Spec.entries_of. rewrite list_filter_filter.
  apply list_filter_iff. intros e. tauto.
Qed.

End ByCustomer.

(** X3.  The listing by customer.  Without a [customer_id] the request is
    rejected with status 400, and with the key of a customer that is not
    among the caller's it is answered 404.  For a customer of the caller the
    response names the customer, lists exactly the customer's entries, and
    carries a summary that agrees with the list: [total_credit] and
    [total_debit] are the exact sums of the amounts of the listed CREDIT and
    DEBIT entries. *)
Theorem by_customer_answers (db : Database) (u : Z) (customer_id : option string) :
  (Py.given customer_id = false ->
   exists errors,
     LedgerEntryViewSet.by_customer db u customer_id
     = Rejected errors HTTP_400_BAD_REQUEST) /\
  (Py.given customer_id = true ->
   Customer.get_owned (customers db) (JStr (param customer_id)) u
   = QuerySet.DoesNotExist ->
   exists errors,
     LedgerEntryViewSet.by_customer db u customer_id
     = Rejected errors HTTP_404_NOT_FOUND) /\
  (forall c,
     Py.given customer_id = true ->
     Customer.get_owned (customers db) (JStr (param customer_id)) u = QuerySet.Found c ->
     exists r rows,
       LedgerEntryViewSet.by_customer db u customer_id = Ok r HTTP_200_OK /\
       LedgerEntryViewSet.bc_customer r
       = LedgerEntryViewSet.mkCustomerRef (Customer.id c) (Customer.name c) /\
       rows ≡ₚ Spec.entries_of c (ledger_entries db) /\
       LedgerEntryViewSet.bc_entries r = map LedgerEntrySerializer.to_representation rows /\
       Customer.total_credit (LedgerEntryViewSet.bc_summary r)
       = Spec.sum_amounts (filter (fun e => LedgerEntry.type e = "CREDIT"%string) rows) /\
       Customer.total_debit (LedgerEntryViewSet.bc_summary r)
       = Spec.sum_amounts (filter (fun e => LedgerEntry.type e = "DEBIT"%string) rows) /\
       Customer.balance (LedgerEntryViewSet.bc_summary r)
       = Customer.total_credit (LedgerEntryViewSet.bc_summary r)
         - Customer.total_debit (LedgerEntryViewSet.bc_summary r)).
Proof.
  split; [|split].
  - intros Hg. unfold LedgerEntryViewSet.by_customer. rewrite Hg. by eexists.
  - intros Hg Hc. unfold LedgerEntryViewSet.by_customer. rewrite Hg; simpl.
    rewrite Hc. by eexists.
  - intros c Hg Hc. eexists _, _. split; [by apply by_customer_found|].
    cbn [LedgerEntryViewSet.bc_customer LedgerEntryViewSet.bc_entries
         LedgerEntryViewSet.bc_summary].
    pose proof (customer_rows db c) as Hperm.
    split; [done|]. split; [exact Hperm|]. split; [done|].
    rewrite get_summary_sums; simpl.
    rewrite !entries_of_type_as_filter.
    unfold Spec.sum_amounts.
    rewrite (foldr_add_Permutation LedgerEntry.amount
               (filter (fun e => LedgerEntry.type e = "CREDIT"%string)
                       (QuerySet.rows (Customer.ledger_entries (ledger_entries db) c)))
               (filter (fun e => LedgerEntry.type e = "CREDIT"%string)
                       (Spec.entries_of c (ledger_entries db)))) by (by rewrite Hperm).
    rewrite (foldr_add_Permutation LedgerEntry.amount
               (filter (fun e => LedgerEntry.type e = "DEBIT"%string)
                       (QuerySet.rows (Customer.ledger_entries (ledger_entries db) c)))
               (filter (fun e => LedgerEntry.type e = "DEBIT"%string)
                       (Spec.entries_of c (ledger_entries db)))) by (by rewrite Hperm).
    done.
Qed.

(* ================================================================== *)
(** * Ownership: what a caller can read                                *)
(* ================================================================== *)

Lemma many_of_customer (db : Database) (c : Customer.t)
    (qs : QuerySet.t LedgerEntry.t) (d : LedgerEntrySerializer.Data) :
  QuerySet.table qs = ledger_entries db ->
  (forall e, QuerySet.where_ qs e = true -> LedgerEntry.customer e = Customer.id c) ->
  d ∈ LedgerEntrySerializer.many qs ->
  exists e, e ∈ ledger_entries db /\ LedgerEntry.customer e = Customer.id c /\
            d = LedgerEntrySerializer.to_representation e.
Proof.
  intros Ht Hw Hd. unfold LedgerEntrySerializer.many in Hd.
  apply list_elem_of_In, in_map_iff in Hd as (e & <- & He).
  apply list_elem_of_In, elem_of_rows in He as [He Hwe]. rewrite Ht in He.
  exists e. auto.
Qed.

Lemma where_ledger_entries (tbl : list LedgerEntry.t) (c : Customer.t) (e : LedgerEntry.t) :
  QuerySet.where_ (Customer.ledger_entries tbl c) e = true ->
  LedgerEntry.customer e = Customer.id c.
Proof. simpl. by intros ?%Z.eqb_eq. Qed.

(** X4.  The three reads over one customer answer only for a customer of the
    caller: when the response is a success, the customer it names is a
    customer of the data store that belongs to the caller, and every entry
    in it is a stored entry of that customer.  Entries of other users'
    customers are never shown. *)
Theorem reads_stay_with_owner (py : Py.interpreter) (db : Database) (u : Z)
    (customer_id start_date end_date type_ : option string) :
  (forall r st,
     LedgerEntryViewSet.by_customer db u customer_id = Ok r st ->
     exists c, Spec.owns db u c /\
       LedgerEntryViewSet.bc_customer r = LedgerEntryViewSet.customer_ref c /\
       forall d, d ∈ LedgerEntryViewSet.bc_entries r ->
         exists e, e ∈ ledger_entries db /\ LedgerEntry.customer e = Customer.id c /\
                   d = LedgerEntrySerializer.to_representation e) /\
  (forall r st,
     LedgerEntryViewSet.filter_by_date db u customer_id start_date end_date = Ok r st ->
     exists c, Spec.owns db u c /\
       LedgerEntryViewSet.fd_customer r = LedgerEntryViewSet.customer_ref c /\
       forall d, d ∈ LedgerEntryViewSet.fd_entries r ->
         exists e, e ∈ ledger_entries db /\ LedgerEntry.customer e = Customer.id c /\
                   d = LedgerEntrySerializer.to_representation e) /\
  (forall r st,
     LedgerEntryViewSet.filter_by_type py db u customer_id type_ = Ok r st ->
     exists c, Spec.owns db u c /\
       LedgerEntryViewSet.ft_customer r = LedgerEntryViewSet.customer_ref c /\
       forall d, d ∈ LedgerEntryViewSet.ft_entries r ->
         exists e, e ∈ ledger_entries db /\ LedgerEntry.customer e = Customer.id c /\
                   d = LedgerEntrySerializer.to_representation e).
Proof.
  split; [|split]; intros r st.
  - unfold LedgerEntryViewSet.by_customer.
    destruct (Py.given customer_id); simpl; [|done].
    destruct (Customer.get_owned _ _ _) as [c| | |] eqn:Hc; try done.
    intros [= <- _]. apply get_owned_found in Hc as (Hin & Hu & _).
    exists c. split; [done|]. split; [done|]. simpl. intros d Hd.
    eapply many_of_customer; [| |exact Hd]; [done|].
    apply where_ledger_entries.
  - unfold LedgerEntryViewSet.filter_by_date.
    destruct (Py.given customer_id); simpl; [|done].
    destruct (Customer.get_owned _ _ _) as [c| | |] eqn:Hc; try done.
    apply get_owned_found in Hc as (Hin & Hu & _).
    repeat case_match; try done; intros [= <- _]; simplify_eq;
      (exists c; split; [done|]; split; [done|]; simpl; intros x Hx;
       eapply many_of_customer; [| |exact Hx]; [done|];
       simpl; intros y Hy; repeat (apply andb_true_iff in Hy as [Hy _]);
       by apply Z.eqb_eq in Hy).
  - unfold LedgerEntryViewSet.filter_by_type.
    destruct (Py.given customer_id); simpl; [|done].
    destruct (_ || _); [done|].
    destruct (Customer.get_owned _ _ _) as [c| | |] eqn:Hc; try done.
    intros [= <- _]. apply get_owned_found in Hc as (Hin & Hu & _).
    exists c. split; [done|]. split; [done|]. simpl. intros d Hd.
    eapply many_of_customer; [| |exact Hd]; [done|].
    simpl; intros e He. apply andb_true_iff in He as [He _]. by apply Z.eqb_eq in He.
Qed.

Lemma summary_view_data (tbl : list LedgerEntry.t) (c : Customer.t) :
  let d := CustomerSummarySerializer.to_representation tbl c in
  CustomerSummarySerializer.id d = Customer.id c /\
  CustomerSummarySerializer.name d = Customer.name c /\
  CustomerSummarySerializer.balance d
  = CustomerSummarySerializer.total_credit d - CustomerSummarySerializer.total_debit d /\
  CustomerSummarySerializer.entries_count d = Z.of_nat (length (Spec.entries_of c tbl)).
Proof.
  intros d. subst d. unfold CustomerSummarySerializer.to_representation.
  cbn [CustomerSummarySerializer.id CustomerSummarySerializer.name
       CustomerSummarySerializer.balance CustomerSummarySerializer.total_credit
       CustomerSummarySerializer.total_debit CustomerSummarySerializer.entries_count].
  rewrite entries_count_length.
  unfold CustomerSummarySerializer.get_balance, CustomerSummarySerializer.get_total_credit,
    CustomerSummarySerializer.get_total_debit.
  rewrite get_summary_sums. done.
Qed.

(** X5.  The summary view.  For a key among the caller's customers it answers
    with that customer's data, whose balance is total_credit minus
    total_debit and whose [entries_count] is the number of its entries; for
    a key that is not a number or not among the caller's customers it answers
    404.  It never answers with a customer of somebody else. *)
Theorem summary_view_answers (db : Database) (u : Z) (pk : JsonValue) :
  (forall c,
     Customer.get_owned (customers db) pk u = QuerySet.Found c ->
     CustomerViewSet.summary db u pk
     = Ok (CustomerSummarySerializer.to_representation (ledger_entries db) c) HTTP_200_OK) /\
  (Customer.get_owned (customers db) pk u = QuerySet.DoesNotExist \/
   Customer.get_owned (customers db) pk u = QuerySet.ValueError ->
   exists errors, CustomerViewSet.summary db u pk = Rejected errors HTTP_404_NOT_FOUND) /\
  (forall d st,
     CustomerViewSet.summary db u pk = Ok d st ->
     exists c, Spec.owns db u c /\
       CustomerSummarySerializer.id d = Customer.id c /\
       CustomerSummarySerializer.name d = Customer.name c /\
       CustomerSummarySerializer.balance d
       = CustomerSummarySerializer.total_credit d - CustomerSummarySerializer.total_debit d /\
       CustomerSummarySerializer.entries_count d
       = Z.of_nat (length (Spec.entries_of c (ledger_entries db)))).
Proof.
  unfold CustomerViewSet.summary. split; [|split].
  - by intros c ->.
  - intros [-> | ->]; by eexists.
  - intros d st.
    destruct (Customer.get_owned _ _ _) as [c| | |] eqn:Hc; try done.
    intros [= <- _]. apply get_owned_found in Hc as (Hin & Hu & _).
    exists c. split; [done|].
    exact (summary_view_data (ledger_entries db) c).
Qed.

(* ================================================================== *)
(** * Storing an entry                                                 *)
(* ================================================================== *)

Section EntryCreation.
Import LedgerEntryViewSet.
Local Open Scope string_scope.

Lemma is_choice_spec (ty : string) :
  LedgerEntrySerializer.is_choice ty = true <-> ty = "CREDIT" \/ ty = "DEBIT".
Proof.
  unfold LedgerEntrySerializer.is_choice, LedgerEntry.TYPE_CHOICES.
  cbn [existsb fst].
  destruct (String.eqb_spec "CREDIT" ty) as [<-|Hc]; [by split; auto|].
  destruct (String.eqb_spec "DEBIT" ty) as [<-|Hd]; [by split; auto|].
  split; [done|]. intros [->| ->]; congruence.
Qed.

Lemma amount_in_range_spec (a : Z) :
  LedgerEntrySerializer.amount_in_range a = true <-> Z.abs a < 10 ^ 12.
Proof. unfold LedgerEntrySerializer.amount_in_range. apply Z.ltb_lt. Qed.

Lemma entry_is_valid_inr (data : LedgerEntrySerializer.Input)
    (v : LedgerEntrySerializer.Validated) :
  LedgerEntrySerializer.is_valid data = inr v <->
  LedgerEntrySerializer.in_type data = Some (LedgerEntrySerializer.v_type v) /\
  LedgerEntrySerializer.is_choice (LedgerEntrySerializer.v_type v) = true /\
  LedgerEntrySerializer.in_amount data = Some (LedgerEntrySerializer.v_amount v) /\
  LedgerEntrySerializer.amount_in_range (LedgerEntrySerializer.v_amount v) = true /\
  (forall n, LedgerEntrySerializer.in_note data = Some n ->
     Py.contains (Py.strip n) (String Ascii.zero EmptyString) = false) /\
  LedgerEntrySerializer.v_note v
  = option_map Py.strip (LedgerEntrySerializer.in_note data).
Proof.
  unfold LedgerEntrySerializer.is_valid, CharField.ProhibitNullCharactersValidator.
  destruct v as [ty a n]; simpl.
  assert (Hnote : forall o : option string,
            (forall m, o = Some m ->
               Py.contains (Py.strip m) (String Ascii.zero EmptyString) = false) <->
            match o with
            | Some m => if Py.contains (Py.strip m) (String Ascii.zero EmptyString)
                        then false else true
            | None => true
            end = true).
  { intros [m|]; [|done]. split.
    - intros H. by rewrite (H m eq_refl).
    - intros H m' [= <-]. by destruct (Py.contains _ _). }
  rewrite (Hnote (LedgerEntrySerializer.in_note data)).
  destruct (LedgerEntrySerializer.in_note data) as [m|]; simpl;
    [destruct (Py.contains (Py.strip m) _); simpl|];
    destruct (LedgerEntrySerializer.in_type data) as [ty'|];
    destruct (LedgerEntrySerializer.in_amount data) as [a'|]; simpl;
    try destruct (LedgerEntrySerializer.is_choice ty') eqn:Et;
    try destruct (LedgerEntrySerializer.amount_in_range a') eqn:Ea; simpl;
    (split; [try done; intros [= <- <- <-]; done|]);
    try (intros (H1 & H2 & H3 & H4 & H5 & H6); congruence).
Qed.

(** A note free of null characters passes the check of the field. *)
Lemma note_passes (data : LedgerEntrySerializer.Input) :
  (forall n, LedgerEntrySerializer.in_note data = Some n ->
     Py.contains n (String Ascii.zero EmptyString) = false) ->
  forall n, LedgerEntrySerializer.in_note data = Some n ->
    Py.contains (Py.strip n) (String Ascii.zero EmptyString) = false.
Proof. intros H n Hn. by apply contains_char_strip, H. Qed.

(** A name whose normal form is taken: with bob among the users, the name
    that has the ordinal indicator for its o passes the validation, and the
    unique index of the store ends the request. *)
Example normal_form_taken :
  UserRegistrationView.post Sample.username_validator_latin1 Sample.email_validator
    Sample.normalize_username_latin1 Sample.shop
    (Sample.registration (String "b" (String Sample.ordinal_o (String "b" EmptyString)))
       "testpass123" "testpass123")
  = (Unhandled "IntegrityError", Sample.shop).
Proof. vm_compute. reflexivity. Qed.

(** A note that holds a null character is refused. *)
Example note_with_null_character :
  LedgerEntrySerializer.is_valid
    (LedgerEntrySerializer.mkInput (Some "CREDIT"%string) (Some 500000)
       (Some (String "a" (String Ascii.zero (String "b" EmptyString)))))
  = inl [("note", "Null characters are not allowed.")]%string.
Proof. reflexivity. Qed.

Lemma entry_next_id_fresh (tbl : list LedgerEntry.t) (x : LedgerEntry.t) :
  x ∈ tbl -> LedgerEntry.id x < LedgerEntrySerializer.next_id tbl.
Proof.
  unfold LedgerEntrySerializer.next_id.
  induction 1 as [x l|x y l Hin IH]; simpl; lia.
Qed.

Variables (db : Database) (u now : Z) (today : Py.date) (request : CreateRequest).

(** The entry that a request stores. *)
Let stored (c : Customer.t) (v : LedgerEntrySerializer.Validated) : LedgerEntry.t :=
  LedgerEntry.mk (LedgerEntrySerializer.next_id (ledger_entries db)) (Customer.id c)
    (LedgerEntrySerializer.v_type v) (LedgerEntrySerializer.v_amount v)
    (LedgerEntrySerializer.v_note v) today now now.

(** The four ways a create request ends. *)
Lemma create_cases :
  (exists errors, create db u now today request = (Rejected errors HTTP_400_BAD_REQUEST, db)) \/
  (exists exc, create db u now today request = (Unhandled exc, db)) \/
  (exists v,
     LedgerEntrySerializer.is_valid (fields request) = inr v /\
     Customer.get_owned (customers db) (customer request) u = QuerySet.DoesNotExist /\
     create db u now today request
     = (Ok (LedgerEntrySerializer.OfValidatedData v) HTTP_201_CREATED, db)) \/
  (exists v c,
     LedgerEntrySerializer.is_valid (fields request) = inr v /\
     Customer.get_owned (customers db) (customer request) u = QuerySet.Found c /\
     create db u now today request
     = (Ok (LedgerEntrySerializer.OfInstance
              (LedgerEntrySerializer.to_representation (stored c v))) HTTP_201_CREATED,
        mkDatabase (users db) (customers db) (ledger_entries db ++ [stored c v])%list)).
Proof.
  unfold create, perform_create.
  destruct (LedgerEntrySerializer.is_valid (fields request)) as [errs|v] eqn:Ev.
  { left. by eexists. }
  destruct (Customer.get_owned (customers db) (customer request) u) as [c| | |] eqn:Hc.
  - right; right; right. exists v, c. done.
  - right; right; left. exists v. split; [done|]. split; [done|]. by destruct db.
  - right; left. by eexists.
  - right; left. by eexists.
Qed.

End EntryCreation.

(** X6.  A valid entry for a customer of the caller is stored.  When the type is
    CREDIT or DEBIT, the amount has at most ten digits before the point
    (zero and negative amounts included), the note, if any, holds no null
    character (which a serializer text field refuses) and the customer is
    among the caller's, the request is answered 201 with the stored entry: it carries
    a key greater than every key in the table, the customer, type and amount
    of the request, the trimmed note, and the date and time of the store,
    not of the client.  The entry is appended; nothing else changes. *)
Theorem create_stores_entry (db : Database) (u now : Z) (today : Py.date)
    (request : LedgerEntryViewSet.CreateRequest) (c : Customer.t) (ty : string) (a : Z) :
  LedgerEntrySerializer.in_type (LedgerEntryViewSet.fields request) = Some ty ->
  ty = "CREDIT"%string \/ ty = "DEBIT"%string ->
  LedgerEntrySerializer.in_amount (LedgerEntryViewSet.fields request) = Some a ->
  Z.abs a < 10 ^ 12 ->
  (forall n, LedgerEntrySerializer.in_note (LedgerEntryViewSet.fields request) = Some n ->
     Py.contains n (String Ascii.zero EmptyString) = false) ->
  Customer.get_owned (customers db) (LedgerEntryViewSet.customer request) u
  = QuerySet.Found c ->
  exists e,
    LedgerEntryViewSet.create db u now today request
    = (Ok (LedgerEntrySerializer.OfInstance (LedgerEntrySerializer.to_representation e))
          HTTP_201_CREATED,
       mkDatabase (users db) (customers db) (ledger_entries db ++ [e])) /\
    LedgerEntry.customer e = Customer.id c /\
    LedgerEntry.type e = ty /\
    LedgerEntry.amount e = a /\
    LedgerEntry.note e
    = option_map Py.strip (LedgerEntrySerializer.in_note (LedgerEntryViewSet.fields request)) /\
    LedgerEntry.entry_date e = today /\
    LedgerEntry.created_at e = now /\
    (forall x, x ∈ ledger_entries db -> LedgerEntry.id x < LedgerEntry.id e).
Proof.
  intros Hty Hchoice Ha Hrange Hnote Hc.
  assert (Hv : LedgerEntrySerializer.is_valid (LedgerEntryViewSet.fields request)
               = inr (LedgerEntrySerializer.mkValidated ty a
                        (option_map Py.strip
                           (LedgerEntrySerializer.in_note (LedgerEntryViewSet.fields request))))).
  { apply entry_is_valid_inr. simpl.
    rewrite is_choice_spec, amount_in_range_spec.
    pose proof (note_passes _ Hnote). auto 7. }
  eexists. split.
  { unfold LedgerEntryViewSet.create, LedgerEntryViewSet.perform_create.
    rewrite Hv, Hc. simpl. reflexivity. }
  simpl. repeat (split; [reflexivity|]).
  apply entry_next_id_fresh.
Qed.

Section EntryCreationEffects.
Local Open Scope string_scope.

Lemma create_found (db : Database) (u now : Z) (today : Py.date)
    (request : LedgerEntryViewSet.CreateRequest) (c : Customer.t) (ty : string) (a : Z) :
  LedgerEntrySerializer.in_type (LedgerEntryViewSet.fields request) = Some ty ->
  ty = "CREDIT" \/ ty = "DEBIT" ->
  LedgerEntrySerializer.in_amount (LedgerEntryViewSet.fields request) = Some a ->
  Z.abs a < 10 ^ 12 ->
  (forall n, LedgerEntrySerializer.in_note (LedgerEntryViewSet.fields request) = Some n ->
     Py.contains n (String Ascii.zero EmptyString) = false) ->
  Customer.get_owned (customers db) (LedgerEntryViewSet.customer request) u
  = QuerySet.Found c ->
  ledger_entries (snd (LedgerEntryViewSet.create db u now today request))
  = (ledger_entries db ++
     [LedgerEntry.mk (LedgerEntrySerializer.next_id (ledger_entries db)) (Customer.id c)
        ty a
        (option_map Py.strip (LedgerEntrySerializer.in_note (LedgerEntryViewSet.fields request)))
        today now now])%list.
Proof.
  intros Hty Hchoice Ha Hrange Hnote Hc.
  assert (Hv : LedgerEntrySerializer.is_valid (LedgerEntryViewSet.fields request)
               = inr (LedgerEntrySerializer.mkValidated ty a
                        (option_map Py.strip
                           (LedgerEntrySerializer.in_note (LedgerEntryViewSet.fields request))))).
  { apply entry_is_valid_inr. simpl.
    rewrite is_choice_spec, amount_in_range_spec.
    pose proof (note_passes _ Hnote). auto 7. }
  unfold LedgerEntryViewSet.create, LedgerEntryViewSet.perform_create.
  rewrite Hv, Hc. reflexivity.
Qed.

Lemma entries_of_snoc (c : Customer.t) (tbl : list LedgerEntry.t) (e : LedgerEntry.t) :
  Spec.entries_of c (tbl ++ [e]) =
  (Spec.entries_of c tbl ++
   (if decide (LedgerEntry.customer e = Customer.id c) then [e] else []))%list.
Proof. unfold Spec.entries_of. rewrite filter_app. f_equal. Qed.

(** Entries of another customer do not enter a summary. *)
Lemma get_summary_snoc_other (tbl : list LedgerEntry.t) (c : Customer.t) (e : LedgerEntry.t) :
  LedgerEntry.customer e <> Customer.id c ->
  Customer.get_summary (tbl ++ [e]) c = Customer.get_summary tbl c /\
  CustomerSummarySerializer.get_entries_count (tbl ++ [e]) c
  = CustomerSummarySerializer.get_entries_count tbl c.
Proof.
  intros Hne. rewrite !get_summary_sums, !entries_count_length.
  rewrite !entries_of_type_snoc, entries_of_snoc.
  repeat case_decide; try tauto. by rewrite !app_nil_r.
Qed.

End EntryCreationEffects.

(** X7.  Storing an entry and then asking for the summary.  After a CREDIT entry
    of amount [a], within the digits of the column and with a note free of
    null characters, was created for a customer of the caller, that customer's
    total_credit and balance are higher by exactly [a]; after a DEBIT entry
    total_debit is higher and the balance lower by exactly [a].  The entry
    count of the customer grows by one, and the summaries and counts of all
    other customers stay as they were. *)
Theorem create_then_summary (db : Database) (u now : Z) (today : Py.date)
    (request : LedgerEntryViewSet.CreateRequest) (c : Customer.t) (ty : string) (a : Z) :
  LedgerEntrySerializer.in_type (LedgerEntryViewSet.fields request) = Some ty ->
  ty = "CREDIT"%string \/ ty = "DEBIT"%string ->
  LedgerEntrySerializer.in_amount (LedgerEntryViewSet.fields request) = Some a ->
  Z.abs a < 10 ^ 12 ->
  (forall n, LedgerEntrySerializer.in_note (LedgerEntryViewSet.fields request) = Some n ->
     Py.contains n (String Ascii.zero EmptyString) = false) ->
  Customer.get_owned (customers db) (LedgerEntryViewSet.customer request) u
  = QuerySet.Found c ->
  let tbl := ledger_entries db in
  let tbl' := ledger_entries (snd (LedgerEntryViewSet.create db u now today request)) in
  (ty = "CREDIT"%string ->
   Customer.total_credit (Customer.get_summary tbl' c)
   = Customer.total_credit (Customer.get_summary tbl c) + a /\
   Customer.total_debit (Customer.get_summary tbl' c)
   = Customer.total_debit (Customer.get_summary tbl c) /\
   Customer.balance (Customer.get_summary tbl' c)
   = Customer.balance (Customer.get_summary tbl c) + a) /\
  (ty = "DEBIT"%string ->
   Customer.total_credit (Customer.get_summary tbl' c)
   = Customer.total_credit (Customer.get_summary tbl c) /\
   Customer.total_debit (Customer.get_summary tbl' c)
   = Customer.total_debit (Customer.get_summary tbl c) + a /\
   Customer.balance (Customer.get_summary tbl' c)
   = Customer.balance (Customer.get_summary tbl c) - a) /\
  CustomerSummarySerializer.get_entries_count tbl' c
  = CustomerSummarySerializer.get_entries_count tbl c + 1 /\
  (forall c', Customer.id c' <> Customer.id c ->
     Customer.get_summary tbl' c' = Customer.get_summary tbl c' /\
     CustomerSummarySerializer.get_entries_count tbl' c'
     = CustomerSummarySerializer.get_entries_count tbl c').
Proof.
  intros Hty Hchoice Ha Hrange Hnote Hc tbl tbl'. subst tbl tbl'.
  rewrite (create_found db u now today request c ty a Hty Hchoice Ha Hrange Hnote Hc).
  set (e := LedgerEntry.mk _ _ _ _ _ _ _ _).
  assert (Hce : LedgerEntry.customer e = Customer.id c) by done.
  pose proof (get_summary_snoc (ledger_entries db) c e Hce) as [Hcredit Hdebit].
  split; [intros ->; by apply Hcredit|]. split; [intros ->; by apply Hdebit|].
  split.
  - rewrite !entries_count_length, entries_of_snoc.
    rewrite decide_True by done. rewrite length_app. simpl. lia.
  - intros c' Hne. apply get_summary_snoc_other. rewrite Hce. congruence.
Qed.

(** X8.  What a create request may change.  Users and customers are never
    touched.  The table of entries either stays as it is, or gains one entry
    at its end; that entry belongs to a customer of the caller, has the type
    CREDIT or DEBIT, an amount within the twelve digits of the column, and
    the date of the store.  A response other than 201 leaves the whole data
    store unchanged. *)
Theorem create_changes_little (db : Database) (u now : Z) (today : Py.date)
    (request : LedgerEntryViewSet.CreateRequest) :
  let r := fst (LedgerEntryViewSet.create db u now today request) in
  let db' := snd (LedgerEntryViewSet.create db u now today request) in
  users db' = users db /\
  customers db' = customers db /\
  (status_code r <> HTTP_201_CREATED -> db' = db) /\
  (ledger_entries db' = ledger_entries db \/
   exists e c,
     ledger_entries db' = ledger_entries db ++ [e] /\
     Spec.owns db u c /\
     LedgerEntry.customer e = Customer.id c /\
     (LedgerEntry.type e = "CREDIT"%string \/ LedgerEntry.type e = "DEBIT"%string) /\
     Z.abs (LedgerEntry.amount e) < 10 ^ 12 /\
     LedgerEntry.entry_date e = today).
Proof.
  intros r db'. subst r db'.
  destruct (create_cases db u now today request)
    as [[errs ->]|[[exc ->]|[(v & _ & _ & ->)|(v & c & Hv & Hc & ->)]]]; simpl;
    try (split; [done|]; split; [done|]; split; [done|]; by left).
  split; [done|]. split; [done|]. split; [done|]. right.
  apply entry_is_valid_inr in Hv as (_ & Hchoice & _ & Hrange & _).
  apply get_owned_found in Hc as (Hin & Hu & _).
  eexists _, c. split; [done|]. split; [done|]. simpl.
  split; [done|]. split; [by apply is_choice_spec|].
  split; [by apply amount_in_range_spec|done].
Qed.

(** X9.  A create request keeps the store in order: when the keys of the entries
    are unique they stay unique, and when every entry belongs to a customer
    of the store this remains so. *)
Theorem create_keeps_invariants (db : Database) (u now : Z) (today : Py.date)
    (request : LedgerEntryViewSet.CreateRequest) :
  let db' := snd (LedgerEntryViewSet.create db u now today request) in
  (Spec.unique_entry_ids db -> Spec.unique_entry_ids db') /\
  (Spec.referential_integrity db -> Spec.referential_integrity db') /\
  (Spec.unique_customer_ids db -> Spec.unique_customer_ids db').
Proof.
  intros db'. subst db'.
  destruct (create_cases db u now today request)
    as [[errs ->]|[[exc ->]|[(v & _ & _ & ->)|(v & c & Hv & Hc & ->)]]]; simpl;
    try done.
  apply get_owned_found in Hc as (Hin & Hu & _).
  split; [|split; [|done]].
  - unfold Spec.unique_entry_ids; simpl. intros Hnd.
    rewrite map_app. simpl. apply NoDup_app. split; [done|]. split.
    + intros i Hi. apply list_elem_of_In, in_map_iff in Hi as (x & <- & Hx).
      apply list_elem_of_In, entry_next_id_fresh in Hx.
      rewrite list_elem_of_singleton. lia.
    + apply NoDup_singleton.
  - unfold Spec.referential_integrity; simpl. intros Hri e He.
    apply elem_of_app in He as [He|He]; [by apply Hri|].
    apply list_elem_of_singleton in He as ->. by exists c.
Qed.

(* ================================================================== *)
(** * More about the statistics                                        *)
(* ================================================================== *)

Section StatisticsMore.
Import LedgerEntryViewSet.

Lemma get_summary_own_entries (tbl tbl' : list LedgerEntry.t) (c : Customer.t) :
  Spec.entries_of c tbl = Spec.entries_of c tbl' ->
  Customer.get_summary tbl c = Customer.get_summary tbl' c.
Proof.
  intros H. rewrite !get_summary_sums, !entries_of_type_as_filter. by rewrite H.
Qed.

Lemma map_ext_elem {A B : Type} (f g : A -> B) (l : list A) :
  (forall x, x ∈ l -> f x = g x) -> map f l = map g l.
Proof.
  intros H. apply map_ext_in. intros x Hx. apply H. by apply list_elem_of_In.
Qed.

Lemma statistics_own_data (db db' : Database) (u : Z) :
  Spec.customers_of u (customers db) = Spec.customers_of u (customers db') ->
  (forall c, Spec.owns db u c ->
     Spec.entries_of c (ledger_entries db) = Spec.entries_of c (ledger_entries db')) ->
  statistics db u = statistics db' u.
Proof.
  intros Hcs Hes. rewrite !statistics_closed_form. cbv zeta.
  assert (Hrows : QuerySet.rows (QuerySet.filter (fun c => Customer.user c =? u)
                                   (Customer.objects (customers db)))
                  = QuerySet.rows (QuerySet.filter (fun c => Customer.user c =? u)
                                     (Customer.objects (customers db')))).
  { unfold QuerySet.rows. by rewrite !selected_owned_customers, Hcs. }
  rewrite <- Hrows, <- Hcs.
  assert (Hown : forall c,
            c ∈ QuerySet.rows (QuerySet.filter (fun c => Customer.user c =? u)
                                 (Customer.objects (customers db))) -> Spec.owns db u c).
  { intros c Hc. apply elem_of_rows in Hc as [Hin Hw]. simpl in Hin, Hw.
    split; [done|]. by apply Z.eqb_eq in Hw. }
  assert (Hown' : forall c, c ∈ Spec.customers_of u (customers db) -> Spec.owns db u c).
  { intros c Hc. unfold Spec.customers_of in Hc. by apply list_elem_of_filter in Hc as [? ?]. }
  f_equal. f_equal.
  - f_equal. apply map_ext_elem. intros c Hc.
    by rewrite (get_summary_own_entries _ _ c (Hes c (Hown c Hc))).
  - f_equal. apply map_ext_elem. intros c Hc.
    by rewrite (get_summary_own_entries _ _ c (Hes c (Hown c Hc))).
  - f_equal. apply map_ext_elem. intros c Hc.
    by rewrite (get_summary_own_entries _ _ c (Hes c (Hown c Hc))).
  - f_equal. apply map_ext_elem. intros c Hc. by rewrite (Hes c (Hown' c Hc)).
Qed.

End StatisticsMore.

(** X10.  The statistics of a user rest on nothing but the user's own data.  Two
    data stores that hold the same customers for the user, and the same
    entries for each of these customers, give the same statistics, whatever
    else they hold; in particular an entry stored for a customer of somebody
    else changes nothing.  A user without customers gets zeros
    throughout. *)
Theorem statistics_rest_on_own_data (db db' : Database) (u : Z) :
  (Spec.customers_of u (customers db) = Spec.customers_of u (customers db') ->
   (forall c, Spec.owns db u c ->
      Spec.entries_of c (ledger_entries db) = Spec.entries_of c (ledger_entries db')) ->
   LedgerEntryViewSet.statistics db u = LedgerEntryViewSet.statistics db' u) /\
  (forall e,
     (forall c, Spec.owns db u c -> Customer.id c <> LedgerEntry.customer e) ->
     LedgerEntryViewSet.statistics
       (mkDatabase (users db) (customers db) (ledger_entries db ++ [e])) u
     = LedgerEntryViewSet.statistics db u) /\
  (Spec.customers_of u (customers db) = [] ->
   LedgerEntryViewSet.statistics db u
   = Ok (LedgerEntryViewSet.mkStatistics 0 Py.fzero Py.fzero Py.fzero 0) HTTP_200_OK).
Proof.
  split; [apply statistics_own_data|]. split.
  - intros e He. symmetry. apply statistics_own_data; [done|].
    intros c Hc. simpl. rewrite entries_of_snoc.
    rewrite decide_False; [by rewrite app_nil_r|].
    intros Heq. by apply (He c Hc).
  - intros Hnone. rewrite statistics_closed_form. cbv zeta.
    unfold QuerySet.rows. rewrite selected_owned_customers, Hnone. reflexivity.
Qed.

(* ================================================================== *)
(** * The caller's entries                                             *)
(* ================================================================== *)

Section VisibleEntries.
Import LedgerEntryViewSet.
Variables (db : Database) (u : Z).

Lemma visible_where (e : LedgerEntry.t) :
  QuerySet.where_ (get_queryset db u) e = true <->
  exists c, Spec.owns db u c /\ Customer.id c = LedgerEntry.customer e.
Proof.
  simpl. rewrite existsb_exists. unfold Spec.owns. split.
  - intros (c & Hin & Hc). apply andb_true_iff in Hc as [Hid Hu].
    apply Z.eqb_eq in Hid, Hu. exists c. by rewrite list_elem_of_In.
  - intros (c & [Hin Hu] & Hid). exists c. rewrite <- list_elem_of_In.
    split; [done|]. apply andb_true_iff. by rewrite !Z.eqb_eq.
Qed.

Lemma visible_rows (e : LedgerEntry.t) :
  e ∈ QuerySet.rows (get_queryset db u) <-> Spec.visible db u e.
Proof. rewrite elem_of_rows, visible_where. done. Qed.

Lemma existsb_owned (n : Z) (cs : list Customer.t) :
  existsb (fun c => (Customer.id c =? n) && (Customer.user c =? u)) cs
  = existsb (fun c => Customer.id c =? n) (Spec.customers_of u cs).
Proof.
  unfold Spec.customers_of. induction cs as [|c cs IH]; [done|].
  destruct (decide (Customer.user c = u)) as [Hu|Hu].
  - rewrite filter_cons_True by done. simpl. rewrite IH.
    apply Z.eqb_eq in Hu. by rewrite Hu, andb_true_r.
  - rewrite filter_cons_False by done. simpl. rewrite IH.
    apply Z.eqb_neq in Hu. by rewrite Hu, andb_false_r.
Qed.

Lemma NoDup_ids_owned (cs : list Customer.t) :
  NoDup (map Customer.id cs) -> NoDup (map Customer.id (Spec.customers_of u cs)).
Proof.
  unfold Spec.customers_of. induction cs as [|c cs IH]; simpl; [done|].
  intros Hnd. apply NoDup_cons in Hnd as [Hnotin Hnd].
  destruct (decide (Customer.user c = u)).
  - rewrite filter_cons_True by done. simpl. apply NoDup_cons. split; [|auto].
    intros Hin. apply Hnotin.
    apply list_elem_of_In, in_map_iff in Hin as (x & Hx & Hin).
    apply list_elem_of_In, list_elem_of_filter in Hin as [_ Hin].
    apply list_elem_of_In, in_map_iff. exists x. by rewrite <- list_elem_of_In.
  - rewrite filter_cons_False by done. auto.
Qed.

(** Among customers with distinct keys at most one has a given key. *)
Lemma count_key (n : Z) (cs : list Customer.t) :
  NoDup (map Customer.id cs) ->
  Spec.sum_decimals (map (fun c => if decide (n = Customer.id c) then 1 else 0) cs)
  = if existsb (fun c => Customer.id c =? n) cs then 1 else 0.
Proof.
  unfold Spec.sum_decimals. induction cs as [|c cs IH]; simpl; [done|].
  intros Hnd. apply NoDup_cons in Hnd as [Hnotin Hnd]. rewrite (IH Hnd).
  case_decide as Hn.
  - subst n. rewrite Z.eqb_refl. simpl.
    destruct (existsb _ cs) eqn:E; [|done].
    apply existsb_exists in E as (x & Hx & Hid). apply Z.eqb_eq in Hid.
    destruct Hnotin. apply list_elem_of_In, in_map_iff. by exists x.
  - assert ((Customer.id c =? n) = false) as -> by (apply Z.eqb_neq; congruence).
    done.
Qed.

Lemma entry_counts_cons (e : LedgerEntry.t) (tbl : list LedgerEntry.t)
    (cs : list Customer.t) :
  Spec.sum_decimals (map (fun c => Z.of_nat (length (Spec.entries_of c (e :: tbl)))) cs)
  = Spec.sum_decimals
      (map (fun c => if decide (LedgerEntry.customer e = Customer.id c) then 1 else 0) cs)
    + Spec.sum_decimals (map (fun c => Z.of_nat (length (Spec.entries_of c tbl))) cs).
Proof.
  unfold Spec.sum_decimals, Spec.entries_of. induction cs as [|c cs IH]; simpl; [done|].
  rewrite IH. case_decide.
  - rewrite filter_cons_True by done. simpl length. lia.
  - rewrite filter_cons_False by done. lia.
Qed.

Lemma visible_count (tbl : list LedgerEntry.t) :
  NoDup (map Customer.id (customers db)) ->
  Spec.sum_decimals
    (map (fun c => Z.of_nat (length (Spec.entries_of c tbl)))
         (Spec.customers_of u (customers db)))
  = Z.of_nat (length (List.filter
       (fun e => existsb (fun c => (Customer.id c =? LedgerEntry.customer e) &&
                                   (Customer.user c =? u)) (customers db)) tbl)).
Proof.
  intros Hnd. induction tbl as [|e tbl IH].
  - simpl. unfold Spec.sum_decimals.
    induction (Spec.customers_of u (customers db)) as [|c cs IHc]; simpl; [done|].
    by rewrite IHc.
  - rewrite entry_counts_cons, IH, count_key by (by apply NoDup_ids_owned).
    simpl. rewrite existsb_owned.
    destruct (existsb _ (Spec.customers_of u (customers db))); simpl length; lia.
Qed.

End VisibleEntries.

(** X11.  The plain listing of entries and the statistics agree.  The query set
    behind the listing holds exactly the entries of the caller's customers;
    and when the keys of the customers are unique, [total_entries] of the
    statistics is the number of entries in that query set. *)
Theorem statistics_count_the_listing (db : Database) (u : Z) :
  (forall e, e ∈ QuerySet.rows (LedgerEntryViewSet.get_queryset db u)
             <-> Spec.visible db u e) /\
  (Spec.unique_customer_ids db ->
   exists stats,
     LedgerEntryViewSet.statistics db u = Ok stats HTTP_200_OK /\
     LedgerEntryViewSet.total_entries stats
     = QuerySet.count (LedgerEntryViewSet.get_queryset db u)).
Proof.
  split; [apply visible_rows|].
  intros Hnd. eexists. split; [apply statistics_closed_form|].
  cbn [LedgerEntryViewSet.total_entries].
  rewrite (visible_count db u (ledger_entries db) Hnd).
  unfold QuerySet.count, LedgerEntryViewSet.get_queryset, LedgerEntry.objects.
  by rewrite selected_filter, selected_all.
Qed.

(** X12.  With unique customer keys no entry is shown to two users. *)
Theorem entries_are_not_shared (db : Database) (u u' : Z) (e : LedgerEntry.t) :
  Spec.unique_customer_ids db -> u <> u' ->
  e ∈ QuerySet.rows (LedgerEntryViewSet.get_queryset db u) ->
  e ∉ QuerySet.rows (LedgerEntryViewSet.get_queryset db u').
Proof.
  intros Hnd Hne. rewrite !visible_rows.
  intros (_ & c & [Hin Hu] & Hid) (_ & c' & [Hin' Hu'] & Hid').
  assert (c = c'); [|congruence].
  unfold Spec.unique_customer_ids in Hnd.
  apply list_elem_of_lookup in Hin as [i Hi], Hin' as [j Hj].
  assert (i = j).
  { eapply NoDup_lookup; [exact Hnd| |].
    - rewrite list_lookup_fmap, Hi. reflexivity.
    - rewrite list_lookup_fmap, Hj. simpl. congruence. }
  congruence.
Qed.

(* ================================================================== *)
(** * Creating and deleting customers                                  *)
(* ================================================================== *)

Section CustomerCreation.
Import CustomerViewSet.

Lemma customer_next_id_fresh (tbl : list Customer.t) (x : Customer.t) :
  x ∈ tbl -> Customer.id x < CustomerSerializer.next_id tbl.
Proof.
  unfold CustomerSerializer.next_id.
  induction 1 as [x l|x y l Hin IH]; simpl; lia.
Qed.

Lemma customer_next_id_new (tbl : list Customer.t) :
  CustomerSerializer.next_id tbl ∉ map Customer.id tbl.
Proof.
  intros Hin. apply list_elem_of_In, in_map_iff in Hin as (x & Hx & Hin).
  apply list_elem_of_In, customer_next_id_fresh in Hin. lia.
Qed.

(** A request without a usable name fails the validation. *)
Lemma customer_name_required (data : CustomerSerializer.Input) :
  CustomerSerializer.in_name data = None \/
  (exists raw, CustomerSerializer.in_name data = Some raw /\
               Py.strip raw = EmptyString) ->
  exists errors, CustomerSerializer.is_valid data = inl errors /\
    exists msg, (("name"%string, msg) : string * string) ∈ errors.
Proof.
  unfold CustomerSerializer.is_valid.
  intros [->|(raw & -> & Hblank)]; cbn [CharField.run_validation].
  - cbn [CharField.failure app]. eexists. split; [done|].
    eexists. apply list_elem_of_here.
  - rewrite Hblank. cbn [Py.truthy negb CharField.failure app].
    eexists. split; [done|]. eexists. apply list_elem_of_here.
Qed.

(** What the validation of a customer accepts. *)
Lemma customer_is_valid_inr (data : CustomerSerializer.Input)
    (v : CustomerSerializer.Validated) :
  CustomerSerializer.is_valid data = inr v ->
  exists raw, CustomerSerializer.in_name data = Some raw /\
    CustomerSerializer.v_name v = Py.strip raw /\
    Py.strip raw <> EmptyString /\ Py.len (Py.strip raw) <= 255 /\
    (CustomerSerializer.in_phone data = None ->
     CustomerSerializer.v_phone v = None) /\
    (forall p, CustomerSerializer.in_phone data = Some p ->
       CustomerSerializer.v_phone v = Some (Py.strip p) /\ Py.len (Py.strip p) <= 20) /\
    CustomerSerializer.v_address v
    = option_map Py.strip (CustomerSerializer.in_address data).
Proof.
  unfold CustomerSerializer.is_valid.
  pose proof (run_validation_passed true false
    [CharField.MaxLengthValidator 255; CharField.ProhibitNullCharactersValidator]
    "name" (CustomerSerializer.in_name data)) as Hn.
  pose proof (run_validation_passed false true
    [CharField.MaxLengthValidator 20; CharField.ProhibitNullCharactersValidator]
    "phone" (CustomerSerializer.in_phone data)) as Hp.
  pose proof (run_validation_passed false true
    [CharField.ProhibitNullCharactersValidator]
    "address" (CustomerSerializer.in_address data)) as Ha.
  destruct (CharField.failure "name" _) as [|? ?]; [|done].
  destruct (CharField.failure "phone" _) as [|? ?]; [|done].
  destruct (CharField.failure "address" _) as [|? ?]; [|done].
  specialize (Hn eq_refl). specialize (Hp eq_refl). specialize (Ha eq_refl).
  cbn [app]. intros [= <-]. cbn [CustomerSerializer.v_name
    CustomerSerializer.v_phone CustomerSerializer.v_address].
  destruct Hn as [(_ & [=] & _)|(raw & Hraw & [(_ & [=] & _)|(Hne & Hval & ->)])].
  exists raw. split; [done|]. split; [done|]. split; [done|]. split.
  { cbn [CharField.run_validators] in Hval.
    unfold CharField.MaxLengthValidator in Hval.
    destruct (255 <? Py.len (Py.strip raw)) eqn:E; [done|]. by apply Z.ltb_ge. }
  split; [|split].
  - intros Hnone. destruct Hp as [(_ & _ & ->)|(p & Hp & _)]; [done|congruence].
  - intros p Hp'. destruct Hp as [(Hnone & _)|(p0 & Hp0 & [(Hb & _ & ->)|(Hne' & Hval' & ->)])];
      [congruence| |]; assert (p0 = p) as -> by congruence.
    + rewrite Hb. split; [done|]. unfold Py.len. simpl. lia.
    + split; [done|]. cbn [CharField.run_validators] in Hval'.
      unfold CharField.MaxLengthValidator in Hval'.
      destruct (20 <? Py.len (Py.strip p)) eqn:E; [done|]. by apply Z.ltb_ge.
  - destruct Ha as [(-> & _ & ->)|(a0 & -> & [(Hb & _ & ->)|(_ & _ & ->)])];
      [done| |done]. simpl. by rewrite Hb.
Qed.

End CustomerCreation.

Section CustomerCreationEffects.
Import CustomerViewSet.


Lemma filter_fresh_key (tbl : list Customer.t) (n : Z) (f : Customer.t -> bool) :
  n ∉ map Customer.id tbl ->
  List.filter (fun c => (Customer.id c =? n) && f c) tbl = [].
Proof.
  induction tbl as [|x tbl IH]; simpl; [done|]. intros Hn.
  apply not_elem_of_cons in Hn as [Hx Hn].
  assert ((Customer.id x =? n) = false) as -> by (apply Z.eqb_neq; congruence).
  simpl. auto.
Qed.

Lemma get_owned_new (tbl : list Customer.t) (c : Customer.t) (u : Z) :
  Customer.id c ∉ map Customer.id tbl ->
  Customer.get_owned (tbl ++ [c]) (JInt (Customer.id c)) u
  = if decide (u = Customer.user c) then QuerySet.Found c else QuerySet.DoesNotExist.
Proof.
  intros Hn. unfold Customer.get_owned. cbn [Field.get_prep_value].
  unfold QuerySet.get, Customer.objects. rewrite selected_filter, selected_all.
  rewrite List.filter_app, filter_fresh_key by done. simpl.
  rewrite Z.eqb_refl. simpl. case_decide as Hu.
  - subst u. by rewrite Z.eqb_refl.
  - assert ((Customer.user c =? u) = false) as -> by (apply Z.eqb_neq; congruence).
    done.
Qed.

Lemma entries_of_unreferenced (db : Database) (c : Customer.t) :
  Spec.referential_integrity db ->
  Customer.id c ∉ map Customer.id (customers db) ->
  Spec.entries_of c (ledger_entries db) = [].
Proof.
  intros Hri Hn. unfold Spec.entries_of.
  destruct (filter _ (ledger_entries db)) as [|e l] eqn:E; [done|].
  assert (He : e ∈ filter (fun e => LedgerEntry.customer e = Customer.id c)
                 (ledger_entries db)) by (rewrite E; apply list_elem_of_here).
  apply list_elem_of_filter in He as [Hid He].
  destruct (Hri e He) as (c' & Hin & Hc'). destruct Hn.
  apply list_elem_of_In, in_map_iff. exists c'.
  rewrite <- list_elem_of_In. split; [congruence|done].
Qed.

Variables (db : Database) (u now : Z) (data : CustomerSerializer.Input).

(** The customer that a request stores. *)
Let stored (v : CustomerSerializer.Validated) : Customer.t :=
  Customer.mk (CustomerSerializer.next_id (customers db)) u
    (CustomerSerializer.v_name v) (CustomerSerializer.v_phone v)
    (CustomerSerializer.v_address v) now now.

Lemma customer_create_cases :
  (exists errors, CustomerSerializer.is_valid data = inl errors /\
     create db u now data = (Rejected errors HTTP_400_BAD_REQUEST, db)) \/
  (exists v, CustomerSerializer.is_valid data = inr v /\
     create db u now data
     = (Ok (CustomerSerializer.to_representation (stored v)) HTTP_201_CREATED,
        mkDatabase (users db) (customers db ++ [stored v])%list (ledger_entries db))).
Proof.
  unfold create, perform_create, CustomerSerializer.save.
  destruct (CustomerSerializer.is_valid data) as [errs|v].
  - left. by exists errs.
  - right. by exists v.
Qed.

End CustomerCreationEffects.

(** X13.  Creating a customer.  The request is either refused with 400, and then
    nothing is stored, or answered 201 with the new customer: it belongs to
    the caller, whatever the body says, has a key that no customer had, the
    trimmed name of the request, which is not empty and at most 255
    characters long, and the time of the store; it is appended to the
    customers and nothing else changes.  A request whose name is missing or
    blank is refused with an error under [name]. *)
Theorem customer_create_answers (db : Database) (u now : Z)
    (data : CustomerSerializer.Input) :
  ((exists errors,
      CustomerViewSet.create db u now data = (Rejected errors HTTP_400_BAD_REQUEST, db)) \/
   (exists c raw,
      CustomerViewSet.create db u now data
      = (Ok (CustomerSerializer.to_representation c) HTTP_201_CREATED,
         mkDatabase (users db) (customers db ++ [c])%list (ledger_entries db)) /\
      Customer.user c = u /\
      (Customer.id c ∉ map Customer.id (customers db)) /\
      CustomerSerializer.in_name data = Some raw /\
      Customer.name c = Py.strip raw /\
      Customer.name c <> EmptyString /\
      Py.len (Customer.name c) <= 255 /\
      Customer.phone c = option_map Py.strip (CustomerSerializer.in_phone data) /\
      Customer.address c = option_map Py.strip (CustomerSerializer.in_address data) /\
      Customer.created_at c = now /\ Customer.updated_at c = now)) /\
  (CustomerSerializer.in_name data = None \/
   (exists raw, CustomerSerializer.in_name data = Some raw /\
                Py.strip raw = EmptyString) ->
   exists errors msg,
     CustomerViewSet.create db u now data = (Rejected errors HTTP_400_BAD_REQUEST, db) /\
     (("name"%string, msg) : string * string) ∈ errors).
Proof.
  split.
  - destruct (customer_create_cases db u now data)
      as [(errs & _ & ->)|(v & Hv & ->)]; [left; by exists errs|right].
    apply customer_is_valid_inr in Hv
      as (raw & Hraw & Hname & Hne & Hlen & Hp0 & Hp1 & Ha).
    eexists _, raw. split; [reflexivity|]. cbn [Customer.user Customer.id
      Customer.name Customer.phone Customer.address Customer.created_at
      Customer.updated_at].
    split; [done|]. split; [apply customer_next_id_new|]. split; [done|].
    rewrite Hname. do 3 (split; [done|]). split; [|done].
    destruct (CustomerSerializer.in_phone data) as [p|]; simpl.
    + by destruct (Hp1 p eq_refl).
    + by apply Hp0.
  - intros H. apply customer_name_required in H as (errs & Hv & msg & Hmsg).
    exists errs, msg. split; [|done].
    unfold CustomerViewSet.create. by rewrite Hv.
Qed.


(** X15.  A new customer starts empty and private.  In a store where every entry
    belongs to a stored customer, the summary of a customer just created
    shows zero totals, a zero balance and no entries; and the same key asked
    for by any other user is answered 404. *)
Theorem new_customer_starts_empty (db db' : Database) (u now : Z)
    (data : CustomerSerializer.Input) (d : CustomerSerializer.Data) :
  Spec.referential_integrity db ->
  CustomerViewSet.create db u now data = (Ok d HTTP_201_CREATED, db') ->
  (exists s,
     CustomerViewSet.summary db' u (JInt (CustomerSerializer.id d)) = Ok s HTTP_200_OK /\
     CustomerSummarySerializer.id s = CustomerSerializer.id d /\
     CustomerSummarySerializer.name s = CustomerSerializer.name d /\
     CustomerSummarySerializer.total_credit s = 0 /\
     CustomerSummarySerializer.total_debit s = 0 /\
     CustomerSummarySerializer.balance s = 0 /\
     CustomerSummarySerializer.entries_count s = 0) /\
  (forall u', u' <> u ->
     CustomerViewSet.summary db' u' (JInt (CustomerSerializer.id d))
     = Rejected [("detail", "Not found.")]%string HTTP_404_NOT_FOUND).
Proof.
  intros Hri Hcreate.
  destruct (customer_create_cases db u now data)
    as [(errs & _ & Hc)|(v & _ & Hc)]; rewrite Hc in Hcreate; [done|].
  injection Hcreate as <- <-.
  set (c := Customer.mk _ _ _ _ _ _ _).
  assert (Hnew : Customer.id c ∉ map Customer.id (customers db))
    by apply customer_next_id_new.
  assert (Hnone : Spec.entries_of c (ledger_entries db) = [])
    by by apply entries_of_unreferenced.
  unfold CustomerViewSet.summary. cbn [customers ledger_entries].
  change (CustomerSerializer.id (CustomerSerializer.to_representation c))
    with (Customer.id c).
  split.
  - rewrite get_owned_new by done. rewrite decide_True by done.
    eexists. split; [reflexivity|].
    unfold CustomerSummarySerializer.to_representation.
    cbn [CustomerSummarySerializer.id CustomerSummarySerializer.name
         CustomerSummarySerializer.balance CustomerSummarySerializer.total_credit
         CustomerSummarySerializer.total_debit CustomerSummarySerializer.entries_count].
    rewrite entries_count_length, Hnone.
    unfold CustomerSummarySerializer.get_balance,
      CustomerSummarySerializer.get_total_credit,
      CustomerSummarySerializer.get_total_debit.
    rewrite get_summary_sums, !entries_of_type_nil by done. done.
  - intros u' Hu'. rewrite get_owned_new by done. by rewrite decide_False.
Qed.

Section CustomerDeletion.
Import CustomerViewSet.

Lemma NoDup_map_List_filter {A B : Type} (f : A -> B) (p : A -> bool) (l : list A) :
  NoDup (map f l) -> NoDup (map f (List.filter p l)).
Proof.
  induction l as [|a l IH]; simpl; [done|].
  intros H. apply NoDup_cons in H as [Hn H].
  destruct (p a); simpl; [|auto]. apply NoDup_cons. split; [|auto].
  intros Hin. apply Hn.
  apply list_elem_of_In, in_map_iff in Hin as (x & Hx & Hin).
  apply filter_In in Hin as [Hin _].
  apply list_elem_of_In, in_map_iff. by exists x.
Qed.

Lemma elem_of_List_filter {A : Type} (p : A -> bool) (l : list A) (x : A) :
  x ∈ List.filter p l <-> x ∈ l /\ p x = true.
Proof. by rewrite !list_elem_of_In, filter_In. Qed.

Lemma entries_of_cascade (c c' : Customer.t) (tbl : list LedgerEntry.t) :
  Customer.id c' <> Customer.id c ->
  Spec.entries_of c'
    (List.filter (fun e => negb (LedgerEntry.customer e =? Customer.id c)) tbl)
  = Spec.entries_of c' tbl.
Proof.
  intros Hne. unfold Spec.entries_of. induction tbl as [|e tbl IH]; [done|].
  simpl. destruct (LedgerEntry.customer e =? Customer.id c) eqn:E; simpl.
  - apply Z.eqb_eq in E. rewrite (filter_cons_False _ e) by congruence. done.
  - destruct (decide (LedgerEntry.customer e = Customer.id c')).
    + rewrite !filter_cons_True by done. by rewrite IH.
    + rewrite !filter_cons_False by done. done.
Qed.

Variables (db : Database) (u : Z) (pk : JsonValue).

Lemma customer_destroy_found (c : Customer.t) :
  Customer.get_owned (customers db) pk u = QuerySet.Found c ->
  destroy db u pk
  = (Ok tt HTTP_204_NO_CONTENT,
     mkDatabase (users db)
       (List.filter (fun x => negb (Customer.id x =? Customer.id c)) (customers db))
       (List.filter (fun e => negb (LedgerEntry.customer e =? Customer.id c))
                    (ledger_entries db))).
Proof. intros H. unfold destroy. by rewrite H. Qed.

Lemma customer_destroy_cases :
  (exists c, Customer.get_owned (customers db) pk u = QuerySet.Found c /\
     snd (destroy db u pk)
     = mkDatabase (users db)
         (List.filter (fun x => negb (Customer.id x =? Customer.id c)) (customers db))
         (List.filter (fun e => negb (LedgerEntry.customer e =? Customer.id c))
                      (ledger_entries db))) \/
  snd (destroy db u pk) = db.
Proof.
  unfold destroy.
  destruct (Customer.get_owned (customers db) pk u) as [c| | |]; [left|by right..].
  by exists c.
Qed.

End CustomerDeletion.

(** X16.  Deleting a customer.  For a key among the caller's customers the answer
    is 204; the customer is gone and so is every entry of it, while every
    customer with another key and all of its entries stay as they were, and
    asking for the key again finds nothing.  For a key that is not a number
    or is not among the caller's customers, a customer of somebody else
    included, the answer is 404 and the store is unchanged.  A customer of
    somebody else whose key is its own survives whatever the caller asks. *)
Theorem customer_destroy_answers (db : Database) (u : Z) (pk : JsonValue) :
  (forall c, Customer.get_owned (customers db) pk u = QuerySet.Found c ->
     let db' := snd (CustomerViewSet.destroy db u pk) in
     fst (CustomerViewSet.destroy db u pk) = Ok tt HTTP_204_NO_CONTENT /\
     Spec.owns db u c /\
     users db' = users db /\
     (forall c', c' ∈ customers db' <->
                 c' ∈ customers db /\ Customer.id c' <> Customer.id c) /\
     (forall e, e ∈ ledger_entries db' <->
                e ∈ ledger_entries db /\ LedgerEntry.customer e <> Customer.id c) /\
     (forall c', Customer.id c' <> Customer.id c ->
        Spec.entries_of c' (ledger_entries db') = Spec.entries_of c' (ledger_entries db) /\
        Customer.get_summary (ledger_entries db') c'
        = Customer.get_summary (ledger_entries db) c') /\
     Customer.get_owned (customers db') pk u = QuerySet.DoesNotExist) /\
  (Customer.get_owned (customers db) pk u = QuerySet.DoesNotExist \/
   Customer.get_owned (customers db) pk u = QuerySet.ValueError ->
   CustomerViewSet.destroy db u pk
   = (Rejected [("detail", "Not found.")]%string HTTP_404_NOT_FOUND, db)) /\
  (forall c, c ∈ customers db -> Customer.user c <> u ->
     (forall x, x ∈ customers db -> Customer.id x = Customer.id c -> x = c) ->
     c ∈ customers (snd (CustomerViewSet.destroy db u pk))).
Proof.
  split; [|split].
  - intros c Hc db'. subst db'. rewrite (customer_destroy_found db u pk c Hc).
    cbn [fst snd users customers ledger_entries].
    destruct (get_owned_found _ _ _ _ Hc) as (Hin & Hu & Hpk).
    split; [done|]. split; [done|]. split; [done|]. split; [|split; [|split]].
    + intros c'. rewrite elem_of_List_filter, negb_true_iff, Z.eqb_neq. done.
    + intros e. rewrite elem_of_List_filter, negb_true_iff, Z.eqb_neq. done.
    + intros c' Hne. pose proof (entries_of_cascade c c' (ledger_entries db) Hne) as He.
      split; [done|]. rewrite !get_summary_sums, !entries_of_type_as_filter.
      by rewrite He.
    + unfold Customer.get_owned. rewrite Hpk.
      unfold QuerySet.get, Customer.objects. rewrite selected_filter, selected_all.
      destruct (List.filter _ (List.filter _ (customers db))) as [|x l] eqn:E; [done|].
      assert (Hx : In x (x :: l)) by by left. rewrite <- E in Hx.
      apply filter_In in Hx as [Hx Hx'].
      apply filter_In in Hx as [_ Hx].
      apply andb_true_iff in Hx' as [Hx' _].
      by rewrite Hx' in Hx.
  - unfold CustomerViewSet.destroy. by intros [-> | ->].
  - intros c Hin Hu Huniq.
    destruct (customer_destroy_cases db u pk) as [(c0 & Hc0 & ->)| ->]; [|done].
    cbn [customers]. apply elem_of_List_filter. split; [done|].
    apply negb_true_iff, Z.eqb_neq. intros Hid.
    destruct (get_owned_found _ _ _ _ Hc0) as (Hin0 & Hu0 & _).
    assert (c0 = c) by (apply Huniq; [done|congruence]). congruence.
Qed.

(** X17.  Deleting a customer keeps the store well formed: keys stay unique and,
    because the entries of the customer go with it, every entry that is
    left still belongs to a stored customer. *)
Theorem customer_destroy_keeps_invariants (db : Database) (u : Z) (pk : JsonValue) :
  let db' := snd (CustomerViewSet.destroy db u pk) in
  (Spec.unique_customer_ids db -> Spec.unique_customer_ids db') /\
  (Spec.unique_entry_ids db -> Spec.unique_entry_ids db') /\
  (Spec.referential_integrity db -> Spec.referential_integrity db').
Proof.
  intros db'. subst db'.
  destruct (customer_destroy_cases db u pk) as [(c & Hc & ->)| ->]; [|done].
  unfold Spec.unique_customer_ids, Spec.unique_entry_ids, Spec.referential_integrity.
  cbn [customers ledger_entries].
  split; [apply NoDup_map_List_filter|]. split; [apply NoDup_map_List_filter|].
  intros Hri e He. apply elem_of_List_filter in He as [He Hne].
  apply negb_true_iff, Z.eqb_neq in Hne.
  destruct (Hri e He) as (c' & Hin & Hid). exists c'. split; [|done].
  apply elem_of_List_filter. split; [done|].
  apply negb_true_iff, Z.eqb_neq. congruence.
Qed.

(** X18.  Creating a customer keeps the store well formed and leaves the rest
    alone: users and entries are unchanged, every customer stays, the
    customers of any other user are the same list as before, and unique
    keys and the link from entries to customers are kept. *)
Theorem customer_create_keeps_invariants (db : Database) (u now : Z)
    (data : CustomerSerializer.Input) :
  let db' := snd (CustomerViewSet.create db u now data) in
  users db' = users db /\
  ledger_entries db' = ledger_entries db /\
  (forall c, c ∈ customers db -> c ∈ customers db') /\
  (forall u', u' <> u ->
     Spec.customers_of u' (customers db') = Spec.customers_of u' (customers db)) /\
  (Spec.unique_customer_ids db -> Spec.unique_customer_ids db') /\
  (Spec.referential_integrity db -> Spec.referential_integrity db').
Proof.
  intros db'. subst db'.
  destruct (customer_create_cases db u now data)
    as [(errs & _ & ->)|(v & _ & ->)]; cbn [snd].
  { split; [done|]. split; [done|]. split; [done|]. split; done. }
  cbn [users customers ledger_entries].
  split; [done|]. split; [done|]. split; [|split; [|split]].
  - intros c Hc. apply elem_of_app. by left.
  - intros u' Hu'. unfold Spec.customers_of. rewrite filter_app.
    rewrite (filter_cons_False _ _ []) by (simpl; congruence).
    by rewrite filter_nil, app_nil_r.
  - unfold Spec.unique_customer_ids. cbn [customers]. intros Hnd.
    rewrite map_app. apply NoDup_app. split; [done|]. split.
    + intros n Hn Hn'. simpl in Hn'. apply list_elem_of_singleton in Hn'. subst n.
      by apply customer_next_id_new in Hn.
    + simpl. apply NoDup_singleton.
  - unfold Spec.referential_integrity. cbn [customers ledger_entries].
    intros Hri e He. destruct (Hri e He) as (c & Hin & Hid).
    exists c. split; [|done]. apply elem_of_app. by left.
Qed.

(* ================================================================== *)
(** * One entry: reading and deleting it                               *)
(* ================================================================== *)

Section OneEntry.
Import LedgerEntryViewSet.

Lemma filter_other_keys (n : Z) (l : list LedgerEntry.t) :
  (forall x, x ∈ l -> LedgerEntry.id x <> n) ->
  List.filter (fun x => negb (LedgerEntry.id x =? n)) l = l.
Proof.
  induction l as [|x l IH]; simpl; intros H; [done|].
  assert ((LedgerEntry.id x =? n) = false) as ->
    by apply Z.eqb_neq, H, list_elem_of_here.
  simpl. f_equal. apply IH. intros y Hy. apply H. by apply elem_of_cons; right.
Qed.

Lemma filter_no_key (p : LedgerEntry.t -> bool) (n : Z) (l : list LedgerEntry.t) :
  (forall x, x ∈ l -> LedgerEntry.id x <> n) ->
  List.filter (fun x => p x && (LedgerEntry.id x =? n)) l = [].
Proof.
  induction l as [|x l IH]; simpl; intros H; [done|].
  assert ((LedgerEntry.id x =? n) = false) as ->
    by apply Z.eqb_neq, H, list_elem_of_here.
  rewrite andb_false_r. apply IH. intros y Hy. apply H. by apply elem_of_cons; right.
Qed.

Lemma other_keys (a : LedgerEntry.t) (l : list LedgerEntry.t) :
  LedgerEntry.id a ∉ map LedgerEntry.id l ->
  forall x, x ∈ l -> LedgerEntry.id x <> LedgerEntry.id a.
Proof.
  intros Hn x Hx Heq. apply Hn. apply list_elem_of_In, in_map_iff. exists x.
  by rewrite <- list_elem_of_In.
Qed.

(** In a table with unique keys the key of a row selects that row alone. *)
Lemma filter_by_key (p : LedgerEntry.t -> bool) (tbl : list LedgerEntry.t)
    (e : LedgerEntry.t) :
  NoDup (map LedgerEntry.id tbl) -> e ∈ tbl -> p e = true ->
  List.filter (fun x => p x && (LedgerEntry.id x =? LedgerEntry.id e)) tbl = [e].
Proof.
  intros Hnd Hin Hp. induction tbl as [|a l IH]; [by apply elem_of_nil in Hin|].
  simpl in Hnd. apply NoDup_cons in Hnd as [Hn Hnd].
  pose proof (other_keys a l Hn) as Hrest.
  apply elem_of_cons in Hin as [->|Hin]; simpl.
  - rewrite Hp, Z.eqb_refl. simpl. f_equal. by apply filter_no_key.
  - assert ((LedgerEntry.id a =? LedgerEntry.id e) = false) as ->.
    { apply Z.eqb_neq. intros Heq. by apply (Hrest e Hin). }
    rewrite andb_false_r. auto.
Qed.

(** Removing the row with a key from a table with unique keys removes that
    row and no other. *)
Lemma remove_by_key (tbl : list LedgerEntry.t) (e : LedgerEntry.t) :
  NoDup (map LedgerEntry.id tbl) -> e ∈ tbl ->
  tbl ≡ₚ e :: List.filter (fun x => negb (LedgerEntry.id x =? LedgerEntry.id e)) tbl.
Proof.
  intros Hnd Hin. induction tbl as [|a l IH]; [by apply elem_of_nil in Hin|].
  simpl in Hnd. apply NoDup_cons in Hnd as [Hn Hnd].
  pose proof (other_keys a l Hn) as Hrest.
  apply elem_of_cons in Hin as [->|Hin]; simpl.
  - rewrite Z.eqb_refl. simpl. by rewrite filter_other_keys.
  - assert ((LedgerEntry.id a =? LedgerEntry.id e) = false) as ->.
    { apply Z.eqb_neq. intros Heq. by apply (Hrest e Hin). }
    simpl. rewrite (IH Hnd Hin) at 1. apply Permutation_swap.
Qed.

Variables (db : Database) (u : Z).

Lemma get_object_found (pk : JsonValue) (e : LedgerEntry.t) :
  get_object db u pk = QuerySet.Found e ->
  Spec.visible db u e /\ Field.get_prep_value pk = inl (LedgerEntry.id e).
Proof.
  unfold get_object. destruct (Field.get_prep_value pk) as [n|[|]]; [|done|done].
  unfold QuerySet.get. rewrite selected_filter.
  destruct (List.filter _ _) as [|r [|r' l]] eqn:E; [done| |done].
  intros [= ->].
  assert (Hin : In e (List.filter (fun e0 => LedgerEntry.id e0 =? n)
                        (QuerySet.selected (get_queryset db u))))
    by (rewrite E; by left).
  apply filter_In in Hin as [Hin Hid]. apply Z.eqb_eq in Hid. subst n.
  split; [|done]. apply visible_rows. rewrite rows_Permutation.
  by apply list_elem_of_In.
Qed.

Lemma selected_get_queryset :
  QuerySet.selected (get_queryset db u)
  = List.filter (QuerySet.where_ (get_queryset db u)) (ledger_entries db).
Proof. done. Qed.

Lemma get_object_visible (e : LedgerEntry.t) :
  Spec.unique_entry_ids db -> Spec.visible db u e ->
  get_object db u (JInt (LedgerEntry.id e)) = QuerySet.Found e.
Proof.
  intros Hnd Hv. unfold get_object. cbn [Field.get_prep_value].
  unfold QuerySet.get. rewrite selected_filter, selected_get_queryset.
  rewrite <- List_filter_andb.
  rewrite (filter_by_key _ (ledger_entries db) e Hnd); [done|apply Hv|].
  apply visible_where. apply Hv.
Qed.

Lemma get_object_hidden (pk : JsonValue) :
  (forall e, Spec.visible db u e ->
             Field.get_prep_value pk <> inl (LedgerEntry.id e)) ->
  get_object db u pk = QuerySet.DoesNotExist \/ get_object db u pk = QuerySet.ValueError.
Proof.
  intros H. unfold get_object.
  destruct (Field.get_prep_value pk) as [n|[|]] eqn:Hpk; [|by left|by right].
  left. unfold QuerySet.get. rewrite selected_filter.
  destruct (List.filter _ _) as [|r l] eqn:E; [done|].
  assert (Hin : In r (List.filter (fun e0 => LedgerEntry.id e0 =? n)
                        (QuerySet.selected (get_queryset db u))))
    by (rewrite E; by left).
  apply filter_In in Hin as [Hin Hid]. apply Z.eqb_eq in Hid.
  destruct (H r); [|congruence].
  apply visible_rows. rewrite rows_Permutation. by apply list_elem_of_In.
Qed.

End OneEntry.

(** X19.  Reading one entry.  An answer 200 carries an entry of a customer of the
    caller, the one with the key asked for.  A key that no entry of the
    caller's customers has, be it free, malformed or the key of somebody
    else's entry, is answered 404.  When the keys of the entries are unique,
    every entry of the caller's customers is found under its key. *)
Theorem entry_retrieve_answers (db : Database) (u : Z) (pk : JsonValue) :
  (forall d, LedgerEntryViewSet.retrieve db u pk = Ok d HTTP_200_OK ->
     exists e, Spec.visible db u e /\
       Field.get_prep_value pk = inl (LedgerEntry.id e) /\
       d = LedgerEntrySerializer.to_representation e) /\
  ((forall e, Spec.visible db u e ->
              Field.get_prep_value pk <> inl (LedgerEntry.id e)) ->
   LedgerEntryViewSet.retrieve db u pk
   = Rejected [("detail", "Not found.")]%string HTTP_404_NOT_FOUND) /\
  (Spec.unique_entry_ids db ->
   forall e, Spec.visible db u e ->
     LedgerEntryViewSet.retrieve db u (JInt (LedgerEntry.id e))
     = Ok (LedgerEntrySerializer.to_representation e) HTTP_200_OK).
Proof.
  split; [|split].
  - intros d. unfold LedgerEntryViewSet.retrieve.
    destruct (LedgerEntryViewSet.get_object db u pk) as [e| | |] eqn:He; [|done..].
    intros [= <-]. apply get_object_found in He as [Hv Hpk]. by exists e.
  - intros H. unfold LedgerEntryViewSet.retrieve.
    by destruct (get_object_hidden db u pk H) as [-> | ->].
  - intros Hnd e Hv. unfold LedgerEntryViewSet.retrieve.
    by rewrite get_object_visible.
Qed.

(** X20.  Deleting one entry.  A key that no entry of the caller's customers has
    is answered 404 and the store is unchanged, so nobody deletes somebody
    else's entry.  When the keys are unique, deleting an entry of the
    caller's customers is answered 204 and removes that entry and no other:
    users and customers are untouched, the table is the old one without the
    entry, and the entry is not found again. *)
Theorem entry_destroy_answers (db : Database) (u : Z) (pk : JsonValue) :
  ((forall e, Spec.visible db u e ->
              Field.get_prep_value pk <> inl (LedgerEntry.id e)) ->
   LedgerEntryViewSet.destroy db u pk
   = (Rejected [("detail", "Not found.")]%string HTTP_404_NOT_FOUND, db)) /\
  (Spec.unique_entry_ids db ->
   forall e, Spec.visible db u e ->
     exists db',
       LedgerEntryViewSet.destroy db u (JInt (LedgerEntry.id e))
       = (Ok tt HTTP_204_NO_CONTENT, db') /\
       users db' = users db /\ customers db' = customers db /\
       ledger_entries db ≡ₚ e :: ledger_entries db' /\
       (e ∉ ledger_entries db') /\
       LedgerEntryViewSet.retrieve db' u (JInt (LedgerEntry.id e))
       = Rejected [("detail", "Not found.")]%string HTTP_404_NOT_FOUND).
Proof.
  split.
  - intros H. unfold LedgerEntryViewSet.destroy.
    by destruct (get_object_hidden db u pk H) as [-> | ->].
  - intros Hnd e Hv. unfold LedgerEntryViewSet.destroy.
    rewrite get_object_visible by done.
    eexists. split; [reflexivity|]. cbn [users customers ledger_entries].
    split; [done|]. split; [done|]. split; [apply remove_by_key; [done|apply Hv]|].
    split.
    + rewrite elem_of_List_filter, Z.eqb_refl. by intros [_ ?].
    + unfold LedgerEntryViewSet.retrieve.
      match goal with |- context [LedgerEntryViewSet.get_object ?d u ?k] =>
        destruct (get_object_hidden d u k) as [-> | ->]; [|done..] end.
      intros x (Hx & _) [= Hid]. cbn [ledger_entries] in Hx.
      apply elem_of_List_filter in Hx as [_ Hx].
      by rewrite Hid, Z.eqb_refl in Hx.
Qed.

(** X21.  Deleting an entry and then asking for the summary.  With unique keys,
    after an entry of the caller's customers was deleted, the totals of its
    customer are lower by exactly its amount on the side of its type, the
    number of the customer's entries is lower by one, and the summaries of
    all other customers are as before. *)
Theorem entry_destroy_then_summary (db : Database) (u : Z) (e : LedgerEntry.t)
    (c : Customer.t) :
  Spec.unique_entry_ids db -> Spec.visible db u e ->
  let tbl := ledger_entries db in
  let tbl' := ledger_entries (snd (LedgerEntryViewSet.destroy db u
                                     (JInt (LedgerEntry.id e)))) in
  (Customer.id c = LedgerEntry.customer e ->
   forall ty, LedgerEntry.type e = ty ->
     Spec.sum_amounts (Spec.entries_of_type c ty tbl')
     = Spec.sum_amounts (Spec.entries_of_type c ty tbl) - LedgerEntry.amount e /\
     (forall ty', ty' <> ty ->
        Spec.sum_amounts (Spec.entries_of_type c ty' tbl')
        = Spec.sum_amounts (Spec.entries_of_type c ty' tbl)) /\
     CustomerSummarySerializer.get_entries_count tbl' c
     = CustomerSummarySerializer.get_entries_count tbl c - 1) /\
  (Customer.id c <> LedgerEntry.customer e ->
   Customer.get_summary tbl' c = Customer.get_summary tbl c /\
   CustomerSummarySerializer.get_entries_count tbl' c
   = CustomerSummarySerializer.get_entries_count tbl c).
Proof.
  intros Hnd Hv tbl tbl'. subst tbl tbl'.
  unfold LedgerEntryViewSet.destroy. rewrite get_object_visible by done.
  cbn [snd ledger_entries].
  pose proof (remove_by_key (ledger_entries db) e Hnd (proj1 Hv)) as Hperm.
  set (rest := List.filter _ (ledger_entries db)) in *.
  assert (Hty : forall ty, Spec.sum_amounts (Spec.entries_of_type c ty (ledger_entries db))
    = Spec.sum_amounts (Spec.entries_of_type c ty (e :: rest))).
  { intros ty. unfold Spec.sum_amounts. apply foldr_add_Permutation.
    unfold Spec.entries_of_type. by rewrite Hperm. }
  assert (Hcount : length (Spec.entries_of c (ledger_entries db))
                   = length (Spec.entries_of c (e :: rest))).
  { unfold Spec.entries_of. by rewrite Hperm. }
  split.
  - intros Hc ty Hte. split; [|split].
    + rewrite Hty. unfold Spec.entries_of_type.
      rewrite filter_cons_True by (split; congruence).
      unfold Spec.sum_amounts. simpl. lia.
    + intros ty' Hne. rewrite Hty. unfold Spec.entries_of_type.
      rewrite (filter_cons_False _ e) by (intros [_ ?]; congruence). done.
    + rewrite !entries_count_length, Hcount. unfold Spec.entries_of.
      rewrite (filter_cons_True _ e) by congruence. simpl length. lia.
  - intros Hc. rewrite !get_summary_sums, !entries_count_length, Hcount, !Hty.
    unfold Spec.entries_of_type, Spec.entries_of.
    rewrite !(filter_cons_False _ e) by (try intros [? _]; congruence). done.
Qed.

(** X22.  Creating an entry and deleting it again gives back the store as it was:
    the key that the 201 answer shows is found for the caller, the delete
    is answered 204, and the data store afterwards is the one before the
    create. *)
Theorem create_then_destroy (db db' : Database) (u now : Z) (today : Py.date)
    (request : LedgerEntryViewSet.CreateRequest) (d : LedgerEntrySerializer.Data) :
  LedgerEntryViewSet.create db u now today request
  = (Ok (LedgerEntrySerializer.OfInstance d) HTTP_201_CREATED, db') ->
  LedgerEntryViewSet.retrieve db' u (JInt (LedgerEntrySerializer.id d))
  = Ok d HTTP_200_OK /\
  LedgerEntryViewSet.destroy db' u (JInt (LedgerEntrySerializer.id d))
  = (Ok tt HTTP_204_NO_CONTENT, db).
Proof.
  intros Hcreate.
  destruct (create_cases db u now today request)
    as [(errs & Hc)|[(exc & Hc)|[(v & _ & _ & Hc)|(v & c & _ & Hfound & Hc)]]];
    rewrite Hc in Hcreate; [done..|].
  injection Hcreate as <- <-.
  set (e := LedgerEntry.mk _ _ _ _ _ _ _ _).
  change (LedgerEntrySerializer.id (LedgerEntrySerializer.to_representation e))
    with (LedgerEntry.id e).
  destruct (get_owned_found _ _ _ _ Hfound) as (Hin & Hu & _).
  assert (Hold : forall x, x ∈ ledger_entries db -> LedgerEntry.id x <> LedgerEntry.id e).
  { intros x Hx. apply entry_next_id_fresh in Hx.
    change (LedgerEntry.id e) with (LedgerEntrySerializer.next_id (ledger_entries db)).
    lia. }
  pose proof (fun p => filter_no_key p _ _ Hold) as Hnone.
  pose proof (filter_other_keys _ _ Hold) as Hall.
  assert (Hget : LedgerEntryViewSet.get_object
            (mkDatabase (users db) (customers db) (ledger_entries db ++ [e])%list) u
            (JInt (LedgerEntry.id e)) = QuerySet.Found e).
  { unfold LedgerEntryViewSet.get_object. cbn [Field.get_prep_value].
    unfold QuerySet.get. rewrite selected_filter, selected_get_queryset.
    rewrite <- List_filter_andb. cbn [ledger_entries].
    rewrite List.filter_app, Hnone. simpl. rewrite Z.eqb_refl, andb_true_r.
    assert (existsb (fun c0 => (Customer.id c0 =? Customer.id c) &&
                               (Customer.user c0 =? u)) (customers db) = true) as ->; [|done].
    apply existsb_exists. exists c. rewrite <- list_elem_of_In. split; [done|].
    by rewrite Z.eqb_refl, Hu, Z.eqb_refl. }
  unfold LedgerEntryViewSet.retrieve, LedgerEntryViewSet.destroy. rewrite Hget.
  split; [done|]. f_equal. cbn [users customers ledger_entries].
  rewrite List.filter_app, Hall. simpl. rewrite Z.eqb_refl. simpl.
  rewrite app_nil_r. by destruct db.
Qed.

(* ================================================================== *)
(** * The reading views side by side                                   *)
(* ================================================================== *)

Section ReadsAgree.
Import LedgerEntryViewSet.

Lemma date_order_contradiction (s t D : Py.date) :
  Spec.date_lt t s -> Spec.date_le s D -> Spec.date_le D t -> False.
Proof.
  unfold Spec.date_le, Spec.date_lt. destruct s, t, D; simpl.
  intros H [H1|[= -> -> ->]] [H2|[= -> -> ->]]; lia.
Qed.

Lemma filter_none {A : Type} (P : A -> Prop) `{!forall x, Decision (P x)} (l : list A) :
  (forall x, x ∈ l -> ~ P x) -> filter P l = [].
Proof.
  induction l as [|x l IH]; intros Hn; [done|].
  rewrite filter_cons_False by (apply Hn, list_elem_of_here).
  apply IH. intros y Hy. apply Hn. by apply elem_of_cons; right.
Qed.

(** A list whose entries are all CREDIT or DEBIT splits into the two. *)
Lemma split_by_type (l : list LedgerEntry.t) :
  (forall e, e ∈ l -> LedgerEntry.type e = "CREDIT"%string \/
                      LedgerEntry.type e = "DEBIT"%string) ->
  l ≡ₚ filter (fun e => LedgerEntry.type e = "CREDIT"%string) l ++
       filter (fun e => LedgerEntry.type e = "DEBIT"%string) l.
Proof.
  induction l as [|e l IH]; intros H; [done|].
  assert (Hl : forall x, x ∈ l -> LedgerEntry.type x = "CREDIT"%string \/
                                  LedgerEntry.type x = "DEBIT"%string).
  { intros x Hx. apply H. by apply elem_of_cons; right. }
  destruct (H e (list_elem_of_here _ _)) as [Hc|Hd].
  - rewrite (filter_cons_True _ e) by done.
    rewrite (filter_cons_False _ e) by (rewrite Hc; done).
    simpl. f_equiv. by apply IH.
  - rewrite (filter_cons_False _ e) by (rewrite Hd; done).
    rewrite (filter_cons_True _ e) by done.
    rewrite <- Permutation_middle. f_equiv. by apply IH.
Qed.

End ReadsAgree.

(** X23.  The reading views of one customer fit together.  For a customer of the
    caller: the date filter without bounds (absent or empty) lists what the
    listing by customer lists, in the same order; a start date after the end
    date is no error but gives an empty list; the entries of the CREDIT
    filter and of the DEBIT filter are among those of the listing by
    customer, and when every entry of the customer is a CREDIT or a DEBIT
    the two filters together give exactly that listing. *)
Theorem reads_agree (py : Py.interpreter) (db : Database) (u : Z) (customer_id : option string)
    (c : Customer.t) :
  Py.given customer_id = true ->
  Customer.get_owned (customers db) (JStr (param customer_id)) u = QuerySet.Found c ->
  exists all credits debits,
    LedgerEntryViewSet.by_customer db u customer_id = Ok all HTTP_200_OK /\
    LedgerEntryViewSet.filter_by_type py db u customer_id (Some "CREDIT"%string)
    = Ok credits HTTP_200_OK /\
    LedgerEntryViewSet.filter_by_type py db u customer_id (Some "DEBIT"%string)
    = Ok debits HTTP_200_OK /\
    (forall sd ed, Py.given sd = false -> Py.given ed = false ->
       exists r,
         LedgerEntryViewSet.filter_by_date db u customer_id sd ed = Ok r HTTP_200_OK /\
         LedgerEntryViewSet.fd_entries r = LedgerEntryViewSet.bc_entries all /\
         LedgerEntryViewSet.fd_total_entries r
         = Z.of_nat (length (LedgerEntryViewSet.bc_entries all))) /\
    (forall sd ed s t,
       Spec.bound sd (Some s) -> Spec.bound ed (Some t) -> Spec.date_lt t s ->
       exists r,
         LedgerEntryViewSet.filter_by_date db u customer_id sd ed = Ok r HTTP_200_OK /\
         LedgerEntryViewSet.fd_entries r = [] /\
         LedgerEntryViewSet.fd_total_entries r = 0) /\
    (forall d, d ∈ LedgerEntryViewSet.ft_entries credits ->
       d ∈ LedgerEntryViewSet.bc_entries all /\
       LedgerEntrySerializer.type d = "CREDIT"%string) /\
    (forall d, d ∈ LedgerEntryViewSet.ft_entries debits ->
       d ∈ LedgerEntryViewSet.bc_entries all /\
       LedgerEntrySerializer.type d = "DEBIT"%string) /\
    ((forall d, d ∈ LedgerEntryViewSet.bc_entries all ->
        LedgerEntrySerializer.type d = "CREDIT"%string \/
        LedgerEntrySerializer.type d = "DEBIT"%string) ->
     LedgerEntryViewSet.bc_entries all
     ≡ₚ LedgerEntryViewSet.ft_entries credits ++ LedgerEntryViewSet.ft_entries debits /\
     LedgerEntryViewSet.ft_entries_count credits + LedgerEntryViewSet.ft_entries_count debits
     = Z.of_nat (length (LedgerEntryViewSet.bc_entries all))).
Proof.
  intros Hgiven Hfound.
  eexists _, _, _.
  split; [by apply by_customer_found|].
  split; [apply filter_by_type_found; [done|by left|done]|].
  split; [apply filter_by_type_found; [done|by right|done]|].
  cbn [LedgerEntryViewSet.bc_entries LedgerEntryViewSet.ft_entries
       LedgerEntryViewSet.ft_entries_count].
  pose proof (customer_rows db c) as Hall.
  pose proof (rows_of_type db "CREDIT" c) as Hcr.
  pose proof (rows_of_type db "DEBIT" c) as Hdr.
  rewrite entries_of_type_as_filter in Hcr, Hdr.
  set (rows := QuerySet.rows (Customer.ledger_entries (ledger_entries db) c)) in *.
  set (crows := QuerySet.rows (QuerySet.filter (Customer.has_type "CREDIT") _)) in *.
  set (drows := QuerySet.rows (QuerySet.filter (Customer.has_type "DEBIT") _)) in *.
  assert (Hsub : forall ty l d,
            l ≡ₚ filter (fun e => LedgerEntry.type e = ty)
                   (Spec.entries_of c (ledger_entries db)) ->
            d ∈ map LedgerEntrySerializer.to_representation l ->
            d ∈ map LedgerEntrySerializer.to_representation rows /\
            LedgerEntrySerializer.type d = ty).
  { intros ty l d Hl Hd.
    apply list_elem_of_In, in_map_iff in Hd as (e & <- & He).
    apply list_elem_of_In in He. rewrite Hl in He.
    apply list_elem_of_filter in He as [Hty He]. split; [|done].
    apply list_elem_of_In, in_map. apply list_elem_of_In. by rewrite Hall. }
  split; [|split; [|split; [|split]]].
  - intros sd ed Hsd Hed. unfold LedgerEntryViewSet.filter_by_date.
    rewrite Hgiven; simpl. rewrite Hfound, Hsd, Hed.
    eexists. split; [reflexivity|]. cbn [LedgerEntryViewSet.fd_entries
      LedgerEntryViewSet.fd_total_entries].
    split; [done|]. rewrite <- rows_length. by rewrite length_map.
  - intros sd ed s t Hsd Hed Hlt.
    eexists. split; [by apply (filter_by_date_found db u _ _ _ c Hgiven Hfound (Some s) (Some t))|].
    cbn [LedgerEntryViewSet.fd_entries LedgerEntryViewSet.fd_total_entries].
    assert (Hnil : QuerySet.rows (Spec.ranged (ledger_entries db) c (Some s) (Some t)) = []).
    { apply Permutation_nil. rewrite (ranged_rows db c (Some s) (Some t)).
      rewrite filter_none; [done|].
      intros e _ [Hlo Hhi].
      exact (date_order_contradiction s t _ Hlt (Hlo s eq_refl) (Hhi t eq_refl)). }
    by rewrite Hnil.
  - intros d. by apply Hsub.
  - intros d. by apply Hsub.
  - intros Htypes.
    assert (Hrows : rows ≡ₚ crows ++ drows).
    { rewrite Hcr, Hdr, Hall. apply split_by_type.
      intros e He. rewrite <- Hall in He.
      apply (Htypes (LedgerEntrySerializer.to_representation e)).
      apply list_elem_of_In, in_map. by apply list_elem_of_In. }
    split.
    + rewrite <- map_app. by rewrite Hrows.
    + rewrite length_map, Hrows, length_app. lia.
Qed.

(** X24.  A customer key that is not a number.  The views that look the customer
    up themselves (the listing by customer, the two filters and the
    creation of an entry) catch [DoesNotExist] only, so a key such as
    [abc] ends them with an unhandled [ValueError], and nothing is stored;
    the summary view, which goes through [get_object], answers 404. *)
Theorem malformed_customer_id (py : Py.interpreter) (db : Database) (u : Z) (s : string) :
  Py.truthy s = true -> Field.int_of_str s = None ->
  LedgerEntryViewSet.by_customer db u (Some s) = Unhandled "ValueError" /\
  (forall sd ed,
     LedgerEntryViewSet.filter_by_date db u (Some s) sd ed = Unhandled "ValueError") /\
  (forall ty, ty = "CREDIT"%string \/ ty = "DEBIT"%string ->
     LedgerEntryViewSet.filter_by_type py db u (Some s) (Some ty) = Unhandled "ValueError") /\
  (forall now today fields v,
     LedgerEntrySerializer.is_valid fields = inr v ->
     LedgerEntryViewSet.create db u now today
       (LedgerEntryViewSet.mkCreateRequest (JStr s) fields)
     = (Unhandled "ValueError", db)) /\
  CustomerViewSet.summary db u (JStr s)
  = Rejected [("detail", "Not found.")]%string HTTP_404_NOT_FOUND.
Proof.
  intros Hs Hint.
  assert (Hget : Customer.get_owned (customers db) (JStr s) u = QuerySet.ValueError).
  { unfold Customer.get_owned. cbn [Field.get_prep_value]. by rewrite Hint. }
  split; [|split; [|split; [|split]]].
  - unfold LedgerEntryViewSet.by_customer. cbn [Py.given param]. rewrite Hs. simpl.
    by rewrite Hget.
  - intros sd ed. unfold LedgerEntryViewSet.filter_by_date. cbn [Py.given param].
    rewrite Hs. simpl. by rewrite Hget.
  - intros ty Hty. unfold LedgerEntryViewSet.filter_by_type. cbn [Py.given param].
    rewrite Hs. destruct Hty as [-> | ->]; simpl; by rewrite Hget.
  - intros now today fields v Hv.
    unfold LedgerEntryViewSet.create, LedgerEntryViewSet.perform_create.
    cbn [LedgerEntryViewSet.fields LedgerEntryViewSet.customer].
    by rewrite Hv, Hget.
  - unfold CustomerViewSet.summary. by rewrite Hget.
Qed.

(* ================================================================== *)
(** * Dates in the query string                                        *)
(* ================================================================== *)

Section DateParameters.

Lemma digit_digit_char (k : Z) :
  0 <= k <= 9 -> Py.digit (Py.digit_char k) = Some k.
Proof.
  intros Hk.
  assert (k = 0 \/ k = 1 \/ k = 2 \/ k = 3 \/ k = 4 \/ k = 5 \/ k = 6 \/ k = 7 \/
          k = 8 \/ k = 9) as Hcases by lia.
  repeat (destruct Hcases as [->|Hcases]; [reflexivity|]). by subst k.
Qed.

Lemma parse_month_two_digits (m : Z) (rest : string) :
  1 <= m <= 12 ->
  Py.parse_month (Py.two_digits m ++ String "-" rest) = Some (m, rest).
Proof.
  intros Hm.
  assert (m = 1 \/ m = 2 \/ m = 3 \/ m = 4 \/ m = 5 \/ m = 6 \/ m = 7 \/ m = 8 \/
          m = 9 \/ m = 10 \/ m = 11 \/ m = 12) as Hcases by lia.
  repeat (destruct Hcases as [->|Hcases]; [reflexivity|]). by subst m.
Qed.

Lemma parse_day_two_digits (d : Z) :
  1 <= d <= 31 -> Py.parse_day (Py.two_digits d) = Some d.
Proof.
  intros Hd.
  assert (Hn : d = Z.of_nat (Z.to_nat d)) by lia.
  rewrite Hn. assert (Hb : (1 <= Z.to_nat d <= 31)%nat) by lia.
  clear Hn. revert Hb. generalize (Z.to_nat d). intros n Hn.
  do 32 (destruct n as [|n]; [first [lia|reflexivity]|]). lia.
Qed.

Lemma strptime_ymd_eq (y1 y2 y3 y4 : ascii) (rest : string) :
  Py.strptime_ymd (String y1 (String y2 (String y3 (String y4 (String "-" rest)))))
  = match Py.digit y1, Py.digit y2, Py.digit y3, Py.digit y4 with
    | Some a, Some b, Some c, Some d =>
        match Py.parse_month rest with
        | Some (m, rest') =>
            match Py.parse_day rest' with
            | Some dd => Py.make_date (1000 * a + 100 * b + 10 * c + d) m dd
            | None => None
            end
        | None => None
        end
    | _, _, _, _ => None
    end.
Proof. reflexivity. Qed.

Lemma make_date_Some (y m d : Z) (dt : Py.date) :
  Py.make_date y m d = Some dt <->
  dt = Py.Date y m d /\ 1 <= y <= 9999 /\ 1 <= m <= 12 /\
  1 <= d <= Py.days_in_month y m.
Proof.
  unfold Py.make_date.
  destruct (_ && _) eqn:E.
  - repeat (apply andb_true_iff in E as [E ?]).
    split; [intros [= <-]|by intros [-> _]]. split; [done|]. lia.
  - split; [done|]. intros (_ & ? & ? & ?).
    assert ((1 <=? y) && (y <=? 9999) && (1 <=? m) && (m <=? 12) && (1 <=? d) &&
            (d <=? Py.days_in_month y m) = true); [|congruence].
    repeat (apply andb_true_iff; split); lia.
Qed.

Lemma days_in_month_le (y m : Z) : Py.days_in_month y m <= 31.
Proof.
  unfold Py.days_in_month.
  destruct (m =? 2); [destruct (Py.is_leap y); lia|].
  destruct (_ || _); lia.
Qed.

Lemma strptime_isoformat (dt : Py.date) :
  Py.make_date (Py.year dt) (Py.month dt) (Py.day dt) = Some dt ->
  Py.strptime_ymd (Py.isoformat dt) = Some dt.
Proof.
  intros Hvalid. pose proof Hvalid as Hv.
  apply make_date_Some in Hv as (_ & Hy & Hm & Hd).
  pose proof (days_in_month_le (Py.year dt) (Py.month dt)).
  unfold Py.isoformat. rewrite strptime_ymd_eq.
  rewrite !digit_digit_char by (Z.div_mod_to_equations; lia).
  rewrite parse_month_two_digits by done.
  rewrite parse_day_two_digits by lia.
  rewrite <- Hvalid. f_equal.
  clear Hvalid Hm Hd H. Z.div_mod_to_equations. lia.
Qed.

End DateParameters.

(** X25.  Dates in the query string.  Every calendar date, written the way the
    API writes dates (year, month and day with leading zeros), is accepted
    as a bound of the date filter and stands for itself; and whatever text
    is accepted stands for a date of the calendar: a year from 1 to 9999, a
    month from 1 to 12 and a day that the month has. *)
Theorem iso_dates_are_accepted (dt : Py.date) :
  (Py.make_date (Py.year dt) (Py.month dt) (Py.day dt) = Some dt ->
   Py.strptime_ymd (Py.isoformat dt) = Some dt /\
   Spec.bound (Some (Py.isoformat dt)) (Some dt)) /\
  (forall s, Py.strptime_ymd s = Some dt ->
     1 <= Py.year dt <= 9999 /\ 1 <= Py.month dt <= 12 /\
     1 <= Py.day dt <= Py.days_in_month (Py.year dt) (Py.month dt)).
Proof.
  split.
  - intros Hvalid. pose proof (strptime_isoformat dt Hvalid) as Hparse.
    split; [done|]. unfold Spec.bound. cbn [Py.given param].
    unfold Py.isoformat at 1. cbn [Py.truthy]. done.
  - intros s. unfold Py.strptime_ymd.
    destruct s as [|y1 [|y2 [|y3 [|y4 [|sep rest]]]]]; try done.
    destruct (Ascii.eqb_spec sep "-") as [->|Hsep].
    2:{ destruct sep as [[] [] [] [] [] [] [] []]; done. }
    destruct (Py.digit y1), (Py.digit y2), (Py.digit y3), (Py.digit y4); try done.
    destruct (Py.parse_month rest) as [[m rest']|]; [|done].
    destruct (Py.parse_day rest') as [dd|]; [|done].
    intros Hmk. apply make_date_Some in Hmk as (-> & Hy & Hm & Hd). done.
Qed.

(* ================================================================== *)
(** * Registration and the data store                                  *)
(* ================================================================== *)

Section RegistrationEffects.
Import UserRegistrationSerializer.

Lemma user_next_id_new (tbl : list User.t) :
  next_id tbl ∉ map User.id tbl.
Proof.
  intros Hin. apply list_elem_of_In, in_map_iff in Hin as (x & Hx & Hin).
  assert (User.id x < next_id tbl); [|lia].
  clear Hx. unfold next_id. induction tbl as [|y l IH]; [done|].
  destruct Hin as [->|Hin]; simpl; [lia|]. specialize (IH Hin). lia.
Qed.

Lemma unique_username_new (tbl : list User.t) (v : string) :
  unique_username tbl v = true -> v ∉ map User.username tbl.
Proof.
  unfold unique_username. intros H Hin. apply negb_true_iff in H.
  apply list_elem_of_In, in_map_iff in Hin as (x & Hx & Hin).
  assert (existsb (fun u => String.eqb (User.username u) v) tbl = true); [|congruence].
  apply existsb_exists. exists x. split; [done|]. by apply String.eqb_eq.
Qed.

Lemma NoDup_snoc_new {A : Type} (l : list A) (x : A) :
  NoDup l -> x ∉ l -> NoDup (l ++ [x]).
Proof.
  intros Hnd Hx. apply NoDup_app. split; [done|]. split; [|apply NoDup_singleton].
  intros y Hy Hy'. apply list_elem_of_singleton in Hy'. by subst y.
Qed.

End RegistrationEffects.

(** X26.  Registration and the data store.  A registration never touches the
    customers or the entries and never removes or changes a user; a request
    that is not answered 201 changes nothing at all; and a store whose
    users have unique keys and unique user names keeps both properties,
    also when a name changes under the normal form in which it is stored. *)
Theorem registration_keeps_invariants (uv ev : string -> bool) (nu : string -> string)
    (db : Database) (data : UserRegistrationSerializer.Data) :
  let r := fst (UserRegistrationView.post uv ev nu db data) in
  let db' := snd (UserRegistrationView.post uv ev nu db data) in
  customers db' = customers db /\
  ledger_entries db' = ledger_entries db /\
  (forall usr, usr ∈ users db -> usr ∈ users db') /\
  (status_code r <> HTTP_201_CREATED -> db' = db) /\
  (Spec.unique_user_ids db -> Spec.unique_user_ids db') /\
  (Spec.unique_usernames db -> Spec.unique_usernames db').
Proof.
  intros r db'. subst r db'.
  destruct (post_rejected_or_created uv ev nu db data)
    as [(errs & ->)|[(v & _ & _ & ->)|(v & Hv & _ & Huniq & ->)]]; cbn [fst snd].
  { repeat split; done. }
  { repeat split; done. }
  cbn [users customers ledger_entries status_code].
  split; [done|]. split; [done|]. split; [|split; [done|split]].
  - intros usr Hin. apply elem_of_app. by left.
  - unfold Spec.unique_user_ids. cbn [users]. intros Hnd.
    rewrite map_app. apply NoDup_snoc_new; [done|]. apply user_next_id_new.
  - unfold Spec.unique_usernames. cbn [users]. intros Hnd.
    rewrite map_app. apply NoDup_snoc_new; [done|]. cbn [map User.username].
    by apply unique_username_new.
Qed.

(* ================================================================== *)
(** * The search and the case of the query                             *)
(* ================================================================== *)

Section SearchCase.

Lemma isspace_lower_char (c : ascii) : Py.isspace (Py.lower_char c) = Py.isspace c.
Proof. destruct c as [[] [] [] [] [] [] [] []]; reflexivity. Qed.

Lemma lower_char_idem (c : ascii) : Py.lower_char (Py.lower_char c) = Py.lower_char c.
Proof. destruct c as [[] [] [] [] [] [] [] []]; reflexivity. Qed.

Lemma lower_idem (s : string) : Py.lower (Py.lower s) = Py.lower s.
Proof. induction s as [|c s IH]; simpl; [done|]. by rewrite lower_char_idem, IH. Qed.

Lemma lower_lstrip (s : string) : Py.lower (Py.lstrip s) = Py.lstrip (Py.lower s).
Proof.
  induction s as [|c s IH]; simpl; [done|].
  rewrite isspace_lower_char. by destruct (Py.isspace c).
Qed.

Lemma lower_rstrip (s : string) : Py.lower (Py.rstrip s) = Py.rstrip (Py.lower s).
Proof.
  induction s as [|c s IH]; simpl; [done|].
  rewrite <- IH, isspace_lower_char.
  destruct (Py.rstrip s); simpl; [by destruct (Py.isspace c)|done].
Qed.

Lemma lower_strip (s : string) : Py.lower (Py.strip s) = Py.strip (Py.lower s).
Proof. unfold Py.strip. by rewrite lower_rstrip, lower_lstrip. Qed.

Lemma len_lower (s : string) : Py.len (Py.lower s) = Py.len s.
Proof.
  unfold Py.len. f_equal. induction s as [|c s IH]; simpl; [done|]. by rewrite IH.
Qed.

Lemma truthy_lower (s : string) : Py.truthy (Py.lower s) = Py.truthy s.
Proof. by destruct s. Qed.

End SearchCase.

(** X27.  The search does not look at the case of the query: two queries that
    differ in upper and lower case only are answered alike, with the same
    customers in the same order or with the same refusal. *)
Theorem search_ignores_case (db : Database) (u : Z) (q q' : string) :
  Py.lower q = Py.lower q' ->
  CustomerViewSet.search db u (Some q) = CustomerViewSet.search db u (Some q').
Proof.
  intros Hq.
  assert (Hs : Py.lower (Py.strip q) = Py.lower (Py.strip q'))
    by (by rewrite !lower_strip, Hq).
  unfold CustomerViewSet.search. cbn [param].
  rewrite <- (truthy_lower (Py.strip q)), <- (len_lower (Py.strip q)), Hs.
  rewrite truthy_lower, len_lower.
  destruct (negb _ || _); [done|]. f_equal.
  apply rows_ext; [done| |done].
  intros c. cbn [QuerySet.where_ QuerySet.filter]. f_equal.
  unfold CustomerViewSet.matches, CustomerViewSet.icontains. by rewrite Hs.
Qed.

(* ================================================================== *)
(** * The sample shop once more                                        *)
(* ================================================================== *)

Section ShopFacts.
Local Open Scope string_scope.

Lemma shop_unique_customer_ids : Spec.unique_customer_ids Sample.shop.
Proof.
  unfold Spec.unique_customer_ids. simpl.
  repeat (apply NoDup_cons_2; [rewrite ?elem_of_cons, elem_of_nil; intuition discriminate|]).
  apply NoDup_nil_2.
Qed.

Lemma shop_unique_entry_ids : Spec.unique_entry_ids Sample.shop.
Proof.
  unfold Spec.unique_entry_ids. simpl.
  repeat (apply NoDup_cons_2; [rewrite ?elem_of_cons, elem_of_nil; intuition discriminate|]).
  apply NoDup_nil_2.
Qed.

Lemma shop_unique_usernames : Spec.unique_usernames Sample.shop.
Proof.
  unfold Spec.unique_usernames. simpl.
  repeat (apply NoDup_cons_2; [rewrite ?elem_of_cons, elem_of_nil; intuition discriminate|]).
  apply NoDup_nil_2.
Qed.

Lemma shop_referential_integrity : Spec.referential_integrity Sample.shop.
Proof.
  intros e He. simpl in He. rewrite !elem_of_cons, elem_of_nil in He.
  destruct He as [->|[->|[->|[]]]];
    [exists Sample.karim|exists Sample.karim|exists Sample.rahim];
    (split; [apply list_elem_of_In; simpl; auto|reflexivity]).
Qed.

Lemma credit_5000_note (n : string) :
  LedgerEntrySerializer.in_note Sample.credit_5000 = Some n ->
  Py.contains n (String Ascii.zero EmptyString) = false.
Proof. by intros [= <-]. Qed.

Lemma shop_visible :
  Spec.visible Sample.shop 1 (Sample.entry 1 1 "CREDIT" 500000 Sample.may_1 100).
Proof.
  split; [apply list_elem_of_here|]. exists Sample.karim.
  split; [|reflexivity]. split; [apply list_elem_of_here|reflexivity].
Qed.

End ShopFacts.

Section MoreWitnesses.
Local Open Scope string_scope.

(** Alice asks for Karim's entries. *)
Lemma by_customer_answers_witness :
  Py.given (Some "1") = true /\
  Customer.get_owned (customers Sample.shop) (JStr (param (Some "1"))) 1
  = QuerySet.Found Sample.karim /\
  exists r rows,
    LedgerEntryViewSet.by_customer Sample.shop 1 (Some "1") = Ok r HTTP_200_OK /\
    rows ≡ₚ Spec.entries_of Sample.karim (ledger_entries Sample.shop) /\
    Customer.total_credit (LedgerEntryViewSet.bc_summary r)
    = Spec.sum_amounts (filter (fun e => LedgerEntry.type e = "CREDIT") rows).
Proof.
  split; [reflexivity|]. split; [reflexivity|].
  destruct (by_customer_answers Sample.shop 1 (Some "1")) as (_ & _ & H).
  destruct (H Sample.karim eq_refl eq_refl) as (r & rows & Hr & _ & Hp & _ & Hc & _).
  exists r, rows. auto.
Defined.

(** The customer that the listing names is alice's. *)
Lemma reads_stay_with_owner_witness :
  exists r c,
    LedgerEntryViewSet.by_customer Sample.shop 1 (Some "1") = Ok r HTTP_200_OK /\
    Spec.owns Sample.shop 1 c /\
    LedgerEntryViewSet.bc_customer r = LedgerEntryViewSet.customer_ref c.
Proof.
  destruct (reads_stay_with_owner Py.CPython_3_12 Sample.shop 1 (Some "1") None None None)
    as (H & _).
  eexists. destruct (H _ _ eq_refl) as (c & Ho & Hc & _).
  exists c. split; [reflexivity|]. split; [exact Ho|exact Hc].
Defined.

(** Karim's summary, asked for by alice. *)
Lemma summary_view_answers_witness :
  Customer.get_owned (customers Sample.shop) (JInt 1) 1 = QuerySet.Found Sample.karim /\
  CustomerViewSet.summary Sample.shop 1 (JInt 1)
  = Ok (CustomerSummarySerializer.to_representation (ledger_entries Sample.shop)
          Sample.karim) HTTP_200_OK.
Proof.
  split; [reflexivity|].
  destruct (summary_view_answers Sample.shop 1 (JInt 1)) as (H & _).
  exact (H Sample.karim eq_refl).
Defined.

(** Alice stores a credit of 5000.00 for Karim. *)
Lemma create_stores_entry_witness :
  LedgerEntrySerializer.in_type Sample.credit_5000 = Some "CREDIT" /\
  LedgerEntrySerializer.in_amount Sample.credit_5000 = Some 500000 /\
  Z.abs 500000 < 10 ^ 12 /\
  Customer.get_owned (customers Sample.shop) (JInt 1) 1 = QuerySet.Found Sample.karim /\
  exists e,
    LedgerEntryViewSet.create Sample.shop 1 500 Sample.may_2
      (LedgerEntryViewSet.mkCreateRequest (JInt 1) Sample.credit_5000)
    = (Ok (LedgerEntrySerializer.OfInstance (LedgerEntrySerializer.to_representation e))
          HTTP_201_CREATED,
       mkDatabase (users Sample.shop) (customers Sample.shop)
         (ledger_entries Sample.shop ++ [e])%list) /\
    LedgerEntry.amount e = 500000 /\
    LedgerEntry.entry_date e = Sample.may_2.
Proof.
  split; [reflexivity|]. split; [reflexivity|]. split; [reflexivity|].
  split; [reflexivity|].
  destruct (create_stores_entry Sample.shop 1 500 Sample.may_2
              (LedgerEntryViewSet.mkCreateRequest (JInt 1) Sample.credit_5000)
              Sample.karim "CREDIT" 500000 eq_refl (or_introl eq_refl) eq_refl
              eq_refl credit_5000_note eq_refl) as (e & Hc & _ & _ & Ha & _ & Hd & _).
  exists e. auto.
Defined.

(** After it Karim's total credit is higher by 5000.00. *)
Lemma create_then_summary_witness :
  Customer.get_owned (customers Sample.shop) (JInt 1) 1 = QuerySet.Found Sample.karim /\
  Customer.total_credit
    (Customer.get_summary
       (ledger_entries
          (snd (LedgerEntryViewSet.create Sample.shop 1 500 Sample.may_2
                  (LedgerEntryViewSet.mkCreateRequest (JInt 1) Sample.credit_5000))))
       Sample.karim)
  = Customer.total_credit (Customer.get_summary (ledger_entries Sample.shop) Sample.karim)
    + 500000.
Proof.
  split; [reflexivity|].
  destruct (create_then_summary Sample.shop 1 500 Sample.may_2
              (LedgerEntryViewSet.mkCreateRequest (JInt 1) Sample.credit_5000)
              Sample.karim "CREDIT" 500000 eq_refl (or_introl eq_refl) eq_refl
              eq_refl credit_5000_note eq_refl) as (H & _).
  destruct (H eq_refl) as [H1 _]. exact H1.
Defined.

(** A request without fields is refused and stores nothing. *)
Lemma create_changes_little_witness :
  status_code
    (fst (LedgerEntryViewSet.create Sample.shop 1 500 Sample.may_2
            (LedgerEntryViewSet.mkCreateRequest (JInt 1)
               (LedgerEntrySerializer.mkInput None None None))))
  = HTTP_400_BAD_REQUEST /\
  snd (LedgerEntryViewSet.create Sample.shop 1 500 Sample.may_2
         (LedgerEntryViewSet.mkCreateRequest (JInt 1)
            (LedgerEntrySerializer.mkInput None None None)))
  = Sample.shop.
Proof.
  split; [reflexivity|].
  destruct (create_changes_little Sample.shop 1 500 Sample.may_2
              (LedgerEntryViewSet.mkCreateRequest (JInt 1)
                 (LedgerEntrySerializer.mkInput None None None))) as (_ & _ & H & _).
  apply H. discriminate.
Defined.

(** The keys of the shop's entries stay unique when alice stores one more. *)
Lemma create_keeps_invariants_witness :
  Spec.unique_entry_ids Sample.shop /\
  Spec.unique_entry_ids
    (snd (LedgerEntryViewSet.create Sample.shop 1 500 Sample.may_2
            (LedgerEntryViewSet.mkCreateRequest (JInt 1) Sample.credit_5000))).
Proof.
  split; [exact shop_unique_entry_ids|].
  destruct (create_keeps_invariants Sample.shop 1 500 Sample.may_2
              (LedgerEntryViewSet.mkCreateRequest (JInt 1) Sample.credit_5000))
    as (H & _).
  exact (H shop_unique_entry_ids).
Defined.

(** User 3 has no customers in the shop. *)
Lemma statistics_rest_on_own_data_witness :
  Spec.customers_of 3 (customers Sample.shop) = [] /\
  LedgerEntryViewSet.statistics Sample.shop 3
  = Ok (LedgerEntryViewSet.mkStatistics 0 Py.fzero Py.fzero Py.fzero 0) HTTP_200_OK.
Proof.
  split; [reflexivity|].
  destruct (statistics_rest_on_own_data Sample.shop Sample.shop 3) as (_ & _ & H).
  exact (H eq_refl).
Defined.

(** Alice's statistics count the three entries of her listing. *)
Lemma statistics_count_the_listing_witness :
  Spec.unique_customer_ids Sample.shop /\
  exists stats,
    LedgerEntryViewSet.statistics Sample.shop 1 = Ok stats HTTP_200_OK /\
    LedgerEntryViewSet.total_entries stats
    = QuerySet.count (LedgerEntryViewSet.get_queryset Sample.shop 1).
Proof.
  split; [exact shop_unique_customer_ids|].
  destruct (statistics_count_the_listing Sample.shop 1) as (_ & H).
  exact (H shop_unique_customer_ids).
Defined.

(** Karim's first entry is shown to alice and not to bob. *)
Lemma entries_are_not_shared_witness :
  Spec.unique_customer_ids Sample.shop /\
  Sample.entry 1 1 "CREDIT" 500000 Sample.may_1 100
    ∈ QuerySet.rows (LedgerEntryViewSet.get_queryset Sample.shop 1) /\
  (Sample.entry 1 1 "CREDIT" 500000 Sample.may_1 100
    ∉ QuerySet.rows (LedgerEntryViewSet.get_queryset Sample.shop 2)).
Proof.
  assert (Hin : Sample.entry 1 1 "CREDIT" 500000 Sample.may_1 100
                  ∈ QuerySet.rows (LedgerEntryViewSet.get_queryset Sample.shop 1))
    by (apply visible_rows; exact shop_visible).
  split; [exact shop_unique_customer_ids|]. split; [exact Hin|].
  apply (entries_are_not_shared Sample.shop 1 2 _ shop_unique_customer_ids);
    [discriminate|exact Hin].
Defined.

(** A request without a name. *)
Lemma customer_create_answers_witness :
  CustomerSerializer.in_name (CustomerSerializer.mkInput None (Some "0190") None) = None /\
  exists errors msg,
    CustomerViewSet.create Sample.shop 1 600
      (CustomerSerializer.mkInput None (Some "0190") None)
    = (Rejected errors HTTP_400_BAD_REQUEST, Sample.shop) /\
    (("name", msg) : string * string) ∈ errors.
Proof.
  split; [reflexivity|].
  destruct (customer_create_answers Sample.shop 1 600
              (CustomerSerializer.mkInput None (Some "0190") None)) as (_ & H).
  exact (H (or_introl eq_refl)).
Defined.


(** Jamal starts with an empty summary, and bob cannot see him. *)
Lemma new_customer_starts_empty_witness :
  Spec.referential_integrity Sample.shop /\
  (exists s,
     CustomerViewSet.summary
       (mkDatabase (users Sample.shop)
          (customers Sample.shop ++ [Customer.mk 4 1 "Jamal" None None 600 600])%list
          (ledger_entries Sample.shop)) 1 (JInt 4) = Ok s HTTP_200_OK /\
     CustomerSummarySerializer.balance s = 0 /\
     CustomerSummarySerializer.entries_count s = 0) /\
  CustomerViewSet.summary
    (mkDatabase (users Sample.shop)
       (customers Sample.shop ++ [Customer.mk 4 1 "Jamal" None None 600 600])%list
       (ledger_entries Sample.shop)) 2 (JInt 4)
  = Rejected [("detail", "Not found.")] HTTP_404_NOT_FOUND.
Proof.
  split; [exact shop_referential_integrity|].
  destruct (new_customer_starts_empty Sample.shop
              (mkDatabase (users Sample.shop)
                 (customers Sample.shop ++ [Customer.mk 4 1 "Jamal" None None 600 600])%list
                 (ledger_entries Sample.shop))
              1 600 (CustomerSerializer.mkInput (Some "Jamal") None None)
              (CustomerSerializer.mkData 4 "Jamal" None None 600 600)
              shop_referential_integrity eq_refl)
    as ((s & Hs & _ & _ & _ & _ & Hb & Hn) & Hother).
  split; [exists s; auto|]. apply Hother. discriminate.
Defined.

(** Alice deletes Karim. *)
Lemma customer_destroy_answers_witness :
  Customer.get_owned (customers Sample.shop) (JInt 1) 1 = QuerySet.Found Sample.karim /\
  fst (CustomerViewSet.destroy Sample.shop 1 (JInt 1)) = Ok tt HTTP_204_NO_CONTENT /\
  Customer.get_owned (customers (snd (CustomerViewSet.destroy Sample.shop 1 (JInt 1))))
    (JInt 1) 1 = QuerySet.DoesNotExist.
Proof.
  split; [reflexivity|].
  destruct (customer_destroy_answers Sample.shop 1 (JInt 1)) as (H & _).
  destruct (H Sample.karim eq_refl) as (Hr & _ & _ & _ & _ & _ & Hgone).
  split; [exact Hr|exact Hgone].
Defined.

(** Without Karim and his entries every entry still has its customer. *)
Lemma customer_destroy_keeps_invariants_witness :
  Spec.referential_integrity Sample.shop /\
  Spec.referential_integrity (snd (CustomerViewSet.destroy Sample.shop 1 (JInt 1))).
Proof.
  split; [exact shop_referential_integrity|].
  destruct (customer_destroy_keeps_invariants Sample.shop 1 (JInt 1)) as (_ & _ & H).
  exact (H shop_referential_integrity).
Defined.

(** With Jamal the keys of the customers are still unique. *)
Lemma customer_create_keeps_invariants_witness :
  Spec.unique_customer_ids Sample.shop /\
  Spec.unique_customer_ids
    (snd (CustomerViewSet.create Sample.shop 1 600
            (CustomerSerializer.mkInput (Some "Jamal") None None))).
Proof.
  split; [exact shop_unique_customer_ids|].
  destruct (customer_create_keeps_invariants Sample.shop 1 600
              (CustomerSerializer.mkInput (Some "Jamal") None None))
    as (_ & _ & _ & _ & H & _).
  exact (H shop_unique_customer_ids).
Defined.

(** Alice reads Karim's first entry. *)
Lemma entry_retrieve_answers_witness :
  Spec.unique_entry_ids Sample.shop /\
  Spec.visible Sample.shop 1 (Sample.entry 1 1 "CREDIT" 500000 Sample.may_1 100) /\
  LedgerEntryViewSet.retrieve Sample.shop 1 (JInt 1)
  = Ok (LedgerEntrySerializer.to_representation
          (Sample.entry 1 1 "CREDIT" 500000 Sample.may_1 100)) HTTP_200_OK.
Proof.
  split; [exact shop_unique_entry_ids|]. split; [exact shop_visible|].
  destruct (entry_retrieve_answers Sample.shop 1 (JInt 1)) as (_ & _ & H).
  exact (H shop_unique_entry_ids _ shop_visible).
Defined.

(** Alice deletes it. *)
Lemma entry_destroy_answers_witness :
  Spec.unique_entry_ids Sample.shop /\
  Spec.visible Sample.shop 1 (Sample.entry 1 1 "CREDIT" 500000 Sample.may_1 100) /\
  exists db',
    LedgerEntryViewSet.destroy Sample.shop 1 (JInt 1) = (Ok tt HTTP_204_NO_CONTENT, db') /\
    ledger_entries Sample.shop
    ≡ₚ Sample.entry 1 1 "CREDIT" 500000 Sample.may_1 100 :: ledger_entries db'.
Proof.
  split; [exact shop_unique_entry_ids|]. split; [exact shop_visible|].
  destruct (entry_destroy_answers Sample.shop 1 (JInt 1)) as (_ & H).
  destruct (H shop_unique_entry_ids _ shop_visible) as (db' & Hd & _ & _ & Hp & _).
  exists db'. split; [exact Hd|exact Hp].
Defined.

(** Without it Karim's credit is lower by 5000.00. *)
Lemma entry_destroy_then_summary_witness :
  Spec.unique_entry_ids Sample.shop /\
  Spec.visible Sample.shop 1 (Sample.entry 1 1 "CREDIT" 500000 Sample.may_1 100) /\
  Spec.sum_amounts
    (Spec.entries_of_type Sample.karim "CREDIT"
       (ledger_entries (snd (LedgerEntryViewSet.destroy Sample.shop 1 (JInt 1)))))
  = Spec.sum_amounts
      (Spec.entries_of_type Sample.karim "CREDIT" (ledger_entries Sample.shop))
    - 500000.
Proof.
  split; [exact shop_unique_entry_ids|]. split; [exact shop_visible|].
  destruct (entry_destroy_then_summary Sample.shop 1
              (Sample.entry 1 1 "CREDIT" 500000 Sample.may_1 100) Sample.karim
              shop_unique_entry_ids shop_visible) as (H & _).
  destruct (H eq_refl "CREDIT" eq_refl) as (H1 & _). exact H1.
Defined.

(** Alice stores a credit for Karim and deletes it again. *)
Lemma create_then_destroy_witness :
  LedgerEntryViewSet.create Sample.shop 1 500 Sample.may_2
    (LedgerEntryViewSet.mkCreateRequest (JInt 1) Sample.credit_5000)
  = (Ok (LedgerEntrySerializer.OfInstance
           (LedgerEntrySerializer.to_representation
              (LedgerEntry.mk 4 1 "CREDIT" 500000 (Some "rice") Sample.may_2 500 500)))
        HTTP_201_CREATED,
     mkDatabase (users Sample.shop) (customers Sample.shop)
       (ledger_entries Sample.shop ++
        [LedgerEntry.mk 4 1 "CREDIT" 500000 (Some "rice") Sample.may_2 500 500])%list) /\
  LedgerEntryViewSet.destroy
    (mkDatabase (users Sample.shop) (customers Sample.shop)
       (ledger_entries Sample.shop ++
        [LedgerEntry.mk 4 1 "CREDIT" 500000 (Some "rice") Sample.may_2 500 500])%list)
    1 (JInt 4)
  = (Ok tt HTTP_204_NO_CONTENT, Sample.shop).
Proof.
  split; [reflexivity|].
  destruct (create_then_destroy Sample.shop
              (mkDatabase (users Sample.shop) (customers Sample.shop)
                 (ledger_entries Sample.shop ++
                  [LedgerEntry.mk 4 1 "CREDIT" 500000 (Some "rice") Sample.may_2 500 500])%list)
              1 500 Sample.may_2
              (LedgerEntryViewSet.mkCreateRequest (JInt 1) Sample.credit_5000)
              (LedgerEntrySerializer.to_representation
                 (LedgerEntry.mk 4 1 "CREDIT" 500000 (Some "rice") Sample.may_2 500 500))
              eq_refl) as (_ & H).
  exact H.
Defined.

(** Karim's entries through the date filter without bounds. *)
Lemma reads_agree_witness :
  Py.given (Some "1") = true /\
  Customer.get_owned (customers Sample.shop) (JStr (param (Some "1"))) 1
  = QuerySet.Found Sample.karim /\
  exists all r,
    LedgerEntryViewSet.by_customer Sample.shop 1 (Some "1") = Ok all HTTP_200_OK /\
    LedgerEntryViewSet.filter_by_date Sample.shop 1 (Some "1") None (Some "")
    = Ok r HTTP_200_OK /\
    LedgerEntryViewSet.fd_entries r = LedgerEntryViewSet.bc_entries all.
Proof.
  split; [reflexivity|]. split; [reflexivity|].
  destruct (reads_agree Py.CPython_3_12 Sample.shop 1 (Some "1") Sample.karim eq_refl eq_refl)
    as (all & credits & debits & Hall & _ & _ & Hdate & _).
  destruct (Hdate None (Some "") eq_refl eq_refl) as (r & Hr & He & _).
  exists all, r. auto.
Defined.

(** The key [abc]. *)
Lemma malformed_customer_id_witness :
  Py.truthy "abc" = true /\ Field.int_of_str "abc" = None /\
  LedgerEntryViewSet.by_customer Sample.shop 1 (Some "abc") = Unhandled "ValueError" /\
  CustomerViewSet.summary Sample.shop 1 (JStr "abc")
  = Rejected [("detail", "Not found.")] HTTP_404_NOT_FOUND.
Proof.
  split; [reflexivity|]. split; [reflexivity|].
  destruct (malformed_customer_id Py.CPython_3_12 Sample.shop 1 "abc" eq_refl eq_refl)
    as (H1 & _ & _ & _ & H2).
  split; [exact H1|exact H2].
Defined.

(** May 1st, 2024. *)
Lemma iso_dates_are_accepted_witness :
  Py.make_date 2024 5 1 = Some Sample.may_1 /\
  Py.isoformat Sample.may_1 = "2024-05-01" /\
  Py.strptime_ymd (Py.isoformat Sample.may_1) = Some Sample.may_1.
Proof.
  split; [reflexivity|]. split; [reflexivity|].
  destruct (iso_dates_are_accepted Sample.may_1) as (H & _).
  destruct (H eq_refl) as (H1 & _). exact H1.
Defined.

(** With the new user the user names of the shop are still unique. *)
Lemma registration_keeps_invariants_witness :
  Spec.unique_usernames Sample.shop /\
  Spec.unique_usernames
    (snd (UserRegistrationView.post Sample.username_validator Sample.email_validator
            Sample.normalize_username Sample.shop
            (Sample.registration "testuser" "testpass123" "testpass123"))).
Proof.
  split; [exact shop_unique_usernames|].
  destruct (registration_keeps_invariants Sample.username_validator
              Sample.email_validator Sample.normalize_username Sample.shop
              (Sample.registration "testuser" "testpass123" "testpass123"))
    as (_ & _ & _ & _ & _ & H).
  exact (H shop_unique_usernames).
Defined.

(** [KAR] and [kar]. *)
Lemma search_ignores_case_witness :
  Py.lower "KAR" = Py.lower "kar" /\
  CustomerViewSet.search Sample.shop 1 (Some "KAR")
  = CustomerViewSet.search Sample.shop 1 (Some "kar").
Proof.
  split; [reflexivity|].
  exact (search_ignores_case Sample.shop 1 "KAR" "kar" eq_refl).
Defined.

End MoreWitnesses.
